(** * Identity-verification workflow engine: a shallow embedding

    The orchestrator package (validators, tool registry, workflow state
    machine) embedded as Rocq functions.  Python [str] values are modelled as
    [string], read as sequences of code points below 256; [str.isspace],
    [str.isdigit] and [str.lower] follow Python on that range.  Exceptions
    are explicit: fallible code returns [result].  External collaborators
    (text generation, libphonenumber, mail dispatch, Firestore, clock, random
    source, SHA-256) are fields of a record handed to the code. *)

From Stdlib Require Import String Ascii Bool Arith ZArith Lia List DecimalString.
From stdpp Require Import base option gmap strings.
Import ListNotations.

(** String concatenation unfolds on a constructor, as list append does. *)
Global Arguments String.append !s1 s2 : simpl nomatch.

(** ** Python string primitives *)
Module PyStr.

Definition code (c : ascii) : nat := nat_of_ascii c.

Definition between (lo hi n : nat) : bool := (lo <=? n) && (n <=? hi).

(** [str.isspace] on a single code point below 256. *)
Definition isspace (c : ascii) : bool :=
  let n := code c in
  between 9 13 n || between 28 32 n || (n =? 133) || (n =? 160).

(** [str.isdigit]: the decimal digits and the superscripts U+00B2, U+00B3,
    U+00B9. *)
Definition isdigit (c : ascii) : bool :=
  let n := code c in
  between 48 57 n || (n =? 178) || (n =? 179) || (n =? 185).

Definition lower_char (c : ascii) : ascii :=
  let n := code c in
  if between 65 90 n || (between 192 222 n && negb (n =? 215))
  then ascii_of_nat (n + 32) else c.

(** [s.lower()] *)
Fixpoint lower (s : string) : string :=
  match s with
  | EmptyString => EmptyString
  | String c s' => String (lower_char c) (lower s')
  end.

Fixpoint lstrip (s : string) : string :=
  match s with
  | EmptyString => EmptyString
  | String c s' => if isspace c then lstrip s' else s
  end.

Fixpoint rstrip (s : string) : string :=
  match s with
  | EmptyString => EmptyString
  | String c s' =>
      match rstrip s' with
      | EmptyString => if isspace c then EmptyString else String c EmptyString
      | r => String c r
      end
  end.

(** [s.strip()] *)
Definition strip (s : string) : string := rstrip (lstrip s).

(** [s.count(c)] for a one-character needle. *)
Fixpoint count (c : ascii) (s : string) : nat :=
  match s with
  | EmptyString => 0
  | String d s' => (if Ascii.eqb c d then 1 else 0) + count c s'
  end.

(** [sub in s] *)
Fixpoint contains (sub s : string) : bool :=
  String.prefix sub s ||
  match s with
  | EmptyString => false
  | String _ s' => contains sub s'
  end.

(** [''.join(filter(pred, s))] *)
Fixpoint filter (p : ascii -> bool) (s : string) : string :=
  match s with
  | EmptyString => EmptyString
  | String c s' => if p c then String c (filter p s') else filter p s'
  end.

Fixpoint all (p : ascii -> bool) (s : string) : bool :=
  match s with
  | EmptyString => true
  | String c s' => p c && all p s'
  end.

Definition nonspace (c : ascii) : bool := negb (isspace c).

(** Truthiness of a [str]: the empty string is falsy. *)
Definition nonempty (s : string) : bool :=
  match s with EmptyString => false | _ => true end.

Fixpoint repeat (c : ascii) (n : nat) : string :=
  match n with
  | O => EmptyString
  | S n' => String c (repeat c n')
  end.

(** [s[:n]] *)
Fixpoint take (n : nat) (s : string) : string :=
  match n, s with
  | S n', String c s' => String c (take n' s')
  | _, _ => EmptyString
  end.

End PyStr.

(** ** Regular expressions with Python's backtracking priorities

    Only the constructs the two patterns of the email validator use: a
    one-character class, concatenation, and a greedy class repetition with a
    lower bound ([+] is [Rep p 1], [{2,}] is [Rep p 2]). *)
Module Regex.

Inductive re : Type :=
| Chr (p : ascii -> bool)
| Cat (a b : re)
| Rep (p : ascii -> bool) (lo : nat).

(** Greedy repetition: consume one more character when possible, and fall
    back to stopping here (allowed once the lower bound is met) only when the
    continuation fails further on. *)
Fixpoint rep (p : ascii -> bool) (lo : nat) (k : string -> option string)
    (s : string) : option string :=
  let stop := if lo =? 0 then k s else None in
  match s with
  | EmptyString => stop
  | String c s' =>
      if p c then
        match rep p (pred lo) k s' with
        | Some r => Some r
        | None => stop
        end
      else stop
  end.

(** [bt r k s]: match [r] at the start of [s], then run the continuation on
    what is left; the first success in priority order wins. *)
Fixpoint bt (r : re) (k : string -> option string) (s : string)
    : option string :=
  match r with
  | Chr p =>
      match s with
      | String c s' => if p c then k s' else None
      | EmptyString => None
      end
  | Cat a b => bt a (bt b k) s
  | Rep p lo => rep p lo k s
  end.

(** [$] without MULTILINE: at the end, or just before a final newline. *)
Definition at_end (s : string) : bool :=
  match s with
  | EmptyString => true
  | String c EmptyString => Ascii.eqb c "010"%char
  | _ => false
  end.

(** [re.compile('^r$').match(s) is not None] *)
Definition match_anchored (r : re) (s : string) : bool :=
  match bt r (fun rest => if at_end rest then Some rest else None) s with
  | Some _ => true
  | None => false
  end.

(** [re.findall(r, s)[0]] when the list is not empty: the match at the
    leftmost position where one exists. *)
Fixpoint search (r : re) (s : string) : option string :=
  match bt r Some s with
  | Some rest => Some (PyStr.take (String.length s - String.length rest) s)
  | None =>
      match s with
      | EmptyString => None
      | String _ s' => search r s'
      end
  end.

(** The language of a pattern, independent of matching order. *)
Inductive lang : re -> string -> Prop :=
| lang_chr p c : p c = true -> lang (Chr p) (String c EmptyString)
| lang_cat a b s1 s2 : lang a s1 -> lang b s2 -> lang (Cat a b) (s1 +:+ s2)
| lang_rep p lo s :
    lo <= String.length s -> PyStr.all p s = true -> lang (Rep p lo) s.

(** A word of the language occurs in [s] at offset [String.length pre]. *)
Definition occurs (r : re) (pre m s : string) : Prop :=
  exists post, s = pre +:+ m +:+ post /\ lang r m.

End Regex.

(** ** Values, exceptions and the shared result models (models.py) *)

(** The values that travel in the duck-typed dictionaries. *)
#[warnings="-register-all"]
Inductive pyval : Type :=
| VNone
| VBool (b : bool)
| VInt (n : Z)
| VStr (s : string)
| VList (l : list pyval)
| VDict (d : gmap string pyval).

Abbreviation pydict := (gmap string pyval).

(** Python truthiness. *)
Definition truthy (v : pyval) : bool :=
  match v with
  | VNone => false
  | VBool b => b
  | VInt n => negb (n =? 0)%Z
  | VStr s => PyStr.nonempty s
  | VList l => negb (bool_decide (l = []))
  | VDict d => negb (bool_decide (d = ∅))
  end.

(** [d.get(k)] and [d.get(k, default)] *)
Definition dict_get (d : pydict) (k : string) : pyval := default VNone (d !! k).
Definition dict_get_or (d : pydict) (k : string) (dflt : pyval) : pyval :=
  default dflt (d !! k).

Inductive exn : Type :=
| KeyError (key : string)
| TypeError (what : string)
| AttributeError (what : string)
| ValidationError (model field : string)
| RuntimeError (msg : string).

(** [str(e)] *)
Definition exn_message (e : exn) : string :=
  match e with
  | KeyError k => k
  | TypeError w => w
  | AttributeError w => w
  | ValidationError m f => m +:+ "." +:+ f
  | RuntimeError msg => msg
  end.

Inductive result (A : Type) : Type :=
| Ok (a : A)
| Raise (e : exn).
Arguments Ok {A} a.
Arguments Raise {A} e.

(** Sequencing: an exception aborts what follows. *)
Global Instance result_bind : MBind result := fun A B f m =>
  match m with
  | Ok a => f a
  | Raise e => Raise e
  end.

(** [d[k]] *)
Definition dict_item (d : pydict) (k : string) : result pyval :=
  match d !! k with
  | Some v => Ok v
  | None => Raise (KeyError k)
  end.

(** A pydantic [str] field: anything but a string is a validation error. *)
Definition as_str (model field : string) (v : pyval) : result string :=
  match v with
  | VStr s => Ok s
  | _ => Raise (ValidationError model field)
  end.

(** A required pydantic field that was given an [Optional] value. *)
Definition required {A} (model field : string) (v : option A) : result A :=
  match v with
  | Some a => Ok a
  | None => Raise (ValidationError model field)
  end.

Inductive WorkflowStep : Type :=
| AWAITING_TERMS
| AWAITING_NAME
| AWAITING_EMAIL
| AWAITING_PHONE
| AWAITING_OTP
| VERIFIED
| ACTIVE
| SUSPENDED.

Global Instance WorkflowStep_eq_dec : EqDecision WorkflowStep.
Proof. solve_decision. Defined.

(** Instants are microseconds since the epoch; a naive [datetime] is read as
    UTC, as the code does before comparing. *)
Abbreviation instant := Z.

Record UserState : Type := mkUserState {
  user_id : string;
  current_step : WorkflowStep;
  completed_steps : list string;
  data : pydict;
  terms_agreed : bool;
  terms_agreed_at : option instant;
  otp_hash : option string;
  otp_expires_at : option instant;
  failed_otp_attempts : Z;
  max_otp_attempts : Z;
  created_at : instant;
  updated_at : option instant
}.

Record ValidationResult : Type := mkValidationResult {
  success : bool;
  vr_data : option pydict;
  error_message : option string;
  metadata : option pydict
}.

Record OTPData : Type := mkOTPData {
  od_user_id : string;
  od_otp_hash : string;
  expires_at : instant;
  attempts : Z;
  max_attempts : Z;
  email_sent_to : string;
  od_created_at : instant
}.

Record User : Type := mkUser {
  u_user_id : string;
  u_email : string;
  u_first_name : string;
  u_last_name : string;
  u_phone : string;
  u_country_code : string;
  u_verified : bool;
  u_last_login : option instant
}.

Record ToolCall : Type := mkToolCall {
  name : string;
  parameters : pydict;
  reasoning : option string
}.

Record ToolResult : Type := mkToolResult {
  tool_name : string;
  tr_success : bool;
  tr_result : option pyval;
  tr_error : option string;
  executed_at : instant
}.

(** The keyword arguments a call site hands to [ToolResult(...)].  [kw_data]
    is the keyword [data=], which is not a field of the model: pydantic
    ignores it. *)
Record ToolResultArgs : Type := mkToolResultArgs {
  kw_tool_name : option string;
  kw_success : option bool;
  kw_result : option pyval;
  kw_error : option string;
  kw_data : option pyval
}.

(** [ToolResult] from keyword arguments: [tool_name] and [success] have no default and are
    required; [result] and [error] default to [None]. *)
Definition new_ToolResult (now : instant) (kw : ToolResultArgs)
    : result ToolResult :=
  tn ← required "ToolResult" "tool_name" (kw_tool_name kw);
  ok ← required "ToolResult" "success" (kw_success kw);
  Ok (mkToolResult tn ok (kw_result kw) (kw_error kw) now).

(** libphonenumber's view of a parsed number. *)
Record PhoneNumber : Type := mkPhoneNumber {
  pn_valid : bool;
  pn_country_code : string;
  pn_national_number : string;
  pn_e164 : string;
  pn_international : string;
  pn_region : pyval;
  pn_type : string
}.

(** The error types of [phonenumbers.NumberParseException]. *)
Inductive parse_error : Type :=
| INVALID_COUNTRY_CODE
| NOT_A_NUMBER
| TOO_SHORT_AFTER_IDD
| TOO_SHORT_NSN
| TOO_LONG.

Inductive parse_outcome : Type :=
| Parsed (n : PhoneNumber)
| NumberParseException (error_type : parse_error)
| ParseCrashed (e : exn).

(** ** External collaborators *)
Record Collaborators : Type := mkCollaborators {
  (** [datetime.now(timezone.utc)] during the processing of one message *)
  now : instant;
  (** [datetime.isoformat] *)
  isoformat : instant -> string;
  (** [LLMClient.generate_response(context)]; falls back internally, never
      raises *)
  generate_response : list (string * pyval) -> string;
  (** [LLMClient.extract_structured_data(messages, schema)] on the user's
      utterance; returns [{}] on any internal failure *)
  extract_structured_data : string -> pydict;
  (** [str(v)] of a stored value that is not a string *)
  repr : pyval -> string;
  (** [phonenumbers.parse(text, region)] *)
  phonenumbers_parse : string -> string -> parse_outcome;
  (** [list(phonenumbers.PhoneNumberMatcher(text, region))] *)
  phone_number_matcher : string -> string -> result (list PhoneNumber);
  (** [SecurityManager.mask_phone], when a security manager is configured *)
  security_mask_phone : option (string -> string);
  (** [PhoneValidator.mask_phone_number] on a string *)
  mask_phone_number : string -> string;
  (** the Firestore query of [_check_returning_user]: document ids with
      their contents *)
  query_users : string -> pyval -> result (list (string * pydict));
  (** [EmailService.send_otp_email(to_email, otp_code, first_name, 5)] *)
  send_otp_email : string -> string -> pyval -> bool;
  (** [UserService.create_user] *)
  create_user : User -> bool;
  (** the i-th call of [secrets.randbelow] while one code is generated *)
  randbelow : nat -> nat;
  (** [hashlib.sha256(s.encode()).digest()], one character per byte *)
  sha256 : string -> string;
  (** the salt held by the OTP validator *)
  salt : string;
  (** [VertexAgent.send_message(user_id, message, context)] *)
  agent_send_message : string -> string -> pydict -> result string;
  (** [str(datetime.utcnow().timestamp())] when the clock stands at the given
      instant: the seconds as Python prints a float *)
  timestamp_str : instant -> string
}.

(** [bytes.hex()]: two lowercase hexadecimal digits per byte. *)
Definition hex_digit (n : nat) : ascii :=
  ascii_of_nat (if n <? 10 then 48 + n else 87 + n).

Fixpoint hexlify (b : string) : string :=
  match b with
  | EmptyString => EmptyString
  | String c b' =>
      String (hex_digit (PyStr.code c / 16))
        (String (hex_digit (PyStr.code c mod 16)) (hexlify b'))
  end.

(** [hashlib.sha256(s.encode()).hexdigest()] *)
Definition sha256_hex (env : Collaborators) (s : string) : string :=
  hexlify (sha256 env s).

Definition dict_of (kvs : list (string * pyval)) : pydict := list_to_map kvs.

(** [str(n)] for an [int] *)
Definition str_of_Z (n : Z) : string :=
  DecimalString.NilZero.string_of_int (Z.to_int n).

(** [str(v)] as an f-string renders it. *)
Definition py_str (env : Collaborators) (v : pyval) : string :=
  match v with
  | VStr s => s
  | VInt n => str_of_Z n
  | _ => repr env v
  end.

(** ** validators/email_validator.py *)
Module EmailValidator.

Definition in_range (lo hi : nat) (c : ascii) : bool :=
  PyStr.between lo hi (PyStr.code c).

Fixpoint one_of (chars : string) (c : ascii) : bool :=
  match chars with
  | EmptyString => false
  | String d rest => Ascii.eqb c d || one_of rest c
  end.

(** [[a-zA-Z]] *)
Definition alpha (c : ascii) : bool := in_range 97 122 c || in_range 65 90 c.
(** [[a-zA-Z0-9._%+-]] *)
Definition local_char (c : ascii) : bool :=
  alpha c || in_range 48 57 c || one_of "._%+-" c.
(** [[a-zA-Z0-9.-]] *)
Definition domain_char (c : ascii) : bool :=
  alpha c || in_range 48 57 c || one_of ".-" c.

(** The body shared by both patterns:
    [[a-zA-Z0-9._%+-]+@[a-zA-Z0-9.-]+\.[a-zA-Z]{2,}] *)
Definition email_body : Regex.re :=
  Regex.Cat (Regex.Rep local_char 1)
    (Regex.Cat (Regex.Chr (Ascii.eqb "@"))
      (Regex.Cat (Regex.Rep domain_char 1)
        (Regex.Cat (Regex.Chr (Ascii.eqb "."))
          (Regex.Rep alpha 2)))).

(** [EMAIL_REGEX], used between [^] and [$]. *)
Definition EMAIL_REGEX : Regex.re := email_body.
(** [extraction_pattern], used without anchors. *)
Definition extraction_pattern : Regex.re := email_body.

Definition _is_valid_format (email : string) : bool :=
  if negb (PyStr.nonempty email) then false
  else if 320 <? String.length email then false
  else if negb (PyStr.count "@" email =? 1) then false
  else Regex.match_anchored EMAIL_REGEX email.

(** [None] when nothing matches and, because of the [except], when the query
    raises. *)
Definition _check_returning_user (env : Collaborators) (email : string)
    (last_name : pyval) : option pydict :=
  match query_users env email last_name with
  | Ok ((doc_id, user_data) :: _) =>
      Some (dict_of
        [("user_id", VStr doc_id);
         ("first_name", dict_get user_data "first_name");
         ("last_name", dict_get user_data "last_name");
         ("phone", dict_get user_data "phone");
         ("country_code", dict_get user_data "country_code");
         ("verified", dict_get_or user_data "verified" (VBool false))])
  | Ok [] => None
  | Raise _ => None
  end.

Definition is_not_none (v : pyval) : bool :=
  match v with VNone => false | _ => true end.

Definition validate (env : Collaborators) (email : string) (last_name : pyval)
    : ValidationResult :=
  let email := PyStr.lower (PyStr.strip email) in
  if negb (_is_valid_format email) then
    mkValidationResult false None
      (Some "That doesn't look like a valid email address. Please check and try again.")
      None
  else
    let user_data :=
      if truthy last_name then _check_returning_user env email last_name
      else None in
    let is_returning := bool_decide (is_Some user_data) in
    mkValidationResult true
      (Some (dict_of
        [("email", VStr email);
         ("is_returning_user", VBool is_returning);
         ("user_data", from_option VDict VNone user_data)]))
      None
      (Some (dict_of
        [("validation_type", VStr "email");
         ("returning_user_check", VBool (is_not_none last_name))])).

Definition extract_email_from_text (text : string) : option string :=
  match Regex.search extraction_pattern text with
  | Some m => Some (PyStr.lower m)
  | None => None
  end.

End EmailValidator.

(** ** validators/otp_validator.py *)
Module OTPValidator.

Definition OTP_LENGTH : nat := 6.
Definition OTP_EXPIRY_MINUTES : Z := 5.
Definition MAX_ATTEMPTS : Z := 3.

(** [timedelta(minutes=m)] in microseconds *)
Definition minutes (m : Z) : Z := (m * 60 * 1000000)%Z.

(** [str(d)] for a draw [d] of [secrets.randbelow(10)] *)
Definition digit_char (d : nat) : ascii := ascii_of_nat (48 + d mod 10).

Definition generate_otp (env : Collaborators) : string :=
  string_of_list_ascii
    (map (fun i => digit_char (randbelow env i)) (seq 0 OTP_LENGTH)).

Definition hash_otp (env : Collaborators) (otp : string) : string :=
  sha256_hex env (otp +:+ salt env).

Definition create_otp_data (env : Collaborators) (uid : string) (email : pyval)
    : result (string * OTPData) :=
  let plain_otp := generate_otp env in
  let otp_hash := hash_otp env plain_otp in
  let expires := (now env + minutes OTP_EXPIRY_MINUTES)%Z in
  sent_to ← as_str "OTPData" "email_sent_to" email;
  Ok (plain_otp,
      mkOTPData uid otp_hash expires 0 MAX_ATTEMPTS sent_to (now env)).

Definition otp_error (msg error_type : string) (extra : list (string * pyval))
    : ValidationResult :=
  mkValidationResult false None (Some msg)
    (Some (dict_of
      ([("validation_type", VStr "otp"); ("error_type", VStr error_type)]
       ++ extra))).

Definition is_ascii (c : ascii) : bool := PyStr.code c <? 128.

(** [secrets.compare_digest(a, b)] on two [str]: a character outside ASCII
    in either of them is a [TypeError]. *)
Definition compare_digest (a b : string) : result bool :=
  if PyStr.all is_ascii a && PyStr.all is_ascii b then Ok (String.eqb a b)
  else
    Raise (TypeError
             "comparing strings with non-ASCII characters is not supported").

Definition validate (env : Collaborators) (user_input : string)
    (otp_data : OTPData) : result ValidationResult :=
  let digits_only := PyStr.filter PyStr.isdigit user_input in
  if negb (String.length digits_only =? OTP_LENGTH) then
    Ok (otp_error "Please enter a 6-digit code." "invalid_length" [])
  else if (expires_at otp_data <? now env)%Z then
    Ok (otp_error "This code has expired. Please request a new one."
          "expired" [])
  else if (max_attempts otp_data <=? attempts otp_data)%Z then
    Ok (otp_error "Too many failed attempts. Please request a new code."
          "max_attempts" [])
  else
    let input_hash := hash_otp env digits_only in
    matched ← compare_digest input_hash (od_otp_hash otp_data);
    if matched : bool then
      Ok (mkValidationResult true
            (Some (dict_of
              [("user_id", VStr (od_user_id otp_data));
               ("verified_at", VStr (isoformat env (now env)))]))
            None
            (Some (dict_of [("validation_type", VStr "otp")])))
    else
      let remaining_attempts :=
        (max_attempts otp_data - (attempts otp_data + 1))%Z in
      let error_msg :=
        if (0 <? remaining_attempts)%Z then
          "Invalid code. You have " +:+ str_of_Z remaining_attempts
            +:+ " attempt(s) remaining."
        else "Invalid code. No attempts remaining. Please request a new code."
      in
      Ok (otp_error error_msg "invalid_code"
            [("attempts_remaining", VInt remaining_attempts)]).

End OTPValidator.

Definition failure (msg : string) : ValidationResult :=
  mkValidationResult false None (Some msg) None.

(** ** validators/name_validator.py *)
Module NameValidator.

(** [v.strip()]: only a [str] has the method. *)
Definition strip_value (v : pyval) : result string :=
  match v with
  | VStr s => Ok (PyStr.strip s)
  | _ => Raise (TypeError "strip")
  end.

Definition validate (env : Collaborators) (user_input : string)
    : ValidationResult :=
  let user_input := PyStr.strip user_input in
  if negb (PyStr.nonempty user_input) then
    failure "I didn't catch your name. Could you please tell me your full name?"
  else
    let extracted := extract_structured_data env user_input in
    let has_first := dict_get_or extracted "has_first_name" (VBool false) in
    let has_last := dict_get_or extracted "has_last_name" (VBool false) in
    let parsed :=
      first_name ← strip_value (dict_get_or extracted "first_name" (VStr ""));
      last_name ← strip_value (dict_get_or extracted "last_name" (VStr ""));
      Ok (first_name, last_name) in
    match parsed with
    | Ok (first_name, last_name) =>
        if negb (truthy has_first) || negb (PyStr.nonempty first_name) then
          failure "I couldn't detect your name in that message. Could you please provide your full name (first and last)?"
        else if negb (truthy has_last) || negb (PyStr.nonempty last_name) then
          mkValidationResult false
            (Some (dict_of [("first_name", VStr first_name)]))
            (Some ("Thanks, " +:+ first_name +:+
                   "! Could you also provide your last name? I need your full name to continue."))
            (Some (dict_of
              [("validation_type", VStr "name");
               ("incomplete", VBool true);
               ("missing", VStr "last_name")]))
        else
          mkValidationResult true
            (Some (dict_of
              [("first_name", VStr first_name);
               ("last_name", VStr last_name);
               ("full_name", VStr (first_name +:+ " " +:+ last_name))]))
            None
            (Some (dict_of
              [("validation_type", VStr "name"); ("complete", VBool true)]))
    | Raise _ =>
        failure "I'm having trouble processing that. Could you please provide your full name (first and last)?"
    end.

End NameValidator.

(** ** validators/phone_validator.py *)
Module PhoneValidator.

(** [region or self.default_region] *)
Definition parse_region (default_region : string) (region : option string)
    : string :=
  match region with
  | Some r => if PyStr.nonempty r then r else default_region
  | None => default_region
  end.

Definition parse_error_message (e : parse_error) : string :=
  match e with
  | INVALID_COUNTRY_CODE =>
      "Invalid country code. Please include a valid country code (e.g., +1 for US, +44 for UK)."
  | NOT_A_NUMBER =>
      "That doesn't look like a phone number. Please check and try again."
  | TOO_SHORT_NSN =>
      "That phone number seems too short. Please provide the complete number."
  | TOO_LONG =>
      "That phone number seems too long. Please check and try again."
  | TOO_SHORT_AFTER_IDD =>
      "Unable to validate phone number. Please provide a valid number with country code."
  end.

Definition validate (env : Collaborators) (default_region : string)
    (phone_input : string) (region : option string) : ValidationResult :=
  let phone_input := PyStr.strip phone_input in
  if negb (PyStr.nonempty phone_input) then
    failure "Please provide a phone number."
  else
    match phonenumbers_parse env phone_input
            (parse_region default_region region) with
    | Parsed parsed =>
        if negb (pn_valid parsed) then
          failure "That doesn't appear to be a valid phone number. Please include your country code (e.g., +1 for US)."
        else
          mkValidationResult true
            (Some (dict_of
              [("phone", VStr (pn_e164 parsed));
               ("country_code", VStr ("+" +:+ pn_country_code parsed));
               ("national_number", VStr (pn_national_number parsed));
               ("formatted", VStr (pn_international parsed));
               ("region", pn_region parsed)]))
            None
            (Some (dict_of
              [("validation_type", VStr "phone");
               ("number_type", VStr (pn_type parsed))]))
    | NumberParseException e => failure (parse_error_message e)
    | ParseCrashed _ =>
        failure "Unable to process phone number. Please try again."
    end.

Definition extract_phone_from_text (env : Collaborators)
    (default_region : string) (text : string) (region : option string)
    : option string :=
  match phone_number_matcher env text (parse_region default_region region) with
  | Ok matches => pn_e164 <$> List.find pn_valid matches
  | Raise _ => None
  end.

End PhoneValidator.

(** ** tools/registry.py *)
Module ToolRegistry.

(** A handler receives [(parameters, user_id, context)] and returns its data
    or raises. *)
Definition handler_t : Type := pydict -> string -> pydict -> result pyval.

(** A registry entry.  Of the JSON schema under ["parameters"] only the
    ["required"] list is ever read; [None] stands for a schema without that
    key. *)
Record ToolDef : Type := mkToolDef {
  td_name : string;
  td_description : string;
  td_required : option (list string);
  td_handler : handler_t;
  td_requires_auth : bool
}.

Abbreviation registry := (gmap string ToolDef).

Definition register_tool (tools : registry) (nm description : string)
    (required_params : option (list string)) (handler : handler_t)
    (requires_auth : bool) : registry :=
  <[nm := mkToolDef nm description required_params handler requires_auth]>
    tools.

Definition _handle_schedule_appointment (env : Collaborators) : handler_t :=
  fun parameters _ _ =>
    let appointment_id := "apt_" +:+ timestamp_str env (now env) in
    date ← dict_item parameters "date";
    time ← dict_item parameters "time";
    purpose ← dict_item parameters "purpose";
    Ok (VDict (dict_of
      [("appointment_id", VStr appointment_id);
       ("date", date);
       ("time", time);
       ("purpose", purpose);
       ("duration_minutes",
        dict_get_or parameters "duration_minutes" (VInt 30));
       ("status", VStr "confirmed");
       ("confirmation",
        VStr ("Appointment scheduled for " +:+ py_str env date +:+ " at "
              +:+ py_str env time))])).

Definition slot (time : string) : pyval :=
  VDict (dict_of [("time", VStr time); ("duration_minutes", VInt 30)]).

Definition _handle_get_available_slots : handler_t :=
  fun parameters _ _ =>
    date ← dict_item parameters "date";
    Ok (VDict (dict_of
      [("date", date);
       ("available_slots", VList
          [slot "09:00"; slot "10:00"; slot "11:00";
           slot "14:00"; slot "15:00"; slot "16:00"])])).

Definition _handle_cancel_appointment (env : Collaborators) : handler_t :=
  fun parameters _ _ =>
    appointment_id ← dict_item parameters "appointment_id";
    Ok (VDict (dict_of
      [("appointment_id", appointment_id);
       ("status", VStr "cancelled");
       ("confirmation",
        VStr ("Appointment " +:+ py_str env appointment_id
              +:+ " has been cancelled"))])).

(** The registry as [__init__] leaves it. *)
Definition builtin_tools (env : Collaborators) : registry :=
  let t0 : registry := ∅ in
  let t1 := register_tool t0 "schedule_appointment"
              "Schedule an appointment for the user"
              (Some ["date"; "time"; "purpose"])
              (_handle_schedule_appointment env) true in
  let t2 := register_tool t1 "get_available_slots"
              "Get available appointment slots for a date"
              (Some ["date"]) _handle_get_available_slots true in
  register_tool t2 "cancel_appointment" "Cancel an existing appointment"
    (Some ["appointment_id"]) (_handle_cancel_appointment env) true.

(** The [for] loop over the required parameters: the first absent one ends
    it. *)
Fixpoint first_missing (required_params : list string) (params : pydict)
    : option string :=
  match required_params with
  | [] => None
  | param :: rest =>
      if bool_decide (is_Some (params !! param)) then first_missing rest params
      else Some param
  end.

Definition validate_tool_call (tools : registry) (tool_call : ToolCall)
    : bool * option string :=
  match tools !! name tool_call with
  | None =>
      (false, Some ("Tool '" +:+ name tool_call +:+ "' not found in registry"))
  | Some tool_def =>
      match first_missing (default [] (td_required tool_def))
              (parameters tool_call) with
      | Some param => (false, Some ("Missing required parameter: " +:+ param))
      | None => (true, None)
      end
  end.

Definition no_kwargs : ToolResultArgs :=
  mkToolResultArgs None None None None None.

(** Calling the handler of a registry entry: what the handler returns or
    raises, and beside it the record that this handler ran. *)
Definition invoke (tool_def : ToolDef) (parameters : pydict) (uid : string)
    (context : pydict) : list string * result pyval :=
  ([td_name tool_def], td_handler tool_def parameters uid context).

(** [execute_tool] returns, next to its outcome, the handlers that ran: the
    records its calls of [invoke] left, and nothing where it made none. *)
Definition execute_tool (env : Collaborators) (tools : registry)
    (tool_call : ToolCall) (uid : string) (context : option pydict)
    : list string * result ToolResult :=
  match validate_tool_call tools tool_call with
  | (false, error_msg) =>
      ([], new_ToolResult (now env)
             (mkToolResultArgs None (Some false) None error_msg None))
  | (true, _) =>
      match tools !! name tool_call with
      | None => ([], Raise (KeyError (name tool_call)))
      | Some tool_def =>
          let '(ran, outcome) :=
            invoke tool_def (parameters tool_call) uid (default ∅ context) in
          let attempt :=
            result_data ← outcome;
            new_ToolResult (now env)
              (mkToolResultArgs None (Some true) None None (Some result_data))
          in
          (ran,
           match attempt with
           | Ok r => Ok r
           | Raise e =>
               new_ToolResult (now env)
                 (mkToolResultArgs None (Some false) None
                    (Some (exn_message e)) None)
           end)
      end
  end.

End ToolRegistry.

(** ** state_machine.py *)
Module StateMachine.

(** The class attribute [TRANSITIONS]; [None] for a step without a key. *)
Definition TRANSITIONS (s : WorkflowStep) : option (list WorkflowStep) :=
  match s with
  | AWAITING_TERMS => Some [AWAITING_NAME]
  | AWAITING_NAME => Some [AWAITING_EMAIL]
  | AWAITING_EMAIL => Some [AWAITING_PHONE]
  | AWAITING_PHONE => Some [AWAITING_OTP]
  | AWAITING_OTP => Some [ACTIVE]
  | ACTIVE => Some [ACTIVE]
  | VERIFIED | SUSPENDED => None
  end.

(** Attribute and item assignments on the state object. *)
Definition set_current_step (v : WorkflowStep) (st : UserState) : UserState :=
  mkUserState (user_id st) v (completed_steps st) (data st)
    (terms_agreed st) (terms_agreed_at st) (otp_hash st) (otp_expires_at st)
    (failed_otp_attempts st) (max_otp_attempts st) (created_at st)
    (updated_at st).

Definition append_completed (marker : string) (st : UserState) : UserState :=
  mkUserState (user_id st) (current_step st) (completed_steps st ++ [marker])
    (data st) (terms_agreed st) (terms_agreed_at st) (otp_hash st)
    (otp_expires_at st) (failed_otp_attempts st) (max_otp_attempts st)
    (created_at st) (updated_at st).

Definition set_item (k : string) (v : pyval) (st : UserState) : UserState :=
  mkUserState (user_id st) (current_step st) (completed_steps st)
    (<[k := v]> (data st)) (terms_agreed st) (terms_agreed_at st)
    (otp_hash st) (otp_expires_at st) (failed_otp_attempts st)
    (max_otp_attempts st) (created_at st) (updated_at st).

Definition set_terms (agreed : bool) (at_ : option instant) (st : UserState)
    : UserState :=
  mkUserState (user_id st) (current_step st) (completed_steps st) (data st)
    agreed at_ (otp_hash st) (otp_expires_at st) (failed_otp_attempts st)
    (max_otp_attempts st) (created_at st) (updated_at st).

Definition set_otp (h : option string) (expires : option instant)
    (st : UserState) : UserState :=
  mkUserState (user_id st) (current_step st) (completed_steps st) (data st)
    (terms_agreed st) (terms_agreed_at st) h expires (failed_otp_attempts st)
    (max_otp_attempts st) (created_at st) (updated_at st).

Definition set_failed_otp_attempts (n : Z) (st : UserState) : UserState :=
  mkUserState (user_id st) (current_step st) (completed_steps st) (data st)
    (terms_agreed st) (terms_agreed_at st) (otp_hash st) (otp_expires_at st)
    n (max_otp_attempts st) (created_at st) (updated_at st).

(** The state [get_or_create_state] builds for an unknown user. *)
Definition new_state (env : Collaborators) (uid : string) : UserState :=
  mkUserState uid AWAITING_TERMS [] ∅ false None None None 0 3 (now env) None.

(** The phone validator is built with its default region. *)
Definition default_region : string := "US".

(** [result.data[k]] *)
Definition result_item (r : ValidationResult) (k : string) : result pyval :=
  match vr_data r with
  | Some d => dict_item d k
  | None => Raise (TypeError "NoneType is not subscriptable")
  end.

(** The condition of [_handle_terms]. *)
Definition terms_accepted (message : string) : bool :=
  String.eqb message "TERMS_ACCEPTED"
  || PyStr.contains "accept" (PyStr.lower message)
  || PyStr.contains "agree" (PyStr.lower message).

Definition _handle_terms (env : Collaborators) (state : UserState)
    (message : string) : result (string * UserState) :=
  if terms_accepted message then
    let state := append_completed "terms_agreed" state in
    let state :=
      set_item "terms_agreed_at" (VStr (isoformat env (now env))) state in
    let state := set_terms true (Some (now env)) state in
    let state := set_current_step AWAITING_NAME state in
    Ok (generate_response env [("step", VStr "terms_accepted")], state)
  else
    Ok (generate_response env
          [("step", VStr "awaiting_terms");
           ("error", VStr "User has not explicitly accepted terms")],
        state).

Definition option_str (o : option string) : pyval :=
  from_option VStr VNone o.

Definition _handle_name (env : Collaborators) (state : UserState)
    (message : string) : result (string * UserState) :=
  let r := NameValidator.validate env message in
  if success r then
    first_name ← result_item r "first_name";
    last_name ← result_item r "last_name";
    let state := set_item "first_name" first_name state in
    let state := set_item "last_name" last_name state in
    let state := append_completed "name_collected" state in
    let state := set_current_step AWAITING_EMAIL state in
    Ok (generate_response env
          [("step", VStr "name_collected");
           ("first_name", first_name);
           ("last_name", last_name)],
        state)
  else
    let partial :=
      match vr_data r with
      | Some d => if truthy (VDict d) then dict_get d "first_name" else VNone
      | None => VNone
      end in
    Ok (generate_response env
          [("step", VStr "name_incomplete");
           ("error", option_str (error_message r));
           ("first_name", partial)],
        state).

(** [len(v)]: strings, lists and dictionaries have a length. *)
Definition py_len (v : pyval) : result nat :=
  match v with
  | VStr s => Ok (String.length s)
  | VList l => Ok (List.length l)
  | VDict d => Ok (size d)
  | _ => Raise (TypeError "len")
  end.

(** [SecurityManager.mask_phone] on a stored value: for anything but a
    string, what has fewer than four elements is masked entirely, before
    any string method is called. *)
Definition security_mask (mask : string -> string) (phone : pyval)
    : result string :=
  match phone with
  | VStr p => Ok (mask p)
  | _ =>
      n ← py_len phone;
      if (n : nat) <? 4 then Ok "***"
      else Raise (AttributeError "startswith")
  end.

(** [PhoneValidator.mask_phone_number] on a stored value: for anything but
    a string the parser raises inside the [try], and the fallback of the
    [except] branch slices what has more than six elements.  (Slicing a
    dictionary is a [KeyError] from Python 3.12 on.) *)
Definition validator_mask (env : Collaborators) (phone : pyval)
    : result string :=
  match phone with
  | VStr p => Ok (mask_phone_number env p)
  | _ =>
      n ← py_len phone;
      if 6 <? (n : nat) then Raise (TypeError "slice") else Ok "***"
  end.

(** The masked phone shown to a returning user. *)
Definition masked_phone (env : Collaborators) (phone : pyval) : result string :=
  if truthy phone then
    match security_mask_phone env with
    | Some mask => security_mask mask phone
    | None => validator_mask env phone
    end
  else Ok "***".

(** [extracted_email if extracted_email else message.strip()] *)
Definition email_to_validate (message : string) : string :=
  match EmailValidator.extract_email_from_text message with
  | Some e => if PyStr.nonempty e then e else PyStr.strip message
  | None => PyStr.strip message
  end.

Definition _handle_email (env : Collaborators) (state : UserState)
    (message : string) : result (string * UserState) :=
  let last_name := dict_get (data state) "last_name" in
  let r :=
    EmailValidator.validate env (email_to_validate message) last_name in
  if success r then
    email ← result_item r "email";
    is_returning ← result_item r "is_returning_user";
    let user_data := from_option (fun d => dict_get d "user_data") VNone
                       (vr_data r) in
    let state := set_item "email" email state in
    let state := append_completed "email_collected" state in
    if truthy is_returning && truthy user_data then
      match user_data with
      | VDict ud =>
          let state := set_item "returning_user" (VBool true) state in
          let state := set_item "existing_phone" (dict_get ud "phone") state in
          let state := set_item "existing_country_code"
                         (dict_get ud "country_code") state in
          phone_masked ← masked_phone env (dict_get ud "phone");
          let state := set_current_step AWAITING_PHONE state in
          let response := generate_response env
            [("step", VStr "email_returning_user");
             ("first_name", dict_get (data state) "first_name");
             ("email", email);
             ("is_returning_user", VBool true);
             ("phone_masked", VStr phone_masked)] in
          let response :=
            if negb (PyStr.contains phone_masked response)
            then response +:+ " (" +:+ phone_masked +:+ ")"
            else response in
          Ok (response, state)
      | _ => Raise (TypeError "get")
      end
    else
      let state := set_item "returning_user" (VBool false) state in
      let state := set_current_step AWAITING_PHONE state in
      Ok (generate_response env
            [("step", VStr "email_collected"); ("email", email)],
          state)
  else
    Ok (generate_response env
          [("step", VStr "email_invalid");
           ("error", option_str (error_message r))],
        state).

(** [extracted_phone if extracted_phone else message] *)
Definition phone_to_validate (env : Collaborators) (message : string)
    : string :=
  match PhoneValidator.extract_phone_from_text env default_region message
          None with
  | Some p => if PyStr.nonempty p then p else message
  | None => message
  end.

Definition _handle_phone (env : Collaborators) (state : UserState)
    (message : string) : result (string * UserState) :=
  let r :=
    PhoneValidator.validate env default_region
      (phone_to_validate env message) None in
  if success r then
    phone ← result_item r "phone";
    country_code ← result_item r "country_code";
    let state := set_item "phone" phone state in
    let state := set_item "country_code" country_code state in
    let state := append_completed "phone_collected" state in
    email ← dict_item (data state) "email";
    '(plain_otp, otp_data) ←
      OTPValidator.create_otp_data env (user_id state) email;
    let state :=
      set_otp (Some (od_otp_hash otp_data)) (Some (expires_at otp_data))
        state in
    let state := set_failed_otp_attempts 0 state in
    let email_sent :=
      send_otp_email env (email_sent_to otp_data) plain_otp
        (dict_get (data state) "first_name") in
    if email_sent then
      let state := set_current_step AWAITING_OTP state in
      Ok (generate_response env
            [("step", VStr "otp_sent"); ("email", email)],
          state)
    else
      Ok (generate_response env
            [("step", VStr "otp_send_failed");
             ("error", VStr "Failed to send verification email")],
          state)
  else
    Ok (generate_response env
          [("step", VStr "phone_invalid");
           ("error", option_str (error_message r))],
        state).

(** [OTPData(...)] as [_handle_otp] rebuilds it from the state:
    [max_attempts] is not passed and takes the model's default. *)
Definition reconstruct_otp_data (env : Collaborators) (state : UserState)
    : result OTPData :=
  email ← dict_item (data state) "email";
  h ← required "OTPData" "otp_hash" (otp_hash state);
  expires ← required "OTPData" "expires_at" (otp_expires_at state);
  sent_to ← as_str "OTPData" "email_sent_to" email;
  Ok (mkOTPData (user_id state) h expires (failed_otp_attempts state) 3
        sent_to (now env)).

Definition _handle_otp (env : Collaborators) (state : UserState)
    (message : string) : result (string * UserState) :=
  otp_data ← reconstruct_otp_data env state;
  r ← OTPValidator.validate env message otp_data;
  if success r then
    let state := append_completed "otp_verified" state in
    email ← dict_item (data state) "email";
    first_name ← dict_item (data state) "first_name";
    last_name ← dict_item (data state) "last_name";
    phone ← dict_item (data state) "phone";
    country_code ← dict_item (data state) "country_code";
    u_email ← as_str "User" "email" email;
    u_first ← as_str "User" "first_name" first_name;
    u_last ← as_str "User" "last_name" last_name;
    u_phone ← as_str "User" "phone" phone;
    u_cc ← as_str "User" "country_code" country_code;
    let user :=
      mkUser (user_id state) u_email u_first u_last u_phone u_cc true
        (Some (now env)) in
    let _created := create_user env user in
    let state := set_current_step ACTIVE state in
    Ok (generate_response env
          [("step", VStr "otp_verified"); ("first_name", first_name)],
        state)
  else
    let state :=
      set_failed_otp_attempts (attempts otp_data + 1)%Z state in
    let remaining :=
      match metadata r with
      | Some m =>
          if truthy (VDict m) then dict_get_or m "attempts_remaining" (VInt 0)
          else VInt 0
      | None => VInt 0
      end in
    Ok (generate_response env
          [("step", VStr "otp_invalid");
           ("error", option_str (error_message r));
           ("attempts_remaining", remaining)],
        state).

Definition _handle_active_conversation (env : Collaborators)
    (state : UserState) (message : string) : result (string * UserState) :=
  let context := dict_of
    [("customer_id", VStr (user_id state));
     ("customer_name",
      VStr (PyStr.strip
        (py_str env (dict_get_or (data state) "first_name" (VStr ""))
         +:+ " " +:+
         py_str env (dict_get_or (data state) "last_name" (VStr "")))));
     ("customer_email", dict_get_or (data state) "email" (VStr ""))] in
  let response :=
    match agent_send_message env (user_id state) message context with
    | Ok text => text
    | Raise _ => "I'm having trouble connecting. Please try again."
    end in
  Ok (response, state).

Definition process_message (env : Collaborators) (state : UserState)
    (message : string) : result (string * UserState) :=
  match current_step state with
  | AWAITING_TERMS => _handle_terms env state message
  | AWAITING_NAME => _handle_name env state message
  | AWAITING_EMAIL => _handle_email env state message
  | AWAITING_PHONE => _handle_phone env state message
  | AWAITING_OTP => _handle_otp env state message
  | ACTIVE => _handle_active_conversation env state message
  | VERIFIED | SUSPENDED =>
      Ok (generate_response env [("step", VStr "unknown")], state)
  end.

(** The verdict of the validator that [process_message] consults in the
    state's step: [None] where no validator gives one (the step has none,
    the stored OTP data cannot be rebuilt, or the comparison of the hashes
    raises). *)
Definition step_validator (env : Collaborators) (state : UserState)
    (message : string) : option bool :=
  match current_step state with
  | AWAITING_TERMS => Some (terms_accepted message)
  | AWAITING_NAME => Some (success (NameValidator.validate env message))
  | AWAITING_EMAIL =>
      Some (success (EmailValidator.validate env (email_to_validate message)
                       (dict_get (data state) "last_name")))
  | AWAITING_PHONE =>
      Some (success (PhoneValidator.validate env default_region
                       (phone_to_validate env message) None))
  | AWAITING_OTP =>
      match
        otp_data ← reconstruct_otp_data env state;
        OTPValidator.validate env message otp_data
      with
      | Ok r => Some (success r)
      | Raise _ => None
      end
  | VERIFIED | ACTIVE | SUSPENDED => None
  end.

End StateMachine.

(** ** Reference definitions the properties are stated against *)
Module Reference.

(** The format rule in words: a local part, one [@], a domain, a dot and a
    top-level domain of at least two letters.  The character sets of the
    three parts are those of the validator's pattern. *)
Definition local_at_domain_tld (e : string) : Prop :=
  exists l d t,
    e = l +:+ "@" +:+ d +:+ "." +:+ t /\
    1 <= String.length l /\ PyStr.all EmailValidator.local_char l = true /\
    1 <= String.length d /\ PyStr.all EmailValidator.domain_char d = true /\
    2 <= String.length t /\ PyStr.all EmailValidator.alpha t = true.

(** An email-shaped substring [m] of [text] that starts after [pre]. *)
Definition email_at (pre m text : string) : Prop :=
  exists post, text = pre +:+ m +:+ post /\ local_at_domain_tld m.

(** [sub] occurs somewhere in [s]. *)
Definition has_substring (sub s : string) : Prop :=
  exists pre post, s = pre +:+ sub +:+ post.

(** The acceptance condition in words: the marker, or a lowercase form that
    contains "accept" or "agree". *)
Definition accepting (msg : string) : Prop :=
  msg = "TERMS_ACCEPTED" \/ has_substring "accept" (PyStr.lower msg) \/
  has_substring "agree" (PyStr.lower msg).

End Reference.

(** What the state machine has stored by the time a step is reached. *)
Module Invariant.

Definition has_str (d : pydict) (k : string) : Prop :=
  exists s, d !! k = Some (VStr s).

Definition named (st : UserState) : Prop :=
  has_str (data st) "first_name" /\ has_str (data st) "last_name".

(** In AWAITING_OTP the stored hash is an ASCII string: the machine stores
    hexadecimal digests only. *)
Definition wf (st : UserState) : Prop :=
  match current_step st with
  | AWAITING_TERMS | AWAITING_NAME | VERIFIED | ACTIVE | SUSPENDED => True
  | AWAITING_EMAIL => named st
  | AWAITING_PHONE => named st /\ has_str (data st) "email"
  | AWAITING_OTP =>
      named st /\ has_str (data st) "email" /\ has_str (data st) "phone" /\
      has_str (data st) "country_code" /\
      (exists h, otp_hash st = Some h /\
                 PyStr.all OTPValidator.is_ascii h = true) /\
      is_Some (otp_expires_at st)
  end.

(** The user store holds phone numbers as strings (or not at all), as
    [User] records are written. *)
Definition store_ok (env : Collaborators) : Prop :=
  forall email last_name docs doc_id doc,
    query_users env email last_name = Ok docs ->
    In (doc_id, doc) docs ->
    truthy (dict_get doc "phone") = true ->
    exists p, dict_get doc "phone" = VStr p.

End Invariant.

(** ** Collaborators for concrete runs *)
Module TestDouble.

(** Every collaborator answers with a fixed value: the clock stands at
    [1000], mail dispatch succeeds, the user store is empty, the phone
    library knows one valid US number in two spellings and takes nothing
    else for a number, every draw is 7 and the digest is the text itself. *)
Definition us_number : PhoneNumber :=
  mkPhoneNumber true "1" "6502530000" "+16502530000" "+1 650-253-0000"
    (VStr "US") "fixed_line_or_mobile".

Definition known_number (text : string) : bool :=
  String.eqb text "+16502530000" || String.eqb text "+1 650-253-0000".

Definition env : Collaborators :=
  mkCollaborators
    1000%Z
    (fun _ => "2026-01-01T00:00:00+00:00")
    (fun _ => "ok")
    (fun _ => dict_of
       [("has_first_name", VBool true); ("has_last_name", VBool true);
        ("first_name", VStr "John"); ("last_name", VStr "Smith")])
    (fun _ => "?")
    (fun text _ =>
       if known_number text then Parsed us_number
       else NumberParseException NOT_A_NUMBER)
    (fun text _ => if known_number text then Ok [us_number] else Ok [])
    None
    (fun _ => "***")
    (fun _ _ => Ok [])
    (fun _ _ _ => true)
    (fun _ => true)
    (fun _ => 7)
    (fun s => s)
    "salt"
    (fun _ _ _ => Ok "hello")
    (fun _ => "0.001").


(** The same collaborators with the user store unreachable. *)
Definition env_store_down : Collaborators :=
  mkCollaborators (now env) (isoformat env) (generate_response env)
    (extract_structured_data env) (repr env) (phonenumbers_parse env)
    (phone_number_matcher env) (security_mask_phone env)
    (mask_phone_number env)
    (fun _ _ => Raise (RuntimeError "503 unavailable"))
    (send_otp_email env) (create_user env) (randbelow env) (sha256 env)
    (salt env) (agent_send_message env) (timestamp_str env).

Definition collected : pydict :=
  dict_of
    [("first_name", VStr "John"); ("last_name", VStr "Smith");
     ("email", VStr "john@x.com"); ("phone", VStr "+16502530000");
     ("country_code", VStr "+1")].

(** A user waiting for the code [123456], valid until [expires]; the
    stored hash is the hexadecimal form of ["123456salt"]. *)
Definition otp_state (expires attempts_so_far : Z) : UserState :=
  mkUserState "u1" AWAITING_OTP
    ["terms_agreed"; "name_collected"; "email_collected"; "phone_collected"]
    collected true (Some 100%Z) (Some "31323334353673616c74") (Some expires)
    attempts_so_far 3 0 None.

(** The data [_handle_otp] rebuilds from that state when the clock stands at
    1000. *)
Definition otp_data (expires attempts_so_far : Z) : OTPData :=
  mkOTPData "u1" "31323334353673616c74" expires attempts_so_far 3 "john@x.com" 1000.

(** A user who has given name and email and is asked for a phone number. *)
Definition phone_state : UserState :=
  mkUserState "u1" AWAITING_PHONE
    ["terms_agreed"; "name_collected"; "email_collected"]
    (dict_of
      [("first_name", VStr "John"); ("last_name", VStr "Smith");
       ("email", VStr "john@x.com"); ("returning_user", VBool false)])
    true (Some 100%Z) None None 0 3 0 None.

(** The requests of one user in order: the chat endpoint loads the state
    the previous request saved and processes the next message. *)
Fixpoint chat_session (env : Collaborators) (st : UserState)
    (messages : list string) : result UserState :=
  match messages with
  | [] => Ok st
  | message :: rest =>
      '(_, st') ← StateMachine.process_message env st message;
      chat_session env st' rest
  end.

(** An address of 321 characters: 315 letters, then [@b.com]. *)
Definition long_address : string := PyStr.repeat "a" 315 +:+ "@b.com".

End TestDouble.

(** ** Words for the properties of the registry *)
Module RegistrySpec.

(** The key [p] is among the parameters of a call. *)
Definition present (params : pydict) (p : string) : Prop :=
  is_Some (params !! p).

End RegistrySpec.

(** ** More of Python's string operations *)
Module PySlice.

(** [s[n:]] *)
Fixpoint drop (n : nat) (s : string) : string :=
  match n, s with
  | S n', String _ s' => drop n' s'
  | _, _ => s
  end.

(** [s[a:b]] for [a <= b] *)
Definition slice (a b : nat) (s : string) : string :=
  PyStr.take (b - a) (drop a s).

(** [s[-n:]] for positive [n] *)
Definition suffix (n : nat) (s : string) : string :=
  drop (String.length s - n) s.

(** [s.isdigit()]: at least one character, all of them digits. *)
Definition isdigit_str (s : string) : bool :=
  PyStr.nonempty s && PyStr.all PyStr.isdigit s.

(** [s[n].isdigit()] at an index that exists. *)
Definition digit_at (n : nat) (s : string) : bool :=
  match String.get n s with
  | Some c => PyStr.isdigit c
  | None => false
  end.

(** [c.isalpha()] on a code point below 256: the ASCII letters, U+00AA,
    U+00B5, U+00BA and the letters of U+00C0..U+00FF. *)
Definition isalpha (c : ascii) : bool :=
  let n := PyStr.code c in
  PyStr.between 65 90 n || PyStr.between 97 122 n
  || (n =? 170) || (n =? 181) || (n =? 186)
  || PyStr.between 192 214 n || PyStr.between 216 246 n
  || PyStr.between 248 255 n.

(** One of the characters [0] to [9]. *)
Definition ascii_digit (c : ascii) : bool :=
  PyStr.between 48 57 (PyStr.code c).

(** [any(p(c) for c in s)] *)
Fixpoint any (p : ascii -> bool) (s : string) : bool :=
  match s with
  | EmptyString => false
  | String c s' => p c || any p s'
  end.

End PySlice.

(** ** validators/otp_validator.py: the expiry helpers *)
Module OTPExpiry.

(** The quotient of a natural number by a positive one, rounded to the
    nearest integer, ties to the even one. *)
Definition round_div (a b : Z) : Z :=
  let q := (a / b)%Z in
  let r := (a mod b)%Z in
  if (2 * r <? b)%Z then q
  else if (b <? 2 * r)%Z then (q + 1)%Z
  else if Z.even q then q else (q + 1)%Z.

(** [int(a / b)] for integers [a >= 0] and [b > 0]: true division yields
    the double closest to the quotient (53 significant bits, ties to even)
    and [int] drops its fraction.  The quotient lies between [2^e] and
    [2^(e+1)]; the double is a 53-bit integer times [2^(e-52)].  (The
    quotients that occur are far from the ends of the exponent range.) *)
Definition int_true_div (a b : Z) : Z :=
  if (a =? 0)%Z then 0%Z
  else
    let e0 := (Z.log2 a - Z.log2 b)%Z in
    let below :=
      if (0 <=? e0)%Z then (a <? b * 2 ^ e0)%Z
      else (a * 2 ^ (- e0) <? b)%Z in
    let e := if below then (e0 - 1)%Z else e0 in
    let shift := (e - 52)%Z in
    if (0 <=? shift)%Z then (round_div a (b * 2 ^ shift) * 2 ^ shift)%Z
    else (round_div (a * 2 ^ (- shift)) b / 2 ^ (- shift))%Z.

(** [int(td.total_seconds())] for a [timedelta] of [td] microseconds:
    [total_seconds] divides the microseconds by [10**6] as a float, and a
    negative value is the negation of the positive one. *)
Definition int_total_seconds (td : Z) : Z :=
  if (td <? 0)%Z then (- int_true_div (- td) 1000000)%Z
  else int_true_div td 1000000.

Definition is_otp_expired (env : Collaborators) (otp_data : OTPData) : bool :=
  (expires_at otp_data <? now env)%Z.

(** The clock is read twice: in [is_otp_expired], answered by [env], and
    again for the difference, answered by [env']. *)
Definition get_time_remaining (env env' : Collaborators) (otp_data : OTPData)
    : Z :=
  if is_otp_expired env otp_data then 0%Z
  else int_total_seconds (expires_at otp_data - now env').

Definition format_time_remaining (env env' : Collaborators)
    (otp_data : OTPData) : string :=
  let seconds := get_time_remaining env env' otp_data in
  if (seconds <=? 0)%Z then "Expired"
  else
    let minutes := (seconds / 60)%Z in
    let seconds := (seconds mod 60)%Z in
    if (0 <? minutes)%Z then
      str_of_Z minutes +:+ " minute(s) " +:+ str_of_Z seconds
        +:+ " second(s)"
    else str_of_Z seconds +:+ " second(s)".

End OTPExpiry.

(** ** validators/name_validator.py: the format check without the LLM *)
Module NameFormat.

(** [name.replace(' ', '')] *)
Definition remove_spaces (s : string) : string :=
  PyStr.filter (fun c => negb (Ascii.eqb c " ")) s.

Definition is_valid_name_format (name : string) : bool :=
  if negb (PyStr.nonempty name) || negb (PyStr.nonempty (PyStr.strip name))
  then false
  else
    let name := PyStr.strip name in
    if String.length name <? 2 then false
    else if 100 <? String.length name then false
    else if negb (PySlice.any PySlice.isalpha name) then false
    else if PySlice.isdigit_str (remove_spaces name) then false
    else true.

End NameFormat.

(** ** security.py: masking *)
Module SecurityManager.

Definition mask_phone (phone : string) : string :=
  if negb (PyStr.nonempty phone) || (String.length phone <? 4) then "***"
  else if String.prefix "+" phone then
    if 8 <? String.length phone then
      let '(country_code, rest) :=
        if PySlice.isdigit_str (PySlice.slice 1 4 phone)
           && negb (PySlice.digit_at 4 phone)
        then (PyStr.take 4 phone, PySlice.drop 4 phone)
        else if PySlice.isdigit_str (PySlice.slice 1 3 phone)
                && negb (PySlice.digit_at 3 phone)
        then (PyStr.take 3 phone, PySlice.drop 3 phone)
        else (PyStr.take 2 phone, PySlice.drop 2 phone) in
      if 7 <=? String.length rest then
        country_code +:+ " " +:+ PyStr.take 3 rest +:+ "-***-"
          +:+ PySlice.suffix 4 rest
      else if 4 <=? String.length rest then
        country_code +:+ " ***-" +:+ PySlice.suffix 4 rest
      else country_code +:+ " ***"
    else PyStr.take 3 phone +:+ "***"
  else if 6 <? String.length phone then
    PyStr.take 2 phone +:+ "***" +:+ PySlice.suffix 2 phone
  else "***".

Definition sensitive_fields : list string :=
  ["email"; "phone"; "password"; "token"; "ssn"; "credit_card"].

(** [any(sensitive in key.lower() for sensitive in sensitive_fields)] *)
Definition is_sensitive (key : string) : bool :=
  existsb (fun sensitive => PyStr.contains sensitive (PyStr.lower key))
    sensitive_fields.

(** What the loop body leaves under one key. *)
Definition mask_value (key : string) (v : pyval) : pyval :=
  if is_sensitive key then
    match v with
    | VStr value =>
        if 4 <? String.length value then
          VStr (PyStr.take 2 value +:+ "***" +:+ PySlice.suffix 2 value)
        else VStr "***"
    | _ => v
    end
  else v.

Definition mask_for_logging (data : pydict) : pydict :=
  map_imap (fun key v => Some (mask_value key v)) data.

End SecurityManager.

(** ** state_machine.py: loading and saving the state *)
Module StateStore.

(** The [user_states] collection: one document per user id. *)
Abbreviation collection := (gmap string UserState).

Definition set_updated_at (t : option instant) (st : UserState) : UserState :=
  mkUserState (user_id st) (current_step st) (completed_steps st) (data st)
    (terms_agreed st) (terms_agreed_at st) (otp_hash st) (otp_expires_at st)
    (failed_otp_attempts st) (max_otp_attempts st) (created_at st) t.

(** Returns the state and the collection as the call leaves it. *)
Definition get_or_create_state (env : Collaborators) (db : collection)
    (uid : string) : UserState * collection :=
  match db !! uid with
  | Some st => (st, db)
  | None =>
      let new_state := StateMachine.new_state env uid in
      (new_state, <[uid := new_state]> db)
  end.

(** Returns the state with its new timestamp and the collection. *)
Definition save_state (env : Collaborators) (db : collection)
    (state : UserState) : UserState * collection :=
  let state := set_updated_at (Some (now env)) state in
  (state, <[user_id state := state]> db).

(** Every document sits under the id it carries. *)
Definition keyed (db : collection) : Prop :=
  forall uid st, db !! uid = Some st -> user_id st = uid.

End StateStore.

(** ** The changes a processed message can make to a state *)
Module Transition.
Import StateMachine Invariant.

Inductive step_effect (st : UserState) : UserState -> Prop :=
| effect_none : step_effect st st
| effect_terms iso t :
    current_step st = AWAITING_TERMS ->
    step_effect st
      (set_current_step AWAITING_NAME
        (set_terms true (Some t)
          (set_item "terms_agreed_at" (VStr iso)
            (append_completed "terms_agreed" st))))
| effect_name f l :
    current_step st = AWAITING_NAME ->
    step_effect st
      (set_current_step AWAITING_EMAIL
        (append_completed "name_collected"
          (set_item "last_name" (VStr l)
            (set_item "first_name" (VStr f) st))))
| effect_email_new e :
    current_step st = AWAITING_EMAIL ->
    step_effect st
      (set_current_step AWAITING_PHONE
        (set_item "returning_user" (VBool false)
          (append_completed "email_collected"
            (set_item "email" (VStr e) st))))
| effect_email_returning e phone country_code :
    current_step st = AWAITING_EMAIL ->
    step_effect st
      (set_current_step AWAITING_PHONE
        (set_item "existing_country_code" country_code
          (set_item "existing_phone" phone
            (set_item "returning_user" (VBool true)
              (append_completed "email_collected"
                (set_item "email" (VStr e) st))))))
| effect_phone (sent : bool) p cc h t email :
    current_step st = AWAITING_PHONE ->
    data st !! "email" = Some (VStr email) ->
    PyStr.all OTPValidator.is_ascii h = true ->
    step_effect st
      ((if sent then set_current_step AWAITING_OTP else id)
        (set_failed_otp_attempts 0
          (set_otp (Some h) (Some t)
            (append_completed "phone_collected"
              (set_item "country_code" (VStr cc)
                (set_item "phone" (VStr p) st))))))
| effect_otp_rejected :
    current_step st = AWAITING_OTP ->
    step_effect st
      (set_failed_otp_attempts (failed_otp_attempts st + 1) st)
| effect_otp_verified :
    current_step st = AWAITING_OTP ->
    (failed_otp_attempts st < 3)%Z ->
    has_str (data st) "email" -> has_str (data st) "first_name" ->
    has_str (data st) "last_name" -> has_str (data st) "phone" ->
    has_str (data st) "country_code" ->
    step_effect st
      (set_current_step ACTIVE (append_completed "otp_verified" st)).

(** One request: the message is processed and the state saved. *)
Definition request_step (st st' : UserState) : Prop :=
  exists env msg resp st1,
    process_message env st msg = Ok (resp, st1) /\
    st' = StateStore.set_updated_at (Some (now env)) st1.

(** The states a user can be in: a new state, then any number of requests. *)
Definition reachable (st : UserState) : Prop :=
  exists env uid, rtc request_step (new_state env uid) st.

(** The position of a step in the flow; the two steps the machine never
    enters have none. *)
Definition rank (s : WorkflowStep) : option nat :=
  match s with
  | AWAITING_TERMS => Some 0
  | AWAITING_NAME => Some 1
  | AWAITING_EMAIL => Some 2
  | AWAITING_PHONE => Some 3
  | AWAITING_OTP => Some 4
  | ACTIVE => Some 5
  | VERIFIED | SUSPENDED => None
  end.

Definition done (st : UserState) (marker : string) : Prop :=
  In marker (completed_steps st).

(** What has been collected by the time a step is reached. *)
Definition onboarded (st : UserState) : Prop :=
  exists n,
    rank (current_step st) = Some n /\
    (1 <= n -> terms_agreed st = true /\ done st "terms_agreed") /\
    (2 <= n -> named st /\ done st "name_collected") /\
    (3 <= n -> has_str (data st) "email" /\ done st "email_collected") /\
    (4 <= n ->
     has_str (data st) "phone" /\ has_str (data st) "country_code" /\
     (exists h, otp_hash st = Some h /\
                PyStr.all OTPValidator.is_ascii h = true) /\
     is_Some (otp_expires_at st) /\
     done st "phone_collected") /\
    (5 <= n -> done st "otp_verified").

End Transition.

(** ** More collaborators and states for concrete runs *)
Module TestDouble2.


(** The same collaborators four minutes later. *)
Definition env_later : Collaborators :=
  mkCollaborators 240001000%Z (isoformat TestDouble.env)
    (generate_response TestDouble.env)
    (extract_structured_data TestDouble.env)
    (repr TestDouble.env) (phonenumbers_parse TestDouble.env)
    (phone_number_matcher TestDouble.env)
    (security_mask_phone TestDouble.env)
    (mask_phone_number TestDouble.env) (query_users TestDouble.env)
    (send_otp_email TestDouble.env) (create_user TestDouble.env)
    (randbelow TestDouble.env) (sha256 TestDouble.env)
    (salt TestDouble.env) (agent_send_message TestDouble.env)
    (timestamp_str TestDouble.env).


(** The same collaborators with every draw 0. *)
Definition env_zero_draw : Collaborators :=
  mkCollaborators (now TestDouble.env) (isoformat TestDouble.env)
    (generate_response TestDouble.env)
    (extract_structured_data TestDouble.env)
    (repr TestDouble.env) (phonenumbers_parse TestDouble.env)
    (phone_number_matcher TestDouble.env)
    (security_mask_phone TestDouble.env)
    (mask_phone_number TestDouble.env) (query_users TestDouble.env)
    (send_otp_email TestDouble.env) (create_user TestDouble.env)
    (fun _ => 0) (sha256 TestDouble.env)
    (salt TestDouble.env) (agent_send_message TestDouble.env)
    (timestamp_str TestDouble.env).

(** OTP data whose stored hash is not a digest: the single character
    U+00E9. *)
Definition otp_data_latin1 : OTPData :=
  mkOTPData "u1" (String (ascii_of_nat 233) "") 5000 0 3 "john@x.com" 1000.


End TestDouble2.

(** * Properties *)

(** ** Strings *)
Module PyStrFacts.
Import PyStr.

Lemma app_assoc (a b c : string) : (a +:+ b) +:+ c = a +:+ (b +:+ c).
Proof. induction a as [|x a IH]; simpl; [reflexivity | now rewrite IH]. Qed.

Lemma app_nil_r (a : string) : a +:+ "" = a.
Proof. induction a as [|x a IH]; simpl; [reflexivity | now rewrite IH]. Qed.

Lemma length_app (a b : string) :
  String.length (a +:+ b) = String.length a + String.length b.
Proof. induction a as [|x a IH]; simpl; [reflexivity | now rewrite IH]. Qed.

Lemma length_zero (a : string) : String.length a = 0 -> a = "".
Proof. destruct a; simpl; [reflexivity | discriminate]. Qed.

Lemma take_app (a b : string) : take (String.length a) (a +:+ b) = a.
Proof. induction a as [|x a IH]; simpl; [now destruct b | now rewrite IH]. Qed.

Lemma all_app (p : ascii -> bool) (a b : string) :
  all p (a +:+ b) = all p a && all p b.
Proof.
  induction a as [|x a IH]; simpl; [reflexivity|].
  rewrite IH. now rewrite andb_assoc.
Qed.

Lemma count_app (c : ascii) (a b : string) :
  count c (a +:+ b) = count c a + count c b.
Proof. induction a as [|x a IH]; simpl; [reflexivity | rewrite IH; lia]. Qed.

Lemma lower_app (a b : string) : lower (a +:+ b) = lower a +:+ lower b.
Proof. induction a as [|x a IH]; simpl; [reflexivity | now rewrite IH]. Qed.

Lemma length_lower (a : string) : String.length (lower a) = String.length a.
Proof. induction a as [|x a IH]; simpl; [reflexivity | now rewrite IH]. Qed.

(** A predicate on characters that holds of all 256 of them. *)
Lemma forall_ascii (P : ascii -> bool) :
  forallb P (map ascii_of_nat (seq 0 256)) = true -> forall c, P c = true.
Proof.
  intros H c. rewrite forallb_forall in H. apply H.
  rewrite <- (ascii_nat_embedding c). apply List.in_map.
  apply List.in_seq. pose proof (nat_ascii_bounded c). lia.
Qed.

End PyStrFacts.

(** ** The matcher against the language of a pattern *)
Module RegexFacts.
Import PyStr PyStrFacts Regex.

Lemma rep_sound p k : forall s lo o,
  rep p lo k s = Some o ->
  exists m rest, s = m +:+ rest /\ lo <= String.length m /\
                 all p m = true /\ k rest = Some o.
Proof.
  induction s as [|c s IH]; intros lo o H; simpl in H.
  - destruct (Nat.eqb_spec lo 0) as [->|]; [|discriminate].
    exists "", "". simpl. auto.
  - assert (Hstop : (if lo =? 0 then k (String c s) else None) = Some o ->
      exists m rest, String c s = m +:+ rest /\ lo <= String.length m /\
                     all p m = true /\ k rest = Some o).
    { destruct (Nat.eqb_spec lo 0) as [->|]; [|discriminate].
      intros Hk. exists "", (String c s). simpl. auto. }
    destruct (p c) eqn:Hp; [|auto].
    destruct (rep p (pred lo) k s) as [r|] eqn:Hr; [|auto].
    injection H as ->.
    destruct (IH _ _ Hr) as (m & rest & -> & Hlo & Hall & Hk).
    exists (String c m), rest. simpl. rewrite Hp, Hall.
    repeat split; auto. lia.
Qed.

Lemma rep_stop p k s o :
  k s = Some o -> exists o', rep p 0 k s = Some o'.
Proof.
  intros Hk. destruct s as [|c s]; simpl; [eauto|].
  destruct (p c); [|eauto].
  destruct (rep p 0 k s); eauto.
Qed.

Lemma rep_complete p k rest o : forall m lo,
  all p m = true -> lo <= String.length m -> k rest = Some o ->
  exists o', rep p lo k (m +:+ rest) = Some o'.
Proof.
  induction m as [|c m IH]; intros lo Hall Hlo Hk; simpl in *.
  - assert (lo = 0) as -> by lia. eapply rep_stop; eauto.
  - apply andb_true_iff in Hall as [Hc Hall]. rewrite Hc.
    destruct (IH (pred lo) Hall ltac:(lia) Hk) as [o' ->]. eauto.
Qed.

Lemma bt_sound : forall r k s o,
  bt r k s = Some o ->
  exists m rest, s = m +:+ rest /\ lang r m /\ k rest = Some o.
Proof.
  induction r as [p|a IHa b IHb|p lo]; intros k s o H; simpl in H.
  - destruct s as [|c s]; [discriminate|].
    destruct (p c) eqn:Hp; [|discriminate].
    exists (String c ""), s. simpl. repeat split; auto. now constructor.
  - destruct (IHa _ _ _ H) as (m1 & rest1 & -> & L1 & H1).
    destruct (IHb _ _ _ H1) as (m2 & rest2 & -> & L2 & H2).
    exists (m1 +:+ m2), rest2. rewrite app_assoc.
    repeat split; auto. now constructor.
  - destruct (rep_sound _ _ _ _ _ H) as (m & rest & -> & Hlo & Hall & Hk).
    exists m, rest. repeat split; auto. now constructor.
Qed.

Lemma bt_complete r m :
  lang r m -> forall k rest o, k rest = Some o ->
  exists o', bt r k (m +:+ rest) = Some o'.
Proof.
  induction 1 as [p c Hp|a b s1 s2 _ IH1 _ IH2|p lo s Hlo Hall];
    intros k rest o Hk; simpl.
  - rewrite Hp. eauto.
  - rewrite app_assoc.
    destruct (IH2 _ _ _ Hk) as [o2 H2]. eapply IH1; eauto.
  - eapply rep_complete; eauto.
Qed.

Lemma at_end_iff s : at_end s = true <-> s = "" \/ s = String "010" "".
Proof.
  destruct s as [|c [|d s]]; simpl; split; auto; try discriminate.
  - intros H. apply Ascii.eqb_eq in H. subst. auto.
  - intros [H|H]; [discriminate|]. injection H as ->. reflexivity.
  - intros [H|H]; discriminate.
Qed.

(** The anchored match accepts the words of the language, possibly followed
    by one final newline. *)
Lemma match_anchored_iff r s :
  match_anchored r s = true <->
  exists m tail, s = m +:+ tail /\ lang r m /\ at_end tail = true.
Proof.
  unfold match_anchored. split.
  - destruct (bt _ _ s) as [o|] eqn:H; [|discriminate]. intros _.
    destruct (bt_sound _ _ _ _ H) as (m & rest & -> & L & Hk).
    exists m, rest. repeat split; auto.
    destruct (at_end rest); [reflexivity | discriminate].
  - intros (m & tail & -> & L & Hend).
    destruct (bt_complete _ _ L
                (fun rest => if at_end rest then Some rest else None)
                tail tail) as [o' ->]; [now rewrite Hend | reflexivity].
Qed.

Lemma search_none r : forall s,
  search r s = None -> forall pre m, ~ occurs r pre m s.
Proof.
  induction s as [|c s IH]; simpl; intros H pre m (post & E & L).
  - destruct (bt r Some "") eqn:Hb; [discriminate|].
    destruct pre; [|discriminate]. simpl in E.
    destruct (bt_complete _ _ L Some post post eq_refl) as [o Ho].
    rewrite <- E in Ho. congruence.
  - destruct (bt r Some (String c s)) eqn:Hb; [discriminate|].
    destruct pre as [|d pre]; simpl in E.
    + destruct (bt_complete _ _ L Some post post eq_refl) as [o Ho].
      rewrite <- E in Ho. congruence.
    + injection E as -> E. apply (IH H pre m). now exists post.
Qed.

Lemma search_unfold r s :
  search r s =
  match bt r Some s with
  | Some rest => Some (take (String.length s - String.length rest) s)
  | None => match s with EmptyString => None | String _ s' => search r s' end
  end.
Proof. destruct s; reflexivity. Qed.

Lemma take_rest (m rest : string) :
  take (String.length (m +:+ rest) - String.length rest) (m +:+ rest) = m.
Proof.
  rewrite length_app.
  replace (String.length m + String.length rest - String.length rest)
    with (String.length m) by lia.
  apply take_app.
Qed.

Lemma search_some r : forall s m,
  search r s = Some m ->
  exists pre, occurs r pre m s /\
    forall pre' m', occurs r pre' m' s ->
                    String.length pre <= String.length pre'.
Proof.
  induction s as [|c s IH]; intros m H; rewrite search_unfold in H.
  - destruct (bt r Some "") as [rest|] eqn:Hb; [|discriminate].
    injection H as <-.
    destruct (bt_sound _ _ _ _ Hb) as (m0 & rest0 & E & L & Hk).
    injection Hk as ->.
    destruct m0; [|discriminate]. simpl in E. subst rest.
    exists "". split; [|simpl; lia]. exists "". simpl. auto.
  - destruct (bt r Some (String c s)) as [rest|] eqn:Hb.
    + injection H as <-.
      destruct (bt_sound _ _ _ _ Hb) as (m0 & rest0 & E & L & Hk).
      injection Hk as ->.
      assert (Ht : take (String.length (String c s) - String.length rest)
                     (String c s) = m0) by (rewrite E; apply take_rest).
      simpl in Ht. rewrite Ht.
      exists "". split; [|simpl; lia].
      exists rest. simpl. auto.
    + destruct (IH _ H) as (pre & (post & E & L) & Hmin).
      exists (String c pre). split.
      * exists post. simpl. now rewrite E.
      * intros pre' m' (post' & E' & L').
        destruct pre' as [|d pre']; simpl in E'.
        -- destruct (bt_complete _ _ L' Some post' post' eq_refl) as [o Ho].
           rewrite <- E' in Ho. congruence.
        -- injection E' as -> E'. simpl.
           specialize (Hmin pre' m' ltac:(now exists post')). lia.
Qed.

End RegexFacts.

(** ** Email validation and extraction *)
Module EmailFacts.
Import PyStr PyStrFacts Regex RegexFacts EmailValidator Reference.

Ltac invert H := inversion H; subst; clear H.

(** Settle a statement about one character by trying all of them. *)
Ltac all_chars c P :=
  let H := fresh in
  assert (H : P c = true)
    by (apply (forall_ascii P); vm_compute; reflexivity);
  cbv beta in H.

Lemma all_impl (p q : ascii -> bool) (s : string) :
  (forall c, p c = true -> q c = true) -> all p s = true -> all q s = true.
Proof.
  intros Hpq. induction s as [|c s IH]; simpl; [reflexivity|].
  rewrite !andb_true_iff. intros [Hc Hs]. auto.
Qed.

Lemma all_lower (p : ascii -> bool) (s : string) :
  (forall c, p c = true -> p (lower_char c) = true) ->
  all p s = true -> all p (lower s) = true.
Proof.
  intros Hp. induction s as [|c s IH]; simpl; [reflexivity|].
  rewrite !andb_true_iff. intros [Hc Hs]. auto.
Qed.

Lemma count_none (p : ascii -> bool) (c : ascii) (s : string) :
  p c = false -> all p s = true -> count c s = 0.
Proof.
  intros Hc. induction s as [|d s IH]; simpl; [reflexivity|].
  rewrite andb_true_iff. intros [Hd Hs]. rewrite (IH Hs).
  destruct (Ascii.eqb_spec c d) as [->|]; [congruence | reflexivity].
Qed.

Lemma strip_nonspace (s : string) : all nonspace s = true -> strip s = s.
Proof.
  intros H. unfold strip.
  assert (lstrip s = s) as ->.
  { destruct s as [|c s]; simpl in *; [reflexivity|].
    apply andb_true_iff in H as [Hc _]. unfold nonspace in Hc.
    now destruct (isspace c). }
  induction s as [|c s IH]; simpl in *; [reflexivity|].
  apply andb_true_iff in H as [Hc Hs]. rewrite (IH Hs).
  unfold nonspace in Hc. destruct s; [|reflexivity].
  now destruct (isspace c).
Qed.

Lemma rstrip_last : forall s a c,
  rstrip s = a +:+ String c "" -> isspace c = false.
Proof.
  induction s as [|x s IH]; intros a c H; simpl in H.
  - destruct a; discriminate.
  - destruct (rstrip s) as [|y r] eqn:Hr.
    + destruct (isspace x) eqn:Hx; [destruct a; discriminate|].
      destruct a as [|a0 a]; simpl in H.
      * now injection H as <-.
      * injection H as _ H. destruct a; discriminate.
    + destruct a as [|a0 a]; simpl in H; [discriminate|].
      injection H as _ H. eapply IH; eauto.
Qed.

Lemma lower_snoc : forall s a c,
  lower s = a +:+ String c "" ->
  exists a' c', s = a' +:+ String c' "" /\ lower_char c' = c.
Proof.
  induction s as [|x s IH]; intros a c H; simpl in H.
  - destruct a; discriminate.
  - destruct a as [|a0 a]; simpl in H.
    + injection H as H1 H2. destruct s; [|discriminate].
      exists "", x. auto.
    + injection H as H1 H2.
      destruct (IH _ _ H2) as (a' & c' & -> & Hc).
      exists (String x a'), c'. auto.
Qed.

Lemma lower_char_newline c : lower_char c = "010"%char -> isspace c = true.
Proof.
  intros H.
  all_chars c (fun c => implb (Ascii.eqb (lower_char c) "010") (isspace c)).
  rewrite H in H0. exact H0.
Qed.

(** A stripped and lowercased string does not end in a newline. *)
Lemma normalized_no_newline x m :
  lower (strip x) = m +:+ String "010" "" -> False.
Proof.
  intros H. destruct (lower_snoc _ _ _ H) as (a & c & Hs & Hc).
  apply rstrip_last in Hs. apply lower_char_newline in Hc. congruence.
Qed.

Lemma lang_email_iff m : lang email_body m <-> local_at_domain_tld m.
Proof.
  unfold email_body, local_at_domain_tld. split.
  - intros H.
    repeat match goal with
    | H : lang (Cat _ _) _ |- _ => invert H
    | H : lang (Chr _) _ |- _ => invert H
    | H : lang (Rep _ _) _ |- _ => invert H
    | H : Ascii.eqb _ _ = true |- _ => apply Ascii.eqb_eq in H; subst
    end.
    do 3 eexists. split; [reflexivity|]. repeat split; assumption.
  - intros (l & d & t & -> & Hl & Al & Hd & Ad & Ht & At).
    apply lang_cat; [now constructor|].
    apply (lang_cat _ _ "@"); [now constructor|].
    apply lang_cat; [now constructor|].
    apply (lang_cat _ _ "."); [now constructor|].
    now constructor.
Qed.

Lemma valid_format_iff e :
  _is_valid_format e = true <->
  String.length e <= 320 /\ count "@" e = 1 /\
  exists m tail, e = m +:+ tail /\ local_at_domain_tld m /\
                 at_end tail = true.
Proof.
  unfold _is_valid_format, EMAIL_REGEX.
  destruct (Nat.ltb_spec 320 (String.length e)) as [Hlen|Hlen];
    destruct (Nat.eqb_spec (count "@" e) 1) as [Hc|Hc];
    destruct e as [|c e]; simpl negb; cbv iota;
    try (split; [discriminate | intros (? & ? & ?); simpl in *; lia]).
  rewrite match_anchored_iff. split.
  - intros (m & tail & E & L & Hend). repeat split; auto.
    exists m, tail. rewrite <- lang_email_iff. auto.
  - intros (_ & _ & m & tail & E & L & Hend).
    exists m, tail. rewrite lang_email_iff. auto.
Qed.

Lemma validate_success env email last_name :
  success (validate env email last_name)
  = _is_valid_format (lower (strip email)).
Proof.
  unfold validate. now destruct (_is_valid_format _).
Qed.

(** C7: after trimming and lowercasing, validation succeeds exactly on the
    strings with one [@], at most 320 characters and the shape
    local@domain.tld with a top-level domain of two letters or more; ["a@b"]
    fails, and ["a@b.com"] without a last name succeeds as a new user. *)
Theorem email_validate_format :
  (forall env email last_name,
     let e := lower (strip email) in
     success (validate env email last_name) = true <->
     count "@" e = 1 /\ String.length e <= 320 /\ local_at_domain_tld e) /\
  (forall env last_name, success (validate env "a@b" last_name) = false) /\
  (forall env,
     success (validate env "a@b.com" VNone) = true /\
     (vr_data (validate env "a@b.com" VNone) ≫= (.!! "is_returning_user"))
     = Some (VBool false)).
Proof.
  split; [|split].
  - intros env email last_name e. rewrite validate_success. fold e.
    rewrite valid_format_iff. split.
    + intros (Hlen & Hc & m & tail & E & L & Hend).
      repeat split; auto.
      apply at_end_iff in Hend as [->| ->].
      * rewrite app_nil_r in E. now rewrite E.
      * exfalso. eapply normalized_no_newline. exact E.
    + intros (Hc & Hlen & L). repeat split; auto.
      exists e, "". rewrite app_nil_r. auto.
  - intros env last_name. rewrite validate_success. reflexivity.
  - intros env. split; [rewrite validate_success|]; reflexivity.
Qed.

End EmailFacts.

(** ** Extraction of an address from free text *)
Module ExtractionFacts.
Import PyStr PyStrFacts Regex RegexFacts EmailValidator Reference EmailFacts.

Lemma lower_idem (s : string) : lower (lower s) = lower s.
Proof.
  induction s as [|c s IH]; simpl; [reflexivity|]. rewrite IH. f_equal.
  all_chars c (fun c => Ascii.eqb (lower_char (lower_char c)) (lower_char c)).
  now apply Ascii.eqb_eq.
Qed.

Lemma class_lower c :
  (local_char c = true -> local_char (lower_char c) = true) /\
  (domain_char c = true -> domain_char (lower_char c) = true) /\
  (alpha c = true -> alpha (lower_char c) = true).
Proof.
  all_chars c (fun c =>
    implb (local_char c) (local_char (lower_char c)) &&
    implb (domain_char c) (domain_char (lower_char c)) &&
    implb (alpha c) (alpha (lower_char c))).
  apply andb_true_iff in H as [H H3]. apply andb_true_iff in H as [H1 H2].
  repeat split; intros E; rewrite E in *; assumption.
Qed.

Lemma class_nonspace c :
  (local_char c = true -> nonspace c = true) /\
  (domain_char c = true -> nonspace c = true) /\
  (alpha c = true -> nonspace c = true).
Proof.
  all_chars c (fun c =>
    implb (local_char c) (nonspace c) && implb (domain_char c) (nonspace c)
    && implb (alpha c) (nonspace c)).
  apply andb_true_iff in H as [H H3]. apply andb_true_iff in H as [H1 H2].
  repeat split; intros E; rewrite E in *; assumption.
Qed.

Lemma shape_lower e : local_at_domain_tld e -> local_at_domain_tld (lower e).
Proof.
  intros (l & d & t & -> & Hl & Al & Hd & Ad & Ht & At).
  exists (lower l), (lower d), (lower t).
  rewrite !length_lower. repeat split; auto.
  - now rewrite !lower_app.
  - apply all_lower; [apply class_lower | assumption].
  - apply all_lower; [apply class_lower | assumption].
  - apply all_lower; [apply class_lower | assumption].
Qed.

Lemma shape_nonspace e : local_at_domain_tld e -> all nonspace e = true.
Proof.
  intros (l & d & t & -> & Hl & Al & Hd & Ad & Ht & At).
  rewrite !all_app, !andb_true_iff. repeat split; try reflexivity.
  - apply (all_impl local_char); [apply class_nonspace | assumption].
  - apply (all_impl domain_char); [apply class_nonspace | assumption].
  - apply (all_impl alpha); [apply class_nonspace | assumption].
Qed.

Lemma shape_one_at e : local_at_domain_tld e -> count "@" e = 1.
Proof.
  intros (l & d & t & -> & Hl & Al & Hd & Ad & Ht & At).
  rewrite !count_app.
  rewrite (count_none local_char "@" l), (count_none domain_char "@" d),
    (count_none alpha "@" t) by (assumption || reflexivity).
  reflexivity.
Qed.

(** An email-shaped, lowercased string of at most 320 characters passes the
    strict validation. *)
Lemma shaped_validates env m last_name :
  local_at_domain_tld m -> String.length (lower m) <= 320 ->
  success (validate env (lower m) last_name) = true.
Proof.
  intros Hm Hlen. apply shape_lower in Hm.
  rewrite validate_success, (strip_nonspace _ (shape_nonspace _ Hm)),
    lower_idem.
  apply valid_format_iff. repeat split; auto using shape_one_at.
  exists (lower m), "". rewrite app_nil_r. auto.
Qed.

Lemma occurs_email_at pre m text :
  occurs extraction_pattern pre m text <-> email_at pre m text.
Proof.
  unfold occurs, email_at, extraction_pattern.
  split; intros (post & E & L); exists post; split; auto;
    now apply lang_email_iff.
Qed.

Lemma search_priority r : forall s m,
  search r s = Some m ->
  exists pre rest,
    s = pre +:+ m +:+ rest /\ bt r Some (m +:+ rest) = Some rest /\
    forall pre' m', occurs r pre' m' s ->
                    String.length pre <= String.length pre'.
Proof.
  induction s as [|c s IH]; intros m H; rewrite search_unfold in H.
  - destruct (bt r Some "") as [rest|] eqn:Hb; [|discriminate].
    injection H as <-.
    destruct (bt_sound _ _ _ _ Hb) as (m0 & rest0 & E & L & Hk).
    injection Hk as ->.
    destruct m0; [|discriminate]. simpl in E. subst rest.
    exists "", "". simpl. repeat split; auto. intros. lia.
  - destruct (bt r Some (String c s)) as [rest|] eqn:Hb.
    + injection H as <-.
      destruct (bt_sound _ _ _ _ Hb) as (m0 & rest0 & E & L & Hk).
      injection Hk as ->.
      assert (Ht : take (String.length (String c s) - String.length rest)
                     (String c s) = m0) by (rewrite E; apply take_rest).
      simpl in Ht. rewrite Ht.
      exists "", rest. simpl. rewrite <- E. repeat split; auto. intros. lia.
    + destruct (IH _ H) as (pre & rest & E & Hb' & Hmin).
      exists (String c pre), rest. simpl. rewrite <- E.
      repeat split; auto.
      intros pre' m' (post' & E' & L').
      destruct pre' as [|d pre']; simpl in E'.
      * destruct (bt_complete _ _ L' Some post' post' eq_refl) as [o Ho].
        rewrite <- E' in Ho. congruence.
      * injection E' as -> E'. simpl.
        specialize (Hmin pre' m' ltac:(now exists post')). lia.
Qed.

(** The greedy repetition returns its longest admissible choice: every
    longer run of the class leads to a failing continuation. *)
Lemma rep_greedy p k : forall s lo o,
  rep p lo k s = Some o ->
  exists m rest,
    s = m +:+ rest /\ lo <= String.length m /\ all p m = true /\
    k rest = Some o /\
    forall m' rest',
      s = m' +:+ rest' -> all p m' = true ->
      String.length m < String.length m' -> k rest' = None.
Proof.
  induction s as [|c s IH]; intros lo o H; simpl in H.
  - destruct (Nat.eqb_spec lo 0) as [->|]; [|discriminate].
    exists "", "". simpl. repeat split; auto.
    intros m' rest' E _ Hlt. destruct m'; [simpl in Hlt; lia | discriminate].
  - destruct (p c) eqn:Hp.
    + destruct (rep p (pred lo) k s) as [r|] eqn:Hr.
      * injection H as ->.
        destruct (IH _ _ Hr) as (m & rest & -> & Hlo & Hall & Hk & Hmax).
        exists (String c m), rest. simpl. rewrite Hp, Hall.
        repeat split; auto; [lia|].
        intros m' rest' E Hall' Hlt.
        destruct m' as [|c' m']; [simpl in Hlt; lia|].
        simpl in E, Hall', Hlt. injection E as <- E.
        apply andb_true_iff in Hall' as [_ Hall'].
        apply (Hmax m' rest'); auto. lia.
      * destruct (Nat.eqb_spec lo 0) as [->|]; [|discriminate].
        exists "", (String c s). simpl. repeat split; auto.
        intros m' rest' E Hall' Hlt.
        destruct m' as [|c' m']; [simpl in Hlt; lia|].
        simpl in E, Hall'. injection E as <- ->.
        apply andb_true_iff in Hall' as [_ Hall'].
        destruct (k rest') as [o'|] eqn:Hk; [|reflexivity].
        destruct (rep_complete p k rest' o' m' 0 Hall' ltac:(lia) Hk)
          as [o'' Ho]. simpl in Hr. congruence.
    + destruct (Nat.eqb_spec lo 0) as [->|]; [|discriminate].
      exists "", (String c s). simpl. repeat split; auto.
      intros m' rest' E Hall' Hlt.
      destruct m' as [|c' m']; [simpl in Hlt; lia|].
      simpl in E, Hall'. injection E as <- _.
      apply andb_true_iff in Hall' as [Hc _]. congruence.
Qed.

Lemma app_split (a b : string) : forall c d,
  a +:+ b = c +:+ d -> String.length a <= String.length c ->
  exists y, c = a +:+ y /\ b = y +:+ d.
Proof.
  induction a as [|x a IH]; intros c d E Hlen; simpl in *.
  - exists c. auto.
  - destruct c as [|z c]; simpl in *; [lia|].
    injection E as -> E.
    destruct (IH c d E ltac:(lia)) as (y & -> & ->). exists y. auto.
Qed.

Lemma app_inj_length (a b c d : string) :
  a +:+ b = c +:+ d -> String.length a = String.length c ->
  a = c /\ b = d.
Proof.
  intros E Hlen. destruct (app_split a b c d E ltac:(lia)) as (y & -> & ->).
  rewrite length_app in Hlen.
  destruct y; [|simpl in Hlen; lia]. now rewrite app_nil_r.
Qed.

(** A run of a class stops at the latest before a character outside it. *)
Lemma class_run_le p (a b : string) : forall c x d,
  all p a = true -> a +:+ b = c +:+ String x d -> p x = false ->
  String.length a <= String.length c.
Proof.
  induction a as [|y a IH]; intros c x d Hall E Hx; simpl in *; [lia|].
  apply andb_true_iff in Hall as [Hy Hall].
  destruct c as [|z c]; simpl in *.
  - injection E as -> _. congruence.
  - injection E as _ E. specialize (IH c x d Hall E Hx). lia.
Qed.

Lemma not_local_at : local_char "@" = false.
Proof. reflexivity. Qed.

Lemma not_alpha_dot : alpha "." = false.
Proof. reflexivity. Qed.

(** What the backtracking search settles on at an offset is the longest
    email-shaped string that starts there. *)
Lemma email_bt_longest s rest :
  bt email_body Some s = Some rest ->
  exists m,
    s = m +:+ rest /\ local_at_domain_tld m /\
    forall m' rest',
      s = m' +:+ rest' -> local_at_domain_tld m' ->
      String.length m' <= String.length m.
Proof.
  intros H. unfold email_body in H. cbn [bt] in H.
  destruct (rep_sound _ _ _ _ _ H) as (l & r1 & -> & Hl & Al & H1).
  destruct r1 as [|c1 r2]; [discriminate|].
  destruct (Ascii.eqb_spec "@" c1) as [<-|]; [|discriminate].
  destruct (rep_greedy _ _ _ _ _ H1) as (d & r3 & -> & Hd & Ad & H2 & Dmax).
  destruct r3 as [|c3 r4]; [discriminate|].
  destruct (Ascii.eqb_spec "." c3) as [<-|]; [|discriminate].
  destruct (rep_greedy _ _ _ _ _ H2) as (t & r5 & -> & Ht & At & H3 & Tmax).
  injection H3 as ->.
  exists (l +:+ "@" +:+ d +:+ "." +:+ t). split; [|split].
  - now rewrite !app_assoc.
  - exists l, d, t. repeat split; auto.
  - intros m' rest' E (l' & d' & t' & -> & Hl' & Al' & Hd' & Ad' & Ht' & At').
    rewrite !app_assoc in E. simpl in E.
    assert (Hll : String.length l = String.length l').
    { pose proof (class_run_le _ _ _ _ _ _ Al E not_local_at).
      pose proof (class_run_le _ _ _ _ _ _ Al' (eq_sym E) not_local_at).
      lia. }
    destruct (app_inj_length _ _ _ _ E Hll) as [<- E1].
    injection E1 as E1.
    rewrite !length_app. simpl.
    destruct (Nat.le_gt_cases (String.length d') (String.length d))
      as [Hle|Hgt].
    + destruct (app_split _ _ _ _ (eq_sym E1) Hle) as (y & -> & E2).
      destruct y as [|c y]; simpl in E2.
      * injection E2 as E2. rewrite app_nil_r.
        destruct (Nat.le_gt_cases (String.length t') (String.length t))
          as [|Hlt]; [lia|].
        destruct (app_split _ _ _ _ (eq_sym E2) ltac:(lia)) as (z & -> & ->).
        specialize (Tmax _ _ (eq_sym (app_assoc t z rest')) At' Hlt).
        discriminate.
      * injection E2 as <- E2.
        pose proof (class_run_le _ _ _ _ _ _ At' E2 not_alpha_dot).
        rewrite length_app. simpl. lia.
    + specialize (Dmax d' _ E1 Ad' Hgt). simpl in Dmax.
      destruct (rep_complete alpha Some rest' rest' t' 2 At' Ht' eq_refl)
        as [o Ho].
      congruence.
Qed.

(** What the search returns, in full: the offset is the leftmost one where
    an email-shaped string starts, and the string is the longest such one
    at that offset. *)
Lemma search_email_spec text m :
  search extraction_pattern text = Some m ->
  exists pre,
    email_at pre m text /\
    (forall pre' m', email_at pre' m' text ->
                     String.length pre <= String.length pre') /\
    (forall m', email_at pre m' text ->
                String.length m' <= String.length m).
Proof.
  intros Hs.
  destruct (search_priority _ _ _ Hs) as (pre & rest & E & Hb & Hmin).
  destruct (email_bt_longest _ _ Hb) as (m1 & E1 & Hshape & Hmax).
  assert (m1 = m) as ->.
  { symmetry. apply (app_inj_length _ _ _ _ E1).
    apply (f_equal String.length) in E1. rewrite !length_app in E1. lia. }
  exists pre. split; [|split].
  - exists rest. auto.
  - intros pre' m' H'. apply (Hmin pre' m'). now apply occurs_email_at.
  - intros m' (post' & E' & Hshape'). rewrite E in E'.
    destruct (app_inj_length _ _ _ _ E' eq_refl) as [_ E2].
    now apply (Hmax m' post').
Qed.

(** C8, as the code has it: the result is exactly the lowercased form of
    the longest email-shaped substring that starts at the leftmost position
    where one starts; nothing is returned exactly when the text has no such
    substring; the two sample sentences yield ["a@b.com"] and
    ["john.doe@company.co.uk"]; and a returned address passes the strict
    validation when it has at most 320 characters. *)
Theorem extract_email_first_match :
  (forall text e,
     extract_email_from_text text = Some e <->
     exists pre m,
       email_at pre m text /\ e = lower m /\
       (forall pre' m', email_at pre' m' text ->
                        String.length pre <= String.length pre') /\
       (forall m', email_at pre m' text ->
                   String.length m' <= String.length m)) /\
  (forall text e,
     extract_email_from_text text = Some e -> String.length e <= 320 ->
     forall env last_name, success (validate env e last_name) = true) /\
  (forall text,
     extract_email_from_text text = None <->
     forall pre m, ~ email_at pre m text) /\
  extract_email_from_text "contact me at a@b.com" = Some "a@b.com" /\
  extract_email_from_text "contact me at john.doe@company.co.uk"
    = Some "john.doe@company.co.uk".
Proof.
  split; [|split; [|split; [|split]]].
  - intros text e. unfold extract_email_from_text. split.
    + destruct (search extraction_pattern text) as [m|] eqn:Hs;
        [|discriminate].
      intros [= <-].
      destruct (search_email_spec _ _ Hs) as (pre & Hat & Hmin & Hmax).
      exists pre, m. auto.
    + intros (pre & m & Hat & -> & Hmin & Hmax).
      destruct (search extraction_pattern text) as [m0|] eqn:Hs.
      * destruct (search_email_spec _ _ Hs) as (pre0 & Hat0 & Hmin0 & Hmax0).
        pose proof (Hmin _ _ Hat0). pose proof (Hmin0 _ _ Hat).
        destruct Hat as (post & E & Hshape).
        destruct Hat0 as (post0 & E0 & Hshape0).
        rewrite E in E0.
        destruct (app_inj_length _ _ _ _ E0 ltac:(lia)) as [<- E1].
        assert (String.length m0 <= String.length m)
          by (apply Hmax; exists post0; now rewrite E, E1).
        assert (String.length m <= String.length m0)
          by (apply Hmax0; exists post; now rewrite E).
        destruct (app_inj_length _ _ _ _ E1 ltac:(lia)) as [<- _].
        reflexivity.
      * exfalso. apply (search_none _ _ Hs pre m).
        now apply occurs_email_at.
  - intros text e H Hlen env last_name.
    unfold extract_email_from_text in H.
    destruct (search extraction_pattern text) as [m|] eqn:Hs; [|discriminate].
    injection H as <-.
    destruct (search_some _ _ _ Hs) as (pre & Hocc & _).
    apply shaped_validates; auto.
    apply occurs_email_at in Hocc. now destruct Hocc as (post & _ & L).
  - intros text. unfold extract_email_from_text. split.
    + destruct (search extraction_pattern text) as [m|] eqn:Hs;
        [discriminate|]. intros _ pre m H.
      apply (search_none _ _ Hs pre m). now apply occurs_email_at.
    + intros Hno.
      destruct (search extraction_pattern text) as [m|] eqn:Hs;
        [|reflexivity].
      destruct (search_some _ _ _ Hs) as (pre & Hocc & _).
      exfalso. apply (Hno pre m). now apply occurs_email_at.
  - vm_compute. reflexivity.
  - vm_compute. reflexivity.
Qed.

(** C8 as stated fails on the round trip: the 321-character address is
    extracted unchanged from a text that consists of it, and the strict
    validation then rejects it for its length. *)
Lemma extract_round_trip_fails :
  extract_email_from_text TestDouble.long_address
    = Some TestDouble.long_address /\
  success (validate TestDouble.env TestDouble.long_address VNone) = false.
Proof. split; vm_compute; reflexivity. Qed.

End ExtractionFacts.

(** ** The one-time passcode *)
Module OTPFacts.
Import PyStr PyStrFacts OTPValidator StateMachine.
Import EmailFacts.

Lemma bind_ok {A B} (a : A) (f : A -> result B) : (Ok a ≫= f) = f a.
Proof. reflexivity. Qed.

(** A hexadecimal digest is ASCII, so comparing two of them never raises. *)
Lemma hexlify_ascii b : all is_ascii (hexlify b) = true.
Proof.
  induction b as [|c b IH]; [reflexivity|]. cbn [hexlify all]. rewrite IH.
  all_chars c (fun c => is_ascii (hex_digit (code c / 16))
                        && is_ascii (hex_digit (code c mod 16))).
  apply andb_true_iff in H as [-> ->]. reflexivity.
Qed.

Lemma hash_otp_ascii env otp : all is_ascii (hash_otp env otp) = true.
Proof. apply hexlify_ascii. Qed.

Lemma compare_digest_ascii a b :
  all is_ascii a = true -> all is_ascii b = true ->
  compare_digest a b = Ok (String.eqb a b).
Proof. intros Ha Hb. unfold compare_digest. now rewrite Ha, Hb. Qed.

Lemma compare_digest_raises a b :
  all is_ascii a = true -> all is_ascii b = false ->
  exists e, compare_digest a b = Raise e.
Proof. intros Ha Hb. unfold compare_digest. rewrite Ha, Hb. eauto. Qed.

(** With an ASCII hash in store the validator returns a verdict. *)
Lemma validate_returns env input od :
  all is_ascii (od_otp_hash od) = true ->
  exists r, validate env input od = Ok r.
Proof.
  intros Hh. unfold validate.
  destruct (negb _); [eauto|]. destruct (_ <? _)%Z; [eauto|].
  destruct (_ <=? _)%Z; [eauto|].
  rewrite compare_digest_ascii by (apply hash_otp_ascii || exact Hh).
  rewrite bind_ok. destruct (String.eqb _ _); eauto.
Qed.

Lemma validate_wrong_length env input od :
  String.length (filter isdigit input) <> OTP_LENGTH ->
  validate env input od
  = Ok (otp_error "Please enter a 6-digit code." "invalid_length" []).
Proof.
  intros H. unfold validate.
  destruct (Nat.eqb_spec (String.length (filter isdigit input)) OTP_LENGTH);
    [contradiction | reflexivity].
Qed.

Lemma validate_expired env input od :
  (expires_at od < now env)%Z ->
  exists r, validate env input od = Ok r /\ success r = false.
Proof.
  intros H. unfold validate.
  destruct (String.length _ =? OTP_LENGTH); cbn [negb]; [|eauto].
  destruct (Z.ltb_spec (expires_at od) (now env)); [eauto | lia].
Qed.

(** The data [_handle_otp] rebuilds carry the stored counter and the
    default bound of three attempts. *)
Lemma reconstruct_fields env st od :
  reconstruct_otp_data env st = Ok od ->
  attempts od = failed_otp_attempts st /\ max_attempts od = 3%Z /\
  otp_hash st = Some (od_otp_hash od) /\
  otp_expires_at st = Some (expires_at od).
Proof.
  unfold reconstruct_otp_data, dict_item, required, as_str.
  destruct (data st !! "email") as [[| | | | |]|];
    destruct (otp_hash st); destruct (otp_expires_at st);
    simpl; try discriminate.
  intros [= <-]. auto.
Qed.

(** Whatever the reason of the rejection, [_handle_otp] stores the counter
    plus one and changes nothing else. *)
Lemma handle_otp_rejected env st msg od r :
  reconstruct_otp_data env st = Ok od ->
  validate env msg od = Ok r -> success r = false ->
  exists resp,
    _handle_otp env st msg
    = Ok (resp, set_failed_otp_attempts (failed_otp_attempts st + 1) st).
Proof.
  intros Hrec Hv Hrej. unfold _handle_otp.
  rewrite Hrec, bind_ok, Hv, bind_ok, Hrej.
  destruct (reconstruct_fields _ _ _ Hrec) as (-> & _). eauto.
Qed.

(** C6: once [attempts >= max_attempts], every submission is rejected, the
    right code included: the validator returns a failure and raises
    nothing, and the verdict does not depend on the hash, the salt or any
    collaborator but the clock, because the comparison is not reached. *)
Theorem otp_exhausted_rejected env input od :
  (max_attempts od <= attempts od)%Z ->
  (exists r, validate env input od = Ok r /\ success r = false) /\
  (forall env', now env' = now env ->
                validate env' input od = validate env input od).
Proof.
  intros H. unfold validate.
  destruct (String.length _ =? OTP_LENGTH); cbn [negb]; [|eauto].
  split.
  - destruct (_ <? _)%Z; [eauto|].
    destruct (Z.leb_spec (max_attempts od) (attempts od)); [eauto|lia].
  - intros env' ->.
    destruct (_ <? _)%Z; [reflexivity|].
    destruct (Z.leb_spec (max_attempts od) (attempts od)); [reflexivity|lia].
Qed.

(** The right code, three attempts used, not expired. *)
Lemma otp_exhausted_rejected_witness :
  hash_otp TestDouble.env "123456"
    = od_otp_hash (TestDouble.otp_data 5000 3) /\
  exists r,
    validate TestDouble.env "123456" (TestDouble.otp_data 5000 3) = Ok r /\
    success r = false.
Proof.
  split; [reflexivity|].
  apply (otp_exhausted_rejected TestDouble.env "123456"
           (TestDouble.otp_data 5000 3)).
  simpl. lia.
Defined.

Lemma isdigit_digit_char d : isdigit (digit_char d) = true.
Proof.
  unfold digit_char.
  pose proof (Nat.mod_upper_bound d 10 ltac:(lia)) as H.
  remember (d mod 10) as n eqn:E. clear E.
  do 10 (destruct n as [|n]; [vm_compute; reflexivity|]). lia.
Qed.

Lemma filter_all p s : all p s = true -> filter p s = s.
Proof.
  induction s as [|c s IH]; simpl; [reflexivity|].
  rewrite andb_true_iff. intros [-> Hs]. now rewrite IH.
Qed.

Lemma generate_otp_digits env :
  all isdigit (generate_otp env) = true /\
  String.length (generate_otp env) = OTP_LENGTH.
Proof.
  unfold generate_otp, OTP_LENGTH.
  cbn [seq map string_of_list_ascii all String.length].
  rewrite !isdigit_digit_char. split; reflexivity.
Qed.

(** A code just issued is accepted: exhaustion lasts until a new issuance. *)
Lemma fresh_otp_accepted env uid email plain od :
  create_otp_data env uid (VStr email) = Ok (plain, od) ->
  attempts od = 0%Z /\ max_attempts od = MAX_ATTEMPTS /\
  exists r, validate env plain od = Ok r /\ success r = true.
Proof.
  unfold create_otp_data, as_str. rewrite bind_ok. intros [= <- <-].
  split; [reflexivity|]. split; [reflexivity|].
  destruct (generate_otp_digits env) as [Hd Hl].
  unfold validate. cbn [expires_at attempts max_attempts od_otp_hash].
  rewrite (filter_all _ _ Hd), Hl, Nat.eqb_refl. cbn [negb].
  destruct (Z.ltb_spec (now env + minutes OTP_EXPIRY_MINUTES) (now env));
    [unfold minutes, OTP_EXPIRY_MINUTES in *; lia|].
  replace (MAX_ATTEMPTS <=? 0)%Z with false by reflexivity.
  rewrite compare_digest_ascii by apply hash_otp_ascii.
  rewrite bind_ok, String.eqb_refl. eauto.
Qed.

(** C5, as the code has it: an expired submission is rejected whatever its
    digits, by the validator alone; [_handle_otp] then stores the attempt
    counter plus one, as it does for every rejected submission, and leaves
    the rest of the state as it was. *)
Theorem otp_expired_rejected :
  (forall env input od,
     (expires_at od < now env)%Z ->
     exists r, validate env input od = Ok r /\ success r = false) /\
  (forall env st msg od,
     current_step st = AWAITING_OTP ->
     reconstruct_otp_data env st = Ok od ->
     (expires_at od < now env)%Z ->
     exists resp,
       process_message env st msg
       = Ok (resp, set_failed_otp_attempts (failed_otp_attempts st + 1) st)).
Proof.
  split; [apply validate_expired|].
  intros env st msg od Hstep Hrec Hexp. unfold process_message.
  rewrite Hstep.
  destruct (validate_expired env msg od Hexp) as (r & Hv & Hr).
  eapply handle_otp_rejected; eauto.
Qed.

(** The right code after expiry: rejected, and stored as a used attempt. *)
Lemma otp_expired_rejected_witness :
  hash_otp TestDouble.env "123456"
    = od_otp_hash (TestDouble.otp_data 500 0) /\
  (exists r,
     validate TestDouble.env "123456" (TestDouble.otp_data 500 0) = Ok r /\
     success r = false) /\
  exists resp,
    process_message TestDouble.env (TestDouble.otp_state 500 0) "123456"
    = Ok (resp, set_failed_otp_attempts
                  (failed_otp_attempts (TestDouble.otp_state 500 0) + 1)
                  (TestDouble.otp_state 500 0)).
Proof.
  split; [reflexivity|]. split.
  - apply (proj1 otp_expired_rejected). simpl. lia.
  - apply (proj2 otp_expired_rejected TestDouble.env
             (TestDouble.otp_state 500 0) "123456"
             (TestDouble.otp_data 500 0)).
    + reflexivity.
    + vm_compute. reflexivity.
    + simpl. lia.
Defined.

(** C5 as stated fails: the expired submission raises the stored counter
    from 0 to 1. *)
Lemma otp_expired_consumes_attempt :
  exists resp st',
    process_message TestDouble.env (TestDouble.otp_state 500 0) "123456"
      = Ok (resp, st') /\
    (otp_expires_at (TestDouble.otp_state 500 0)
       = Some 500 /\ 500 < now TestDouble.env)%Z /\
    failed_otp_attempts (TestDouble.otp_state 500 0) = 0%Z /\
    failed_otp_attempts st' = 1%Z.
Proof.
  do 2 eexists. split; [vm_compute; reflexivity|].
  repeat split; reflexivity.
Qed.

(** C3, as the code has it: a submission whose digits are not six in number
    is rejected by the length check, before expiry, exhaustion and hash are
    looked at; [_handle_otp] stores the attempt counter plus one and leaves
    the rest of the state, the step included, as it was. *)
Theorem otp_wrong_length_counted env st msg od :
  current_step st = AWAITING_OTP ->
  reconstruct_otp_data env st = Ok od ->
  String.length (filter isdigit msg) <> 6 ->
  validate env msg od
    = Ok (otp_error "Please enter a 6-digit code." "invalid_length" []) /\
  exists resp,
    process_message env st msg
    = Ok (resp, set_failed_otp_attempts (failed_otp_attempts st + 1) st).
Proof.
  intros Hstep Hrec Hlen.
  pose proof (validate_wrong_length env msg od Hlen) as Hv.
  split; [exact Hv|]. unfold process_message. rewrite Hstep.
  eapply handle_otp_rejected; eauto.
Qed.

Lemma otp_wrong_length_counted_witness :
  exists resp,
    process_message TestDouble.env (TestDouble.otp_state 5000 0) "12345"
    = Ok (resp, set_failed_otp_attempts
                  (failed_otp_attempts (TestDouble.otp_state 5000 0) + 1)
                  (TestDouble.otp_state 5000 0)).
Proof.
  apply (otp_wrong_length_counted TestDouble.env
           (TestDouble.otp_state 5000 0) "12345"
           (TestDouble.otp_data 5000 0)).
  - reflexivity.
  - vm_compute. reflexivity.
  - vm_compute. discriminate.
Defined.

(** C3 as stated fails: five digits raise the stored counter from 0 to 1. *)
Lemma otp_wrong_length_consumes_attempt :
  exists resp st',
    process_message TestDouble.env (TestDouble.otp_state 5000 0) "12345"
      = Ok (resp, st') /\
    String.length (filter isdigit "12345") = 5 /\
    failed_otp_attempts (TestDouble.otp_state 5000 0) = 0%Z /\
    failed_otp_attempts st' = 1%Z.
Proof.
  do 2 eexists. split; [vm_compute; reflexivity|].
  repeat split; reflexivity.
Qed.

End OTPFacts.

(** ** Terms acceptance *)
Module TermsFacts.
Import PyStr PyStrFacts StateMachine Reference.

Lemma prefix_iff : forall a s,
  String.prefix a s = true <-> exists post, s = a +:+ post.
Proof.
  induction a as [|x a IH]; intros s.
  - destruct s; simpl; split; eauto.
  - destruct s as [|y s]; simpl.
    + split; [discriminate | intros [post H]; discriminate].
    + destruct (ascii_dec x y) as [->|Hne].
      * rewrite IH. split; intros [post H]; exists post; congruence.
      * split; [discriminate | intros [post H]; congruence].
Qed.

Lemma contains_iff sub : forall s,
  contains sub s = true <-> has_substring sub s.
Proof.
  unfold has_substring.
  induction s as [|c s IH]; cbn [contains]; rewrite orb_true_iff, prefix_iff.
  - split.
    + intros [[post H]|H]; [|discriminate]. exists "", post. exact H.
    + intros (pre & post & H). left.
      destruct pre; [|discriminate]. now exists post.
  - rewrite IH. split.
    + intros [[post H]|(pre & post & H)].
      * exists "", post. exact H.
      * exists (String c pre), post. simpl. now rewrite H.
    + intros (pre & post & H). destruct pre as [|d pre]; simpl in H.
      * left. now exists post.
      * right. injection H as _ H. now exists pre, post.
Qed.

Lemma terms_accepted_iff msg : terms_accepted msg = true <-> accepting msg.
Proof.
  unfold terms_accepted, accepting.
  rewrite !orb_true_iff, !contains_iff, String.eqb_eq. tauto.
Qed.

(** C9: in AWAITING_TERMS the message advances the state exactly when it is
    the marker or its lowercase form contains "accept" or "agree" somewhere;
    any other message leaves the state as it is. *)
Theorem terms_substring_check env st msg :
  current_step st = AWAITING_TERMS ->
  exists resp st',
    process_message env st msg = Ok (resp, st') /\
    (accepting msg -> current_step st' = AWAITING_NAME) /\
    (~ accepting msg -> st' = st).
Proof.
  intros Hstep. unfold process_message, _handle_terms. rewrite Hstep.
  destruct (terms_accepted msg) eqn:H.
  - do 2 eexists. split; [reflexivity|]. split; [reflexivity|].
    intros Hn. apply terms_accepted_iff in H. contradiction.
  - do 2 eexists. split; [reflexivity|]. split; [|reflexivity].
    intros Ha. apply terms_accepted_iff in Ha. congruence.
Qed.

(** Two refusals advance a new user to the name step. *)
Lemma terms_substring_check_witness :
  (exists resp st',
     process_message TestDouble.env (new_state TestDouble.env "u1")
       "I don't accept" = Ok (resp, st') /\
     current_step st' = AWAITING_NAME) /\
  (exists resp st',
     process_message TestDouble.env (new_state TestDouble.env "u1")
       "I never agree" = Ok (resp, st') /\
     current_step st' = AWAITING_NAME).
Proof.
  split.
  - destruct (terms_substring_check TestDouble.env
                (new_state TestDouble.env "u1") "I don't accept" eq_refl)
      as (resp & st' & H & Hacc & _).
    exists resp, st'. split; [exact H|]. apply Hacc.
    right; left. exists "i don't ", "". reflexivity.
  - destruct (terms_substring_check TestDouble.env
                (new_state TestDouble.env "u1") "I never agree" eq_refl)
      as (resp & st' & H & Hacc & _).
    exists resp, st'. split; [exact H|]. apply Hacc.
    right; right. exists "i never ", "". reflexivity.
Defined.

End TermsFacts.

(** ** The returning-user lookup *)
Module ReturningUserFacts.
Import PyStr EmailValidator.

(** C10: when the store query raises, a well-formed address is still
    accepted, as a new user, and nothing of the failure reaches the
    caller. *)
Theorem lookup_failure_is_silent env email last_name e :
  query_users env (lower (strip email)) last_name = Raise e ->
  _is_valid_format (lower (strip email)) = true ->
  let r := validate env email last_name in
  _check_returning_user env (lower (strip email)) last_name = None /\
  success r = true /\
  error_message r = None /\
  (vr_data r ≫= (.!! "is_returning_user")) = Some (VBool false) /\
  (vr_data r ≫= (.!! "user_data")) = Some VNone.
Proof.
  intros Hq Hfmt r.
  assert (Hnone : _check_returning_user env (lower (strip email)) last_name
                  = None)
    by (unfold _check_returning_user; now rewrite Hq).
  subst r. unfold validate. rewrite Hfmt. cbn [negb].
  rewrite Hnone. split; [reflexivity|].
  destruct (truthy last_name); repeat split; reflexivity.
Qed.

Lemma lookup_failure_is_silent_witness :
  let r := validate TestDouble.env_store_down "John@X.com " (VStr "Smith") in
  truthy (VStr "Smith") = true /\
  success r = true /\
  (vr_data r ≫= (.!! "is_returning_user")) = Some (VBool false).
Proof.
  pose proof (lookup_failure_is_silent TestDouble.env_store_down
                "John@X.com " (VStr "Smith")
                (RuntimeError "503 unavailable") eq_refl eq_refl) as H.
  cbv zeta in *. destruct H as (_ & Hs & _ & Hr & _).
  split; [reflexivity|]. split; assumption.
Defined.

End ReturningUserFacts.

(** ** The phone step *)
Module PhoneFacts.
Import PyStr StateMachine OTPFacts.

(** What a successful phone validation returns. *)
Lemma phone_validate_success env region input r :
  success (PhoneValidator.validate env region input r) = true ->
  exists n,
    PhoneValidator.validate env region input r
    = mkValidationResult true
        (Some (dict_of
          [("phone", VStr (pn_e164 n));
           ("country_code", VStr ("+" +:+ pn_country_code n));
           ("national_number", VStr (pn_national_number n));
           ("formatted", VStr (pn_international n));
           ("region", pn_region n)]))
        None
        (Some (dict_of
          [("validation_type", VStr "phone");
           ("number_type", VStr (pn_type n))])).
Proof.
  unfold PhoneValidator.validate.
  destruct (nonempty (strip input)); cbn [negb]; [|discriminate].
  destruct (phonenumbers_parse _ _ _) as [n| |]; try discriminate.
  destruct (pn_valid n); cbn [negb]; [|discriminate]. eauto.
Qed.






End PhoneFacts.

(** ** The tool registry *)
Module ToolRegistryFacts.
Import ToolRegistry.

(** A rejected call reaches no handler. *)
Lemma rejected_call_invokes_nothing env tools call uid context :
  fst (validate_tool_call tools call) = false ->
  fst (execute_tool env tools call uid context) = [].
Proof.
  unfold execute_tool.
  destruct (validate_tool_call tools call) as [[|] msg]; simpl;
    [discriminate | reflexivity].
Qed.

Lemma unregistered_is_rejected tools call :
  tools !! name call = None -> fst (validate_tool_call tools call) = false.
Proof. unfold validate_tool_call. now intros ->. Qed.

Lemma missing_parameter_is_rejected tools call tool_def required_params param :
  tools !! name call = Some tool_def ->
  td_required tool_def = Some required_params ->
  In param required_params ->
  parameters call !! param = None ->
  fst (validate_tool_call tools call) = false.
Proof.
  intros Ht Hr Hin Hmiss. unfold validate_tool_call. rewrite Ht, Hr. simpl.
  assert (Hfm : exists p, first_missing required_params (parameters call)
                          = Some p).
  { clear Hr. induction required_params as [|q rest IH]; [destruct Hin|].
    simpl. destruct (bool_decide_reflect (is_Some (parameters call !! q)))
      as [Hq|Hq]; [|eauto].
    destruct Hin as [->|Hin]; [|auto].
    rewrite Hmiss in Hq. now destruct Hq. }
  destruct Hfm as [p ->]. reflexivity.
Qed.

(** No call site of [execute_tool] passes [tool_name], which the model
    requires. *)
Lemma tool_result_needs_tool_name t ok res err dat :
  new_ToolResult t (mkToolResultArgs None ok res err dat)
  = Raise (ValidationError "ToolResult" "tool_name").
Proof. reflexivity. Qed.

(** Whatever the call, [execute_tool] ends in an exception. *)
Lemma execute_tool_never_returns env tools call uid context :
  exists e, snd (execute_tool env tools call uid context) = Raise e.
Proof.
  unfold execute_tool.
  destruct (validate_tool_call tools call) as [[|] msg]; simpl.
  - destruct (tools !! name call) as [tool_def|]; simpl; [|eauto].
    unfold invoke. destruct (td_handler tool_def _ _ _); simpl; eauto.
  - eauto.
Qed.

(** C2 on the code: a call to a tool that is not registered reaches no
    handler, yet it does not come back as [ToolResult(success=False)]; the
    construction of the result raises, for want of [tool_name], and the
    exception leaves [execute_tool]. *)
Theorem execute_unregistered_raises env :
  execute_tool env (builtin_tools env)
    (mkToolCall "delete_account" ∅ None) "u1" None
  = ([], Raise (ValidationError "ToolResult" "tool_name")).
Proof. reflexivity. Qed.

(** The same for a registered tool called without its required parameter,
    and for one whose handler runs. *)
Lemma execute_incomplete_raises env :
  execute_tool env (builtin_tools env)
    (mkToolCall "get_available_slots" ∅ None) "u1" None
  = ([], Raise (ValidationError "ToolResult" "tool_name")).
Proof. reflexivity. Qed.

Lemma execute_complete_raises env :
  execute_tool env (builtin_tools env)
    (mkToolCall "get_available_slots"
       (dict_of [("date", VStr "2026-01-05")]) None) "u1" None
  = (["get_available_slots"],
     Raise (ValidationError "ToolResult" "tool_name")).
Proof. reflexivity. Qed.

End ToolRegistryFacts.

(** ** The workflow *)
Module WorkflowFacts.
Import PyStr StateMachine Invariant OTPFacts.

Lemma bind_raise {A B} (e : exn) (f : A -> result B) :
  (Raise e ≫= f) = Raise e.
Proof. reflexivity. Qed.

(** Split an equation [m ≫= f = Ok b] into the two steps that succeeded. *)
Ltac step_ok H :=
  match type of H with
  | (?m ≫= _) = Ok _ =>
      let a := fresh "a" in
      let E := fresh "E" in
      destruct m as [a|] eqn:E;
      [ rewrite bind_ok in H | rewrite bind_raise in H; discriminate H ]
  end.

(** Each handler returns the state in its step or in the next one, and in
    the next one only after its validator succeeded. *)
Lemma handle_terms_step env st msg resp st' :
  _handle_terms env st msg = Ok (resp, st') ->
  st' = st \/ (current_step st' = AWAITING_NAME /\ terms_accepted msg = true).
Proof.
  unfold _handle_terms. destruct (terms_accepted msg); intros [= _ <-]; auto.
Qed.

Lemma handle_name_step env st msg resp st' :
  _handle_name env st msg = Ok (resp, st') ->
  st' = st \/
  (current_step st' = AWAITING_EMAIL /\
   success (NameValidator.validate env msg) = true).
Proof.
  unfold _handle_name. destruct (success _); intros H.
  - do 2 step_ok H. injection H as _ <-. auto.
  - injection H as _ <-. auto.
Qed.

Lemma handle_email_step env st msg resp st' :
  _handle_email env st msg = Ok (resp, st') ->
  st' = st \/
  (current_step st' = AWAITING_PHONE /\
   success (EmailValidator.validate env (email_to_validate msg)
              (dict_get (data st) "last_name")) = true).
Proof.
  unfold _handle_email. cbv zeta. destruct (success _); intros H.
  - do 2 step_ok H.
    destruct (truthy a0 && truthy _).
    + destruct (from_option _ _ _); try discriminate H.
      step_ok H. injection H as _ <-. auto.
    + injection H as _ <-. auto.
  - injection H as _ <-. auto.
Qed.

Lemma handle_phone_step env st msg resp st' :
  _handle_phone env st msg = Ok (resp, st') ->
  st' = st \/
  ((current_step st' = current_step st \/ current_step st' = AWAITING_OTP) /\
   success (PhoneValidator.validate env default_region
              (phone_to_validate env msg) None) = true).
Proof.
  unfold _handle_phone. cbv zeta. destruct (success _); intros H.
  - do 4 step_ok H. destruct a2 as [plain od].
    destruct (send_otp_email _ _ _ _); injection H as _ <-; auto.
  - injection H as _ <-. auto.
Qed.

Lemma handle_otp_step env st msg resp st' :
  _handle_otp env st msg = Ok (resp, st') ->
  exists od r,
    reconstruct_otp_data env st = Ok od /\
    OTPValidator.validate env msg od = Ok r /\
    (current_step st' = current_step st \/
     (current_step st' = ACTIVE /\ success r = true)).
Proof.
  unfold _handle_otp. intros H. do 2 step_ok H. exists a, a0.
  split; [reflexivity|]. split; [assumption|].
  destruct (success _).
  - do 10 step_ok H. injection H as _ <-. auto.
  - injection H as _ <-. auto.
Qed.

Lemma handle_active_step env st msg resp st' :
  _handle_active_conversation env st msg = Ok (resp, st') -> st' = st.
Proof. unfold _handle_active_conversation. now intros [= _ <-]. Qed.

Lemma process_message_steps env st msg resp st' :
  process_message env st msg = Ok (resp, st') ->
  (current_step st' = current_step st \/
   TRANSITIONS (current_step st) = Some [current_step st']) /\
  (current_step st' <> current_step st ->
   step_validator env st msg = Some true).
Proof.
  unfold process_message, step_validator.
  destruct (current_step st) eqn:Hs; intros H.
  - apply handle_terms_step in H as [->|[-> ->]]; split; auto; congruence.
  - apply handle_name_step in H as [->|[-> ->]]; split; auto; congruence.
  - apply handle_email_step in H as [->|[-> ->]]; split; auto; congruence.
  - apply handle_phone_step in H as [->|[[->| ->] ->]]; split; auto;
      congruence.
  - apply handle_otp_step in H as (od & r & -> & Hv & [->|[-> Hr]]);
      rewrite bind_ok, Hv, ?Hr; split; auto; congruence.
  - injection H as _ <-. split; auto; congruence.
  - apply handle_active_step in H as ->. split; auto; congruence.
  - injection H as _ <-. split; auto; congruence.
Qed.

Lemma rejected_stays env st msg :
  step_validator env st msg = Some false ->
  exists resp st',
    process_message env st msg = Ok (resp, st') /\
    current_step st' = current_step st.
Proof.
  unfold process_message, step_validator.
  destruct (current_step st) eqn:Hs; try discriminate.
  - intros [= H]. unfold _handle_terms. rewrite H. eauto.
  - intros [= H]. unfold _handle_name. rewrite H. eauto.
  - intros [= H]. unfold _handle_email. cbv zeta. rewrite H. eauto.
  - intros [= H]. unfold _handle_phone. cbv zeta. rewrite H. eauto.
  - destruct (reconstruct_otp_data env st) as [od|] eqn:Hrec;
      [rewrite bind_ok | discriminate].
    destruct (OTPValidator.validate env msg od) as [r|] eqn:Hv;
      [|discriminate].
    intros [= H].
    destruct (handle_otp_rejected env st msg od r Hrec Hv H) as [resp ->].
    do 2 eexists. split; [reflexivity|]. exact Hs.
Qed.

(** *** Well-formed states are processed without an exception *)

Lemma has_str_insert_ne d k v k' :
  k <> k' -> has_str d k' -> has_str (<[k := v]> d) k'.
Proof. intros Hne [s H]. exists s. now rewrite lookup_insert_ne. Qed.

Lemma has_str_insert_eq d k s : has_str (<[k := VStr s]> d) k.
Proof. exists s. apply lookup_insert_eq. Qed.

Ltac has_str_tac :=
  repeat first
    [ assumption
    | apply has_str_insert_eq
    | apply has_str_insert_ne; [discriminate|] ].

Ltac unfold_state :=
  cbn [current_step data otp_hash otp_expires_at completed_steps
       failed_otp_attempts set_current_step set_item append_completed
       set_otp set_failed_otp_attempts set_terms].

Lemma name_validate_data env msg :
  success (NameValidator.validate env msg) = true ->
  exists f l,
    vr_data (NameValidator.validate env msg)
    = Some (dict_of
        [("first_name", VStr f); ("last_name", VStr l);
         ("full_name", VStr (f +:+ " " +:+ l))]).
Proof.
  unfold NameValidator.validate.
  destruct (nonempty (strip msg)); cbn [negb]; [|discriminate].
  destruct (NameValidator.strip_value
              (dict_get_or _ "first_name" _)) as [f|];
    [rewrite bind_ok | rewrite bind_raise; discriminate].
  destruct (NameValidator.strip_value
              (dict_get_or _ "last_name" _)) as [l|];
    [rewrite bind_ok | rewrite bind_raise; discriminate].
  destruct (negb _ || negb _); [discriminate|].
  destruct (negb _ || negb _); [discriminate|]. eauto.
Qed.

Lemma handle_name_total env st msg :
  current_step st = AWAITING_NAME ->
  exists resp st', _handle_name env st msg = Ok (resp, st') /\ wf st'.
Proof.
  intros Hs. unfold _handle_name.
  destruct (success (NameValidator.validate env msg)) eqn:Hok.
  - destruct (name_validate_data _ _ Hok) as (f & l & Hd).
    unfold result_item. rewrite Hd.
    replace (dict_item _ "first_name") with (Ok (VStr f)) by reflexivity.
    rewrite bind_ok.
    replace (dict_item _ "last_name") with (Ok (VStr l)) by reflexivity.
    rewrite bind_ok. do 2 eexists. split; [reflexivity|].
    unfold wf, named. unfold_state. split; has_str_tac.
  - do 2 eexists. split; [reflexivity|]. unfold wf. now rewrite Hs.
Qed.

Lemma masked_phone_ok env v :
  (truthy v = true -> exists p, v = VStr p) ->
  exists m, masked_phone env v = Ok m.
Proof.
  intros H. unfold masked_phone. destruct (truthy v); [|eauto].
  destruct (H eq_refl) as [p ->]. destruct (security_mask_phone env); eauto.
Qed.

Lemma check_returning_phone env email last_name ud :
  store_ok env ->
  EmailValidator._check_returning_user env email last_name = Some ud ->
  truthy (dict_get ud "phone") = true -> exists p, dict_get ud "phone" = VStr p.
Proof.
  intros Hstore. unfold EmailValidator._check_returning_user.
  destruct (query_users env email last_name) as [[|[doc_id doc] docs]|] eqn:Hq;
    try discriminate.
  intros [= <-] Ht.
  exact (Hstore email last_name _ doc_id doc Hq (or_introl eq_refl) Ht).
Qed.

Lemma handle_email_total env st msg :
  store_ok env -> current_step st = AWAITING_EMAIL -> wf st ->
  exists resp st', _handle_email env st msg = Ok (resp, st') /\ wf st'.
Proof.
  intros Hstore Hs Hwf.
  assert (Hnamed : named st) by (unfold wf in Hwf; now rewrite Hs in Hwf).
  destruct Hnamed as [Hf Hl].
  unfold _handle_email. cbv zeta.
  destruct (success _) eqn:Hok; [|now eauto].
  revert Hok. unfold EmailValidator.validate.
  destruct (EmailValidator._is_valid_format _); cbn [negb]; [|discriminate].
  intros _. unfold result_item. cbn [vr_data].
  set (ud := if truthy _ then _ else None).
  replace (dict_item _ "email")
    with (Ok (VStr (lower (strip (email_to_validate msg))))) by reflexivity.
  rewrite bind_ok.
  replace (dict_item _ "is_returning_user")
    with (Ok (VBool (bool_decide (is_Some ud)))) by reflexivity.
  rewrite bind_ok.
  replace (from_option (fun d => dict_get d "user_data") VNone (Some _))
    with (from_option VDict VNone ud) by reflexivity.
  destruct ud as [d|] eqn:Hud; cbn [from_option].
  - destruct (truthy _ && truthy (VDict d)).
    + destruct (masked_phone_ok env (dict_get d "phone")) as [m ->].
      { subst ud. destruct (truthy (dict_get (data st) "last_name"));
          [|discriminate].
        eapply check_returning_phone; eauto. }
      rewrite bind_ok. do 2 eexists. split; [reflexivity|].
      unfold wf, named. unfold_state. repeat split; has_str_tac.
    + do 2 eexists. split; [reflexivity|].
      unfold wf, named. unfold_state. repeat split; has_str_tac.
  - replace (truthy _ && truthy VNone) with false
      by (now rewrite andb_false_r).
    do 2 eexists. split; [reflexivity|].
    unfold wf, named. unfold_state. repeat split; has_str_tac.
Qed.

Lemma handle_phone_total env st msg :
  current_step st = AWAITING_PHONE -> wf st ->
  exists resp st', _handle_phone env st msg = Ok (resp, st') /\ wf st'.
Proof.
  intros Hs Hwf.
  assert (H : named st /\ has_str (data st) "email")
    by (unfold wf in Hwf; now rewrite Hs in Hwf).
  destruct H as [[Hf Hl] He].
  unfold _handle_phone. cbv zeta.
  destruct (success _) eqn:Hok; [|now eauto].
  destruct (PhoneFacts.phone_validate_success _ _ _ _ Hok) as [n ->].
  unfold result_item, vr_data.
  replace (dict_item _ "phone") with (Ok (VStr (pn_e164 n)))
    by reflexivity.
  rewrite bind_ok.
  replace (dict_item _ "country_code")
    with (Ok (VStr ("+" +:+ pn_country_code n))) by reflexivity.
  rewrite bind_ok.
  unfold dict_item at 1. unfold_state.
  rewrite !lookup_insert_ne by discriminate.
  destruct He as [email He']. rewrite He', bind_ok.
  unfold OTPValidator.create_otp_data, as_str. rewrite !bind_ok.
  assert (He : has_str (data st) "email") by now exists email.
  destruct (send_otp_email _ _ _ _); do 2 eexists;
    (split; [reflexivity|]); unfold wf, named; unfold_state;
    rewrite ?Hs; repeat split; eauto using hash_otp_ascii; has_str_tac.
Qed.

Lemma handle_otp_total env st msg :
  current_step st = AWAITING_OTP -> wf st ->
  exists resp st', _handle_otp env st msg = Ok (resp, st') /\ wf st'.
Proof.
  intros Hs Hwf. pose proof Hwf as Hwf'. unfold wf in Hwf'.
  rewrite Hs in Hwf'.
  destruct Hwf' as ([[f Hf] [l Hl]] & [e He] & [p Hp] & [c Hc]
                    & (h & Hh & Hascii) & [t Ht]).
  unfold _handle_otp, reconstruct_otp_data, dict_item, required, as_str.
  rewrite He, Hh, Ht, !bind_ok.
  destruct (validate_returns env msg
              (mkOTPData (user_id st) h t (failed_otp_attempts st) 3 e
                 (now env)) Hascii) as [r ->].
  rewrite bind_ok. destruct (success r).
  - unfold_state. rewrite He, Hf, Hl, Hp, Hc, !bind_ok.
    do 2 eexists. split; [reflexivity|]. exact I.
  - do 2 eexists. split; [reflexivity|]. exact Hwf.
Qed.

Lemma process_message_total env st msg :
  store_ok env -> wf st ->
  exists resp st', process_message env st msg = Ok (resp, st') /\ wf st'.
Proof.
  intros Hstore Hwf. unfold process_message.
  destruct (current_step st) eqn:Hs.
  - unfold _handle_terms. destruct (terms_accepted msg);
      do 2 eexists; (split; [reflexivity|]); [exact I | exact Hwf].
  - now apply handle_name_total.
  - now apply handle_email_total.
  - now apply handle_phone_total.
  - now apply handle_otp_total.
  - eauto.
  - unfold _handle_active_conversation. eauto.
  - eauto.
Qed.

Lemma new_state_wf env uid : wf (new_state env uid).
Proof. exact I. Qed.

(** The canonical session: one marker per step, ending in ACTIVE. *)
Example canonical_session :
  exists st,
    TestDouble.chat_session TestDouble.env (new_state TestDouble.env "u1")
      ["I accept"; "John Smith"; "john@x.com"; "+16502530000"; "777777"]
    = Ok st /\
    current_step st = ACTIVE /\
    completed_steps st
    = ["terms_agreed"; "name_collected"; "email_collected";
       "phone_collected"; "otp_verified"].
Proof. eexists. split; [vm_compute; reflexivity|]. split; reflexivity. Qed.

(** C1: whatever the state and the message, a returned state is in the
    step it was in or in that step's successor in the transition table, and
    in the successor only when the step's validator reported success; when
    the validator returns a rejection, a state is returned and it is in the
    same step; and a state as the machine builds it (the collected fields
    stored as strings, the stored hash an ASCII string as a hexadecimal
    digest is) is always processed to a result, again such a state.  Where
    the validator itself raises, as the comparison does on a stored hash
    with a character outside ASCII, it gives no verdict and no state is
    returned. *)
Theorem process_message_transitions env st msg :
  (forall resp st',
     process_message env st msg = Ok (resp, st') ->
     (current_step st' = current_step st \/
      TRANSITIONS (current_step st) = Some [current_step st']) /\
     (current_step st' <> current_step st ->
      step_validator env st msg = Some true)) /\
  (step_validator env st msg = Some false ->
   exists resp st',
     process_message env st msg = Ok (resp, st') /\
     current_step st' = current_step st) /\
  (store_ok env -> wf st ->
   exists resp st', process_message env st msg = Ok (resp, st') /\ wf st').
Proof.
  split; [|split].
  - intros resp st'. apply process_message_steps.
  - apply rejected_stays.
  - apply process_message_total.
Qed.

Lemma test_store_ok : store_ok TestDouble.env.
Proof. intros email last_name docs doc_id doc [= <-] []. Qed.

(** Outside the well-formed states: against a stored hash that holds the
    character U+00E9 a six-digit code makes the comparison raise; there is
    no verdict and no state. *)
Example non_ascii_hash_raises :
  let st := set_otp (Some (String (ascii_of_nat 233) "")) (Some 5000%Z)
              (TestDouble.otp_state 5000 0) in
  process_message TestDouble.env st "000000"
  = Raise (TypeError
             "comparing strings with non-ASCII characters is not supported")
  /\ step_validator TestDouble.env st "000000" = None.
Proof. split; vm_compute; reflexivity. Qed.

(** A stored phone that is not a string: a short list or dictionary is
    masked entirely, a number has no length, a long list cannot be
    sliced into a string. *)
Example masked_phone_of_other_values :
  masked_phone TestDouble.env (VList [VInt 1; VInt 2]) = Ok "***" /\
  masked_phone TestDouble.env (VDict (dict_of [("n", VInt 1)])) = Ok "***" /\
  masked_phone TestDouble.env (VInt 5) = Raise (TypeError "len") /\
  masked_phone TestDouble.env
    (VList [VInt 1; VInt 2; VInt 3; VInt 4; VInt 5; VInt 6; VInt 7])
  = Raise (TypeError "slice").
Proof. repeat split; vm_compute; reflexivity. Qed.

(** A new user who writes "no" stays at the terms; one who writes
    "I accept" is processed to a well-formed state. *)
Lemma process_message_transitions_witness :
  (exists resp st',
     process_message TestDouble.env (new_state TestDouble.env "u1") "no"
       = Ok (resp, st') /\
     current_step st' = AWAITING_TERMS) /\
  (exists resp st',
     process_message TestDouble.env (new_state TestDouble.env "u1")
       "I accept" = Ok (resp, st') /\ wf st').
Proof.
  split.
  - apply (proj1 (proj2 (process_message_transitions TestDouble.env
                           (new_state TestDouble.env "u1") "no"))).
    reflexivity.
  - apply (proj2 (proj2 (process_message_transitions TestDouble.env
                           (new_state TestDouble.env "u1") "I accept"))).
    + exact test_store_ok.
    + exact I.
Defined.

End WorkflowFacts.

(** ** More on the one-time passcode *)
Module OTPMoreFacts.
Import PyStr PySlice OTPValidator OTPFacts.

Lemma filter_idem p s : filter p (filter p s) = filter p s.
Proof.
  induction s as [|c s IH]; simpl; [reflexivity|].
  destruct (p c) eqn:Hc; simpl; [rewrite Hc, IH|]; auto.
Qed.

Lemma validate_true_iff env input od :
  (exists r, validate env input od = Ok r /\ success r = true) <->
  String.length (filter isdigit input) = OTP_LENGTH /\
  (now env <= expires_at od)%Z /\
  (attempts od < max_attempts od)%Z /\
  hash_otp env (filter isdigit input) = od_otp_hash od.
Proof.
  unfold validate.
  destruct (Nat.eqb_spec (String.length (filter isdigit input)) OTP_LENGTH);
    cbn [negb]; [|split; [intros (r & [= <-] & [=]) | tauto]].
  destruct (Z.ltb_spec (expires_at od) (now env));
    [split; [intros (r & [= <-] & [=]) | lia]|].
  destruct (Z.leb_spec (max_attempts od) (attempts od));
    [split; [intros (r & [= <-] & [=]) | lia]|].
  split.
  - intros (r & Hv & Hr).
    destruct (all is_ascii (od_otp_hash od)) eqn:Hascii.
    + rewrite compare_digest_ascii in Hv by (apply hash_otp_ascii || auto).
      rewrite bind_ok in Hv.
      destruct (String.eqb_spec (hash_otp env (filter isdigit input))
                  (od_otp_hash od)) as [Heq|Hne].
      * repeat split; auto; lia.
      * injection Hv as <-. discriminate.
    + destruct (compare_digest_raises _ _
                  (hash_otp_ascii env (filter isdigit input)) Hascii)
        as [ex Hex].
      rewrite Hex in Hv. discriminate.
  - intros (_ & _ & _ & <-).
    rewrite compare_digest_ascii by apply hash_otp_ascii.
    rewrite bind_ok, String.eqb_refl. eauto.
Qed.

(** X1: a submission is accepted (the validator returns a success) exactly
    when it has six digits, the code has not expired, attempts are left and
    the salted hash of the digits is the stored one. *)
Theorem otp_accepted_iff env input od :
  (exists r, validate env input od = Ok r /\ success r = true) <->
  String.length (filter isdigit input) = 6 /\
  (now env <= expires_at od)%Z /\
  (attempts od < max_attempts od)%Z /\
  sha256_hex env (filter isdigit input +:+ salt env) = od_otp_hash od.
Proof. apply validate_true_iff. Qed.

(** X2: only the digits of a submission count: two inputs with the same
    digits get the same verdict, message and metadata. *)
Theorem otp_only_digits_count env input input' od :
  filter isdigit input = filter isdigit input' ->
  validate env input od = validate env input' od.
Proof. intros H. unfold validate. now rewrite H. Qed.

Lemma otp_only_digits_count_witness :
  validate TestDouble.env "123-456" (TestDouble.otp_data 5000 0)
  = validate TestDouble.env " 123 456 " (TestDouble.otp_data 5000 0).
Proof.
  apply (otp_only_digits_count TestDouble.env "123-456" " 123 456 ").
  reflexivity.
Defined.

(** X3: a six-digit code whose hash is not the stored one, submitted while
    the code is valid and attempts are left.  When the stored hash is
    ASCII, as a hexadecimal digest is, the code is rejected as
    [invalid_code]; the metadata report [max_attempts - (attempts + 1)]
    attempts as remaining, and the message is the final one exactly when
    that number is zero.  When the stored hash has a character outside
    ASCII, the comparison raises a [TypeError] and the validator returns
    nothing. *)
Theorem otp_wrong_code_reports_remaining env input od :
  String.length (filter isdigit input) = 6 ->
  (now env <= expires_at od)%Z ->
  (attempts od < max_attempts od)%Z ->
  hash_otp env (filter isdigit input) <> od_otp_hash od ->
  (all is_ascii (od_otp_hash od) = true ->
   exists r,
     validate env input od = Ok r /\
     success r = false /\
     (metadata r ≫= (.!! "error_type")) = Some (VStr "invalid_code") /\
     (metadata r ≫= (.!! "attempts_remaining"))
       = Some (VInt (max_attempts od - (attempts od + 1))) /\
     (error_message r
        = Some
            "Invalid code. No attempts remaining. Please request a new code."
      <-> (attempts od + 1 = max_attempts od)%Z)) /\
  (all is_ascii (od_otp_hash od) = false ->
   validate env input od
   = Raise (TypeError
              "comparing strings with non-ASCII characters is not supported")).
Proof.
  intros Hlen Hexp Hatt Hne. unfold validate.
  rewrite Hlen. cbn [Nat.eqb OTP_LENGTH negb].
  destruct (Z.ltb_spec (expires_at od) (now env)); [lia|].
  destruct (Z.leb_spec (max_attempts od) (attempts od)); [lia|].
  split; intros Hascii.
  - rewrite compare_digest_ascii by (apply hash_otp_ascii || auto).
    rewrite bind_ok.
    destruct (String.eqb_spec (hash_otp env (filter isdigit input))
                (od_otp_hash od)); [contradiction|].
    eexists. split; [reflexivity|].
    split; [reflexivity|]. split; [reflexivity|]. split; [reflexivity|].
    unfold otp_error. cbn [error_message].
    destruct (Z.ltb_spec 0 (max_attempts od - (attempts od + 1))).
    + split; [|lia]. intros [=].
    + split; [lia | reflexivity].
  - unfold compare_digest. rewrite Hascii, andb_false_r. reflexivity.
Qed.

(** The last attempt with a wrong code; and a wrong code against a stored
    hash that holds an e with an acute accent. *)
Lemma otp_wrong_code_reports_remaining_witness :
  (exists r,
     validate TestDouble.env "000000" (TestDouble.otp_data 5000 2) = Ok r /\
     (metadata r ≫= (.!! "attempts_remaining")) = Some (VInt 0) /\
     error_message r
     = Some
         "Invalid code. No attempts remaining. Please request a new code.") /\
  validate TestDouble.env "000000" TestDouble2.otp_data_latin1
  = Raise (TypeError
             "comparing strings with non-ASCII characters is not supported").
Proof.
  split.
  - destruct (proj1 (otp_wrong_code_reports_remaining TestDouble.env "000000"
                       (TestDouble.otp_data 5000 2) eq_refl
                       ltac:(vm_compute; discriminate) eq_refl
                       ltac:(vm_compute; discriminate)) eq_refl)
      as (r & Hv & _ & _ & Hr & Hm).
    exists r. split; [exact Hv|]. split; [exact Hr|].
    apply Hm. reflexivity.
  - apply (proj2 (otp_wrong_code_reports_remaining TestDouble.env "000000"
                    TestDouble2.otp_data_latin1 eq_refl
                    ltac:(vm_compute; discriminate) eq_refl
                    ltac:(vm_compute; discriminate))).
    reflexivity.
Defined.

Lemma ascii_digit_digit_char d : ascii_digit (digit_char d) = true.
Proof.
  unfold digit_char.
  pose proof (Nat.mod_upper_bound d 10 ltac:(lia)) as H.
  remember (d mod 10) as n eqn:E. clear E.
  do 10 (destruct n as [|n]; [vm_compute; reflexivity|]). lia.
Qed.

(** X4: a generated code is a string of exactly six characters, each one of
    [0] to [9]; a leading zero is kept. *)
Theorem generated_code_is_six_digits env :
  String.length (generate_otp env) = 6 /\
  all ascii_digit (generate_otp env) = true /\
  (randbelow env 0 mod 10 = 0 ->
   String.get 0 (generate_otp env) = Some "0"%char).
Proof.
  unfold generate_otp, OTP_LENGTH.
  cbn [seq map string_of_list_ascii all String.length String.get].
  rewrite !ascii_digit_digit_char. repeat split.
  intros H0. unfold digit_char. now rewrite H0.
Qed.

Lemma generated_code_is_six_digits_witness :
  String.get 0 (generate_otp TestDouble2.env_zero_draw) = Some "0"%char.
Proof.
  apply (proj2 (proj2 (generated_code_is_six_digits
                         TestDouble2.env_zero_draw))).
  reflexivity.
Defined.

(** X5: issuing and verifying fit together: the code just issued for a
    string address is accepted against the data issued with it, which start
    at zero attempts of three and expire five minutes later; for anything
    but a string address the issuance raises. *)
Theorem issued_code_verifies env uid :
  (forall email,
     exists plain od,
       create_otp_data env uid (VStr email) = Ok (plain, od) /\
       attempts od = 0%Z /\ max_attempts od = 3%Z /\
       expires_at od = (now env + 300000000)%Z /\
       email_sent_to od = email /\
       od_otp_hash od = hash_otp env plain /\
       exists r, validate env plain od = Ok r /\ success r = true) /\
  (forall v,
     (forall s, v <> VStr s) ->
     create_otp_data env uid v
     = Raise (ValidationError "OTPData" "email_sent_to")).
Proof.
  split.
  - intros email.
    destruct (create_otp_data env uid (VStr email)) as [[plain od]|] eqn:H;
      [|discriminate H].
    exists plain, od. split; [reflexivity|].
    destruct (fresh_otp_accepted _ _ _ _ _ H) as (Ha & Hm & Hs).
    unfold create_otp_data, as_str in H. rewrite bind_ok in H.
    injection H as <- <-. repeat split; auto.
  - intros v Hv. unfold create_otp_data.
    destruct v; try reflexivity. now destruct (Hv s).
Qed.

Lemma issued_code_verifies_witness :
  create_otp_data TestDouble.env "u1" VNone
  = Raise (ValidationError "OTPData" "email_sent_to").
Proof.
  apply (proj2 (issued_code_verifies TestDouble.env "u1")).
  intros s. discriminate.
Defined.

End OTPMoreFacts.

(** ** The expiry helpers of the OTP validator *)
Module OTPExpiryFacts.
Import PyStr PyStrFacts OTPValidator OTPExpiry OTPFacts.

Lemma round_div_bounds a b :
  (0 <= a)%Z -> (0 < b)%Z ->
  (a / b <= round_div a b <= a / b + 1)%Z /\
  (round_div a b = a / b + 1 -> b <= 2 * (a mod b))%Z.
Proof.
  intros Ha Hb. unfold round_div.
  destruct (Z.ltb_spec (2 * (a mod b)) b); [lia|].
  destruct (Z.ltb_spec b (2 * (a mod b))); [lia|].
  destruct (Z.even (a / b)); lia.
Qed.

(** A quotient below [2^34] is so far below the precision of a double
    that the rounded quotient keeps its integer part. *)
Lemma rounded_floor a b K :
  (0 <= a)%Z -> (0 < b)%Z -> (b < 2 * K)%Z ->
  (round_div (a * K) b / K = a / b)%Z.
Proof.
  intros Ha Hb HK.
  assert (HKpos : (0 < K)%Z) by lia.
  destruct (round_div_bounds (a * K) b ltac:(nia) Hb) as [[Hlo Hhi] Hup].
  pose proof (Z.div_mod a b ltac:(lia)) as Ea.
  pose proof (Z.mod_pos_bound a b Hb) as Ba.
  pose proof (Z.div_mod (a * K) b ltac:(lia)) as Ek.
  pose proof (Z.mod_pos_bound (a * K) b Hb) as Bk.
  set (n := (a / b)%Z) in *. set (f := (a mod b)%Z) in *.
  set (q := (a * K / b)%Z) in *. set (r := ((a * K) mod b)%Z) in *.
  set (m := round_div (a * K) b) in *.
  assert (Hn : (0 <= n)%Z) by (apply Z.div_pos; lia).
  assert (Hq : (n * K <= q)%Z).
  { apply Z.div_le_lower_bound; [lia|]. nia. }
  assert (Hm : (m < (n + 1) * K)%Z).
  { destruct (Z.eq_dec m (q + 1)%Z) as [E|E].
    - specialize (Hup E). nia.
    - assert (m = q)%Z by lia. nia. }
  symmetry. apply Z.div_unique with (r := (m - n * K)%Z); lia.
Qed.

Lemma log2_million : Z.log2 1000000 = 19%Z.
Proof. reflexivity. Qed.

Lemma int_true_div_small a :
  (0 <= a < 2 ^ 34 * 1000000)%Z ->
  int_true_div a 1000000 = (a / 1000000)%Z.
Proof.
  intros [Ha Hlt]. unfold int_true_div.
  destruct (Z.eqb_spec a 0) as [->|Hne]; [reflexivity|].
  rewrite log2_million. cbv zeta.
  set (e0 := (Z.log2 a - 19)%Z).
  assert (He0 : (e0 <= 34)%Z).
  { assert (Z.log2 a < 54)%Z; [|lia].
    apply Z.log2_lt_pow2; [lia|]. lia. }
  set (below := if (0 <=? e0)%Z then _ else _).
  set (e := if below then (e0 - 1)%Z else e0).
  assert (He : (e <= 33)%Z).
  { subst e. destruct below eqn:Hb; [lia|].
    destruct (Z.eq_dec e0 34%Z) as [E|E]; [|lia].
    exfalso. subst below. rewrite E in Hb. cbn in Hb.
    apply Z.ltb_ge in Hb. lia. }
  destruct (Z.leb_spec 0 (e - 52)); [lia|].
  apply rounded_floor; [lia | lia |].
  assert (2 ^ 19 <= 2 ^ (- (e - 52)))%Z
    by (apply Z.pow_le_mono_r; lia).
  lia.
Qed.

Lemma int_true_div_nonneg a b :
  (0 <= a)%Z -> (0 < b)%Z -> (0 <= int_true_div a b)%Z.
Proof.
  intros Ha Hb. unfold int_true_div.
  destruct (a =? 0)%Z; [lia|]. cbv zeta.
  set (shift := (_ - 52)%Z).
  destruct (Z.leb_spec 0 shift).
  - assert (0 < 2 ^ shift)%Z by (apply Z.pow_pos_nonneg; lia).
    destruct (round_div_bounds a (b * 2 ^ shift) Ha ltac:(nia)) as [[H1 _] _].
    assert (0 <= a / (b * 2 ^ shift))%Z by (apply Z.div_pos; nia).
    nia.
  - assert (0 < 2 ^ (- shift))%Z by (apply Z.pow_pos_nonneg; lia).
    destruct (round_div_bounds (a * 2 ^ (- shift)) b ltac:(nia) Hb)
      as [[H1 _] _].
    assert (0 <= a * 2 ^ (- shift) / b)%Z by (apply Z.div_pos; nia).
    apply Z.div_pos; lia.
Qed.

(** A full second is never rounded away. *)
Lemma int_true_div_ge_one a b :
  (0 < b <= a)%Z -> (1 <= int_true_div a b)%Z.
Proof.
  intros [Hb Hab]. unfold int_true_div.
  destruct (Z.eqb_spec a 0); [lia|]. cbv zeta.
  set (e0 := (Z.log2 a - Z.log2 b)%Z).
  set (below := if (0 <=? e0)%Z then _ else _).
  set (e := if below then (e0 - 1)%Z else e0).
  destruct (Z.leb_spec 0 (e - 52)) as [Hs|Hs].
  - (* the quotient is at least [2^e] *)
    assert (Hpow : (0 < 2 ^ (e - 52))%Z) by (apply Z.pow_pos_nonneg; lia).
    assert (Hge : (b * 2 ^ e <= a)%Z).
    { subst e. destruct below eqn:Hbelow.
      - pose proof (Z.log2_spec a ltac:(lia)) as [La _].
        pose proof (Z.log2_spec b Hb) as [_ Lb].
        assert (E : (Z.log2 a = Z.log2 b + 1 + (e0 - 1))%Z) by lia.
        rewrite E, Z.pow_add_r in La by (pose proof (Z.log2_nonneg b); lia).
        assert (0 < 2 ^ (e0 - 1))%Z by (apply Z.pow_pos_nonneg; lia).
        nia.
      - subst below. destruct (Z.leb_spec 0 e0); [|lia].
        apply Z.ltb_ge in Hbelow. lia. }
    assert (E : (2 ^ e = 2 ^ 52 * 2 ^ (e - 52))%Z)
      by (rewrite <- Z.pow_add_r by lia; f_equal; lia).
    destruct (round_div_bounds a (b * 2 ^ (e - 52)) ltac:(lia) ltac:(nia))
      as [[H1 _] _].
    assert (2 ^ 52 <= a / (b * 2 ^ (e - 52)))%Z
      by (apply Z.div_le_lower_bound; nia).
    nia.
  - assert (Hpow : (0 < 2 ^ (- (e - 52)))%Z)
      by (apply Z.pow_pos_nonneg; lia).
    destruct (round_div_bounds (a * 2 ^ (- (e - 52))) b ltac:(nia) Hb)
      as [[H1 _] _].
    assert (2 ^ (- (e - 52)) <= a * 2 ^ (- (e - 52)) / b)%Z
      by (apply Z.div_le_lower_bound; nia).
    apply Z.div_le_lower_bound; lia.
Qed.

Lemma int_total_seconds_small td :
  (Z.abs td < 2 ^ 34 * 1000000)%Z ->
  int_total_seconds td = Z.quot td 1000000.
Proof.
  intros H. unfold int_total_seconds.
  destruct (Z.ltb_spec td 0).
  - rewrite int_true_div_small by lia.
    rewrite <- Z.quot_div_nonneg by lia.
    rewrite Z.quot_opp_l by lia. lia.
  - rewrite int_true_div_small by lia.
    symmetry. apply Z.quot_div_nonneg; lia.
Qed.

Lemma int_total_seconds_sign td :
  ((0 <= td -> 0 <= int_total_seconds td) /\
   (td <= 0 -> int_total_seconds td <= 0))%Z.
Proof.
  unfold int_total_seconds. destruct (Z.ltb_spec td 0); split; intros.
  - lia.
  - pose proof (int_true_div_nonneg (- td) 1000000 ltac:(lia) ltac:(lia)).
    lia.
  - apply int_true_div_nonneg; lia.
  - assert (td = 0%Z) as -> by lia. reflexivity.
Qed.

Lemma int_total_seconds_pos_iff td :
  (int_total_seconds td <= 0 <-> td < 1000000)%Z.
Proof.
  destruct (Z.lt_ge_cases td 1000000) as [H|H].
  - split; [auto|]. intros _.
    destruct (Z.lt_ge_cases td 0) as [Hn|Hn].
    + apply int_total_seconds_sign. lia.
    + rewrite int_total_seconds_small by lia.
      rewrite Z.quot_small; lia.
  - split; [|lia]. intros Hle. exfalso.
    unfold int_total_seconds in Hle.
    destruct (Z.ltb_spec td 0); [lia|].
    pose proof (int_true_div_ge_one td 1000000 ltac:(lia)). lia.
Qed.

Lemma remaining_when_valid env env' od :
  (now env <= expires_at od)%Z ->
  get_time_remaining env env' od
  = int_total_seconds (expires_at od - now env').
Proof.
  intros H. unfold get_time_remaining, is_otp_expired.
  destruct (Z.ltb_spec (expires_at od) (now env)); [lia | reflexivity].
Qed.

(** X6: the remaining time is zero when the code has expired at the first
    reading of the clock.  Otherwise it is computed from the second
    reading: it has the sign of the time left (negative when the code
    expired between the readings), and it is the number of whole seconds
    left, fraction dropped, as long as that number is below [2^34]; beyond
    that the float of [total_seconds] can round a second up, as at
    32503679999.999999 seconds.  For a code just issued and a clock that
    has not reached its expiry, the answer is the whole seconds left of
    its five minutes, 300 when the clock has not moved. *)
Theorem time_remaining_whole_seconds env env' od :
  ((expires_at od < now env)%Z -> get_time_remaining env env' od = 0%Z) /\
  ((now env <= expires_at od)%Z ->
   let left := (expires_at od - now env')%Z in
   (0 <= left -> 0 <= get_time_remaining env env' od)%Z /\
   (left <= 0 -> get_time_remaining env env' od <= 0)%Z /\
   (Z.abs left < 2 ^ 34 * 1000000 ->
    get_time_remaining env env' od = Z.quot left 1000000)%Z) /\
  int_total_seconds 32503679999999999 = 32503680000%Z /\
  (forall issue uid email plain od',
     create_otp_data issue uid (VStr email) = Ok (plain, od') ->
     (now env <= now issue + 300000000)%Z ->
     (now issue <= now env' <= now issue + 300000000)%Z ->
     get_time_remaining env env' od'
     = ((now issue + 300000000 - now env') / 1000000)%Z /\
     (now env' = now issue -> get_time_remaining env env' od' = 300%Z)).
Proof.
  split; [|split; [|split]].
  - intros H. unfold get_time_remaining, is_otp_expired.
    destruct (Z.ltb_spec (expires_at od) (now env)); [reflexivity | lia].
  - intros H. cbv zeta. rewrite (remaining_when_valid env env' od H).
    split; [apply int_total_seconds_sign|].
    split; [apply int_total_seconds_sign | apply int_total_seconds_small].
  - vm_compute. reflexivity.
  - intros issue uid email plain od' H H1 H2.
    unfold create_otp_data, as_str in H. rewrite bind_ok in H.
    injection H as _ <-.
    assert (E : get_time_remaining env env'
                  (mkOTPData uid (hash_otp issue (generate_otp issue))
                     (now issue + minutes OTP_EXPIRY_MINUTES) 0 MAX_ATTEMPTS
                     email (now issue))
                = ((now issue + 300000000 - now env') / 1000000)%Z).
    { rewrite remaining_when_valid;
        cbn [expires_at]; unfold minutes, OTP_EXPIRY_MINUTES; [|lia].
      replace (now issue + 5 * 60 * 1000000 - now env')%Z
        with (now issue + 300000000 - now env')%Z by lia.
      rewrite int_total_seconds_small by lia.
      apply Z.quot_div_nonneg; lia. }
    split; [exact E|]. intros Hsame. rewrite E, Hsame.
    replace (now issue + 300000000 - now issue)%Z with 300000000%Z by lia.
    reflexivity.
Qed.

(** Read after expiry: nothing is left.  Read four minutes after the
    issuance: sixty seconds are left. *)
Lemma time_remaining_whole_seconds_witness :
  get_time_remaining TestDouble.env TestDouble2.env_later
    (TestDouble.otp_data 0 0) = 0%Z /\
  get_time_remaining TestDouble2.env_later TestDouble2.env_later
    (TestDouble.otp_data 300001000 0) = 60%Z.
Proof.
  pose proof (time_remaining_whole_seconds TestDouble.env
                TestDouble2.env_later (TestDouble.otp_data 0 0)) as H0.
  pose proof (time_remaining_whole_seconds TestDouble2.env_later
                TestDouble2.env_later (TestDouble.otp_data 300001000 0))
    as H1.
  cbv zeta in H1.
  split.
  - apply (proj1 H0). reflexivity.
  - destruct (proj1 (proj2 H1)) as (_ & _ & Hq).
    + vm_compute. discriminate.
    + rewrite Hq; [reflexivity | vm_compute; reflexivity].
Defined.

(** X7: the formatted remaining time reads "Expired" exactly when the code
    has expired at the first reading of the clock or less than one whole
    second is left at the second; with one value for both readings this is
    every code with less than a second left, including one that the
    validator still accepts. *)
Theorem expired_label_iff env env' od :
  format_time_remaining env env' od = "Expired" <->
  (expires_at od < now env)%Z \/ (expires_at od - now env' < 1000000)%Z.
Proof.
  unfold format_time_remaining.
  destruct (Z.leb_spec (get_time_remaining env env' od) 0) as [Hr|Hr].
  - split; [intros _|reflexivity].
    destruct (Z.lt_ge_cases (expires_at od) (now env)) as [H|H]; [auto|].
    right. rewrite remaining_when_valid in Hr by lia.
    now apply int_total_seconds_pos_iff.
  - split.
    + destruct (0 <? _)%Z; intros H; exfalso;
        apply (f_equal String.length) in H;
        repeat (rewrite length_app in H || simpl in H); lia.
    + intros H. exfalso.
      destruct (Z.lt_ge_cases (expires_at od) (now env)) as [He|He].
      * unfold get_time_remaining, is_otp_expired in Hr.
        destruct (Z.ltb_spec (expires_at od) (now env)); lia.
      * destruct H as [H|H]; [lia|].
        rewrite remaining_when_valid in Hr by lia.
        apply int_total_seconds_pos_iff in H. lia.
Qed.

End OTPExpiryFacts.

(** ** What a processed message does to the state *)
Module TransitionFacts.
Import PyStr StateMachine Invariant Transition OTPFacts WorkflowFacts.

Ltac unfold_all :=
  cbn [current_step data otp_hash otp_expires_at completed_steps
       failed_otp_attempts terms_agreed terms_agreed_at user_id
       max_otp_attempts created_at updated_at
       set_current_step set_item append_completed set_otp
       set_failed_otp_attempts set_terms StateStore.set_updated_at id].

Lemma item_str d k v model field s :
  dict_item d k = Ok v -> as_str model field v = Ok s -> has_str d k.
Proof.
  unfold dict_item. destruct (d !! k) as [w|] eqn:E; [|discriminate].
  intros [= ->]. destruct v; try discriminate. intros _. now exists s0.
Qed.

Lemma handle_terms_effect env st msg resp st' :
  current_step st = AWAITING_TERMS ->
  _handle_terms env st msg = Ok (resp, st') -> step_effect st st'.
Proof.
  intros Hs. unfold _handle_terms.
  destruct (terms_accepted msg); intros [= _ <-];
    [now apply effect_terms | apply effect_none].
Qed.

Lemma handle_name_effect env st msg resp st' :
  current_step st = AWAITING_NAME ->
  _handle_name env st msg = Ok (resp, st') -> step_effect st st'.
Proof.
  intros Hs. unfold _handle_name.
  destruct (success (NameValidator.validate env msg)) eqn:Hok;
    [|intros [= _ <-]; apply effect_none].
  destruct (name_validate_data _ _ Hok) as (f & l & Hd).
  unfold result_item. rewrite Hd.
  replace (dict_item _ "first_name") with (Ok (VStr f)) by reflexivity.
  rewrite bind_ok.
  replace (dict_item _ "last_name") with (Ok (VStr l)) by reflexivity.
  rewrite bind_ok. intros [= _ <-]. now apply effect_name.
Qed.

Lemma handle_email_effect env st msg resp st' :
  current_step st = AWAITING_EMAIL ->
  _handle_email env st msg = Ok (resp, st') -> step_effect st st'.
Proof.
  intros Hs. unfold _handle_email. cbv zeta.
  destruct (success _) eqn:Hok; [|intros [= _ <-]; apply effect_none].
  revert Hok. unfold EmailValidator.validate.
  destruct (EmailValidator._is_valid_format _); cbn [negb]; [|discriminate].
  intros _. unfold result_item. cbn [vr_data].
  set (ud := if truthy _ then _ else None).
  replace (dict_item _ "email")
    with (Ok (VStr (lower (strip (email_to_validate msg))))) by reflexivity.
  rewrite bind_ok.
  replace (dict_item _ "is_returning_user")
    with (Ok (VBool (bool_decide (is_Some ud)))) by reflexivity.
  rewrite bind_ok.
  replace (from_option (fun d => dict_get d "user_data") VNone (Some _))
    with (from_option VDict VNone ud) by reflexivity.
  destruct ud as [d|]; cbn [from_option].
  - destruct (truthy _ && truthy (VDict d)).
    + intros H. step_ok H. injection H as _ <-.
      now apply effect_email_returning.
    + intros [= _ <-]. now apply effect_email_new.
  - replace (truthy _ && truthy VNone) with false
      by (now rewrite andb_false_r).
    intros [= _ <-]. now apply effect_email_new.
Qed.

Lemma handle_phone_effect env st msg resp st' :
  current_step st = AWAITING_PHONE ->
  _handle_phone env st msg = Ok (resp, st') -> step_effect st st'.
Proof.
  intros Hs. unfold _handle_phone. cbv zeta.
  destruct (success _) eqn:Hok; [|intros [= _ <-]; apply effect_none].
  destruct (PhoneFacts.phone_validate_success _ _ _ _ Hok) as [n ->].
  unfold result_item, vr_data.
  replace (dict_item _ "phone") with (Ok (VStr (pn_e164 n)))
    by reflexivity.
  rewrite bind_ok.
  replace (dict_item _ "country_code")
    with (Ok (VStr ("+" +:+ pn_country_code n))) by reflexivity.
  rewrite bind_ok.
  unfold dict_item at 1. unfold_state.
  rewrite !lookup_insert_ne by discriminate.
  destruct (data st !! "email") as [v|] eqn:He;
    [rewrite bind_ok | rewrite bind_raise; discriminate].
  unfold OTPValidator.create_otp_data.
  destruct v; cbn [as_str]; try (rewrite bind_raise; discriminate).
  rewrite !bind_ok.
  destruct (send_otp_email _ _ _ _); intros [= _ <-].
  - exact (effect_phone st true _ _ _ _ _ Hs He (hash_otp_ascii env _)).
  - exact (effect_phone st false _ _ _ _ _ Hs He (hash_otp_ascii env _)).
Qed.

Lemma handle_otp_effect env st msg resp st' :
  current_step st = AWAITING_OTP ->
  _handle_otp env st msg = Ok (resp, st') -> step_effect st st'.
Proof.
  intros Hs. unfold _handle_otp. intros H. do 2 step_ok H.
  destruct (reconstruct_fields _ _ _ E) as (Ha & Hm & _).
  destruct (success _) eqn:Hok.
  - assert (Hlt : (attempts a < max_attempts a)%Z)
      by (apply (OTPMoreFacts.validate_true_iff env msg a); eauto).
    do 10 step_ok H. injection H as _ <-.
    apply effect_otp_verified; [assumption | lia | ..];
      eapply item_str; eassumption.
  - injection H as _ <-. rewrite Ha. now apply effect_otp_rejected.
Qed.

Lemma process_message_effect_aux env st msg resp st' :
  process_message env st msg = Ok (resp, st') -> step_effect st st'.
Proof.
  unfold process_message. destruct (current_step st) eqn:Hs.
  - now apply handle_terms_effect.
  - now apply handle_name_effect.
  - now apply handle_email_effect.
  - now apply handle_phone_effect.
  - now apply handle_otp_effect.
  - intros [= _ <-]. apply effect_none.
  - intros H. apply handle_active_step in H as ->. apply effect_none.
  - intros [= _ <-]. apply effect_none.
Qed.

(** X8: a processed message changes the state in one of nine ways and in
    no other: not at all, or by the writes of the step the state is in. *)
Theorem process_message_effect env st msg resp st' :
  process_message env st msg = Ok (resp, st') -> step_effect st st'.
Proof. apply process_message_effect_aux. Qed.

Lemma process_message_effect_witness :
  exists resp st',
    process_message TestDouble.env TestDouble.phone_state "+1 650-253-0000"
      = Ok (resp, st') /\
    step_effect TestDouble.phone_state st'.
Proof.
  destruct (process_message TestDouble.env TestDouble.phone_state
              "+1 650-253-0000") as [[resp st']|] eqn:H;
    [|vm_compute in H; discriminate H].
  exists resp, st'. split; [reflexivity|].
  exact (process_message_effect _ _ _ _ _ H).
Defined.

Lemma effect_completed st st' :
  step_effect st st' ->
  (completed_steps st' = completed_steps st /\
   current_step st' = current_step st) \/
  exists marker, completed_steps st' = completed_steps st ++ [marker].
Proof.
  intros H. destruct H as [| | | | |[|]| |]; unfold_all; eauto.
Qed.

(** X9: the completed steps only grow, by at most one marker per message,
    and a message that changes the step adds exactly one. *)
Theorem completed_steps_append_only env st msg resp st' :
  process_message env st msg = Ok (resp, st') ->
  (completed_steps st' = completed_steps st \/
   exists marker, completed_steps st' = completed_steps st ++ [marker]) /\
  (current_step st' <> current_step st ->
   exists marker, completed_steps st' = completed_steps st ++ [marker]).
Proof.
  intros H. apply process_message_effect_aux, effect_completed in H.
  destruct H as [[Hc Hs]|Hm]; split; auto. intros Hne. contradiction.
Qed.

Lemma completed_steps_append_only_witness :
  exists resp st',
    process_message TestDouble.env (new_state TestDouble.env "u1")
      "I accept" = Ok (resp, st') /\
    exists marker,
      completed_steps st'
      = completed_steps (new_state TestDouble.env "u1") ++ [marker].
Proof.
  destruct (process_message TestDouble.env (new_state TestDouble.env "u1")
              "I accept") as [[resp st']|] eqn:H;
    [|vm_compute in H; discriminate H].
  exists resp, st'. split; [reflexivity|].
  apply (proj2 (completed_steps_append_only _ _ _ _ _ H)).
  vm_compute in H. injection H as _ <-. discriminate.
Defined.

Lemma effect_frame st st' :
  step_effect st st' ->
  user_id st' = user_id st /\
  max_otp_attempts st' = max_otp_attempts st /\
  created_at st' = created_at st /\
  updated_at st' = updated_at st /\
  dom (data st) ⊆ dom (data st').
Proof.
  intros H. destruct H as [| | | | |[|]| |]; unfold_all;
    repeat split; rewrite ?dom_insert_L; set_solver.
Qed.

(** X10: processing a message never changes the user id, the attempt bound
    or the two timestamps, and never removes a key from the collected
    data. *)
Theorem process_message_frame env st msg resp st' :
  process_message env st msg = Ok (resp, st') ->
  user_id st' = user_id st /\
  max_otp_attempts st' = max_otp_attempts st /\
  created_at st' = created_at st /\
  updated_at st' = updated_at st /\
  dom (data st) ⊆ dom (data st').
Proof. intros H. now apply process_message_effect_aux, effect_frame in H. Qed.

Lemma process_message_frame_witness :
  exists resp st',
    process_message TestDouble.env TestDouble.phone_state "+1 650-253-0000"
      = Ok (resp, st') /\
    user_id st' = "u1" /\
    dom (data TestDouble.phone_state) ⊆ dom (data st').
Proof.
  destruct (process_message TestDouble.env TestDouble.phone_state
              "+1 650-253-0000") as [[resp st']|] eqn:H;
    [|vm_compute in H; discriminate H].
  exists resp, st'. split; [reflexivity|].
  destruct (process_message_frame _ _ _ _ _ H) as (Hu & _ & _ & _ & Hd).
  split; [exact Hu | exact Hd].
Defined.

End TransitionFacts.

(** ** States a user can reach *)
Module ReachabilityFacts.
Import PyStr StateMachine Invariant Transition OTPFacts WorkflowFacts
       TransitionFacts.

Lemma onboarded_new env uid : onboarded (new_state env uid).
Proof. exists 0. cbn. repeat split; intros; lia. Qed.

Lemma done_append st marker m :
  done st m -> In m (completed_steps st ++ [marker]).
Proof. unfold done. rewrite in_app_iff. auto. Qed.

Lemma done_new st marker : In marker (completed_steps st ++ [marker]).
Proof. rewrite in_app_iff. right. now left. Qed.

Ltac carry :=
  unfold done, named in *; unfold_all;
  repeat match goal with
  | H : _ /\ _ |- _ => destruct H
  end;
  repeat match goal with
  | |- _ /\ _ => split
  | |- In ?m (_ ++ [?m]) => apply done_new
  | |- In _ (_ ++ [_]) => apply done_append; unfold done
  | |- has_str _ _ => progress has_str_tac
  end; eauto.

Lemma onboarded_effect st st' :
  onboarded st -> step_effect st st' -> onboarded st'.
Proof.
  intros (n & Hr & H1 & H2 & H3 & H4 & H5) He.
  destruct He as [|iso t Hs|f l Hs|e Hs|e ph cc Hs|sent p cc h t email Hs Hem
                  |Hs|Hs Hlt He Hf Hl Hp Hc];
    try (rewrite Hs in Hr; injection Hr as <-).
  - exists n. auto 10.
  - exists 1. split; [reflexivity|].
    repeat split; intros; try lia; carry.
  - exists 2. split; [reflexivity|].
    specialize (H1 ltac:(lia)).
    repeat split; intros; try lia; carry.
  - exists 3. split; [reflexivity|].
    specialize (H1 ltac:(lia)). specialize (H2 ltac:(lia)).
    repeat split; intros; try lia; carry.
  - exists 3. split; [reflexivity|].
    specialize (H1 ltac:(lia)). specialize (H2 ltac:(lia)).
    repeat split; intros; try lia; carry.
  - specialize (H1 ltac:(lia)). specialize (H2 ltac:(lia)).
    specialize (H3 ltac:(lia)).
    destruct sent; [exists 4 | exists 3];
      (split; [unfold_all; rewrite ?Hs; reflexivity|]);
      repeat split; intros; try lia; carry.
  - exists 4. split; [unfold_all; now rewrite Hs|].
    specialize (H1 ltac:(lia)). specialize (H2 ltac:(lia)).
    specialize (H3 ltac:(lia)). specialize (H4 ltac:(lia)).
    repeat split; intros; try lia; carry.
  - exists 5. split; [reflexivity|].
    specialize (H1 ltac:(lia)). specialize (H2 ltac:(lia)).
    specialize (H3 ltac:(lia)). specialize (H4 ltac:(lia)).
    repeat split; intros; try lia; carry.
Qed.

Lemma onboarded_save st t :
  onboarded st -> onboarded (StateStore.set_updated_at t st).
Proof. intros H. exact H. Qed.

Lemma request_step_onboarded st st' :
  onboarded st -> request_step st st' -> onboarded st'.
Proof.
  intros Hi (env & msg & resp & st1 & Hp & ->).
  apply onboarded_save. eapply onboarded_effect; [exact Hi|].
  eapply process_message_effect_aux; eauto.
Qed.

Lemma rtc_onboarded st st' :
  rtc request_step st st' -> onboarded st -> onboarded st'.
Proof.
  induction 1 as [|x y z Hxy _ IH]; [auto|].
  intros Hi. apply IH. eapply request_step_onboarded; eauto.
Qed.

Lemma reachable_onboarded st : reachable st -> onboarded st.
Proof.
  intros (env & uid & H). eapply rtc_onboarded; [exact H|].
  apply onboarded_new.
Qed.

Lemma onboarded_wf st : onboarded st -> wf st.
Proof.
  intros (n & Hr & H1 & H2 & H3 & H4 & H5). unfold wf.
  destruct (current_step st); try exact I; try discriminate;
    injection Hr as <-;
    repeat match goal with
    | H : _ <= _ -> _ |- _ =>
        first [ specialize (H ltac:(lia)) | clear H ]
    end; tauto.
Qed.

(** Chains of requests for the concrete runs below. *)
Ltac one_request env msg :=
  eapply rtc_l;
  [ exists env, msg; do 2 eexists;
    split; [vm_compute; reflexivity | reflexivity] | ].

Lemma new_state_reachable env uid : reachable (new_state env uid).
Proof. exists env, uid. apply rtc_refl. Qed.

Lemma verified_state_reachable :
  exists st, reachable st /\ current_step st = ACTIVE.
Proof.
  eexists. split.
  - exists TestDouble.env, "u1".
    one_request TestDouble.env "I accept".
    one_request TestDouble.env "John Smith".
    one_request TestDouble.env "john@x.com".
    one_request TestDouble.env "+16502530000".
    one_request TestDouble.env "777777".
    apply rtc_refl.
  - reflexivity.
Defined.

(** X11: no sequence of messages brings a new user's state to one on which
    processing raises, as long as the user store holds phone numbers as
    strings. *)
Theorem reachable_never_raises env st msg :
  reachable st -> store_ok env ->
  exists resp st', process_message env st msg = Ok (resp, st').
Proof.
  intros Hr Hstore.
  destruct (process_message_total env st msg Hstore
              (onboarded_wf _ (reachable_onboarded _ Hr)))
    as (resp & st' & H & _).
  eauto.
Qed.

Lemma reachable_never_raises_witness :
  exists resp st',
    process_message TestDouble.env (new_state TestDouble.env "u1") "hello"
    = Ok (resp, st').
Proof.
  exact (reachable_never_raises TestDouble.env
           (new_state TestDouble.env "u1") "hello"
           (new_state_reachable _ _) test_store_ok).
Defined.

(** X12: a reachable state in ACTIVE belongs to a user who agreed to the
    terms and whose name, email, phone and country code are stored as
    strings, with the marker of each of the five steps recorded. *)
Theorem active_means_verified st :
  reachable st -> current_step st = ACTIVE ->
  terms_agreed st = true /\
  has_str (data st) "first_name" /\ has_str (data st) "last_name" /\
  has_str (data st) "email" /\ has_str (data st) "phone" /\
  has_str (data st) "country_code" /\
  Forall (done st)
    ["terms_agreed"; "name_collected"; "email_collected";
     "phone_collected"; "otp_verified"].
Proof.
  intros Hr Hs.
  destruct (reachable_onboarded _ Hr) as (n & Hn & H1 & H2 & H3 & H4 & H5).
  rewrite Hs in Hn. injection Hn as <-.
  destruct (H1 ltac:(lia)) as [? ?]. destruct (H2 ltac:(lia)) as [[? ?] ?].
  destruct (H3 ltac:(lia)) as [? ?].
  destruct (H4 ltac:(lia)) as (? & ? & _ & _ & ?).
  specialize (H5 ltac:(lia)).
  repeat split; auto. repeat constructor; assumption.
Qed.

Lemma active_means_verified_witness :
  exists st,
    reachable st /\ current_step st = ACTIVE /\ terms_agreed st = true /\
    has_str (data st) "phone".
Proof.
  destruct verified_state_reachable as (st & Hr & Hs).
  exists st. split; [exact Hr|]. split; [exact Hs|].
  destruct (active_means_verified st Hr Hs) as (Ht & _ & _ & _ & Hp & _).
  split; [exact Ht | exact Hp].
Defined.

Lemma effect_rank st st' n :
  step_effect st st' -> rank (current_step st) = Some n ->
  exists n', rank (current_step st') = Some n' /\ n <= n'.
Proof.
  intros He Hn.
  destruct He as [| | | | |[|]| |]; unfold_all;
    try (exists n; split; [assumption | lia]);
    match goal with
    | Hs : current_step _ = _ |- _ => rewrite Hs in Hn; injection Hn as <-
    end; eexists; (split; [reflexivity | lia]).
Qed.

Lemma rtc_rank st st' :
  rtc request_step st st' ->
  forall n, rank (current_step st) = Some n ->
  exists n', rank (current_step st') = Some n' /\ n <= n'.
Proof.
  induction 1 as [|x y z (env & msg & resp & st1 & Hp & ->) _ IH];
    intros n Hn; [exists n; auto|].
  apply process_message_effect_aux in Hp.
  destruct (effect_rank _ _ _ Hp Hn) as (m & Hm & Hle).
  destruct (IH m Hm) as (k & Hk & Hmk). exists k. split; [exact Hk | lia].
Qed.

(** X13: a reachable state is in one of the six steps of the flow, never
    in VERIFIED or SUSPENDED, and along any sequence of requests the
    position of the step in the flow never decreases. *)
Theorem steps_never_go_back :
  (forall st, reachable st ->
     exists n, rank (current_step st) = Some n) /\
  (forall st st' n,
     rtc request_step st st' -> rank (current_step st) = Some n ->
     exists n', rank (current_step st') = Some n' /\ n <= n').
Proof.
  split.
  - intros st Hr. destruct (reachable_onboarded _ Hr) as (n & Hn & _). eauto.
  - intros st st' n H. now apply rtc_rank.
Qed.

Lemma steps_never_go_back_witness :
  exists n, rank (current_step (new_state TestDouble.env "u1")) = Some n.
Proof.
  apply (proj1 steps_never_go_back).
  apply new_state_reachable.
Defined.

Lemma effect_exhausted st st' :
  current_step st = AWAITING_OTP -> (3 <= failed_otp_attempts st)%Z ->
  step_effect st st' ->
  current_step st' = AWAITING_OTP /\ (3 <= failed_otp_attempts st')%Z.
Proof.
  intros Hs Hf He.
  destruct He as [| | | | |[|]| |]; unfold_all; try congruence;
    try (split; [assumption | lia]); lia.
Qed.

(** X14: three used attempts are final: from a state in AWAITING_OTP whose
    counter has reached three, no sequence of requests leaves the step or
    lowers the counter; the machine has no way to issue a second code. *)
Theorem exhausted_otp_is_final st st' :
  current_step st = AWAITING_OTP -> (3 <= failed_otp_attempts st)%Z ->
  rtc request_step st st' ->
  current_step st' = AWAITING_OTP /\ (3 <= failed_otp_attempts st')%Z.
Proof.
  intros Hs Hf H. revert Hs Hf.
  induction H as [|x y z (env & msg & resp & st1 & Hp & ->) _ IH];
    intros Hs Hf; [auto|].
  apply process_message_effect_aux in Hp.
  destruct (effect_exhausted _ _ Hs Hf Hp) as [Hs1 Hf1].
  apply IH; assumption.
Qed.

Lemma exhausted_otp_is_final_witness :
  exists st',
    request_step (TestDouble.otp_state 5000 3) st' /\
    current_step st' = AWAITING_OTP.
Proof.
  assert (H : exists st', request_step (TestDouble.otp_state 5000 3) st').
  { eexists. exists TestDouble.env, "123456". do 2 eexists.
    split; [vm_compute; reflexivity | reflexivity]. }
  destruct H as [st' H]. exists st'. split; [exact H|].
  apply (exhausted_otp_is_final (TestDouble.otp_state 5000 3) st').
  - reflexivity.
  - simpl. lia.
  - apply rtc_once. exact H.
Defined.

End ReachabilityFacts.

(** ** More on the tool registry *)
Module RegistryMoreFacts.
Import ToolRegistry RegistrySpec.

Lemma first_missing_none l params :
  first_missing l params = None <-> Forall (present params) l.
Proof.
  induction l as [|p l IH]; simpl; [split; auto|].
  destruct (bool_decide_reflect (is_Some (params !! p))) as [Hp|Hp].
  - rewrite IH. split; [now constructor | now inversion 1].
  - split; [discriminate | inversion 1; contradiction].
Qed.

Lemma first_missing_some l params p :
  first_missing l params = Some p <->
  exists pre post,
    l = pre ++ p :: post /\ Forall (present params) pre /\
    params !! p = None.
Proof.
  induction l as [|q l IH]; simpl.
  - split; [discriminate | intros ([|? ?] & post & H & _); discriminate].
  - destruct (bool_decide_reflect (is_Some (params !! q))) as [Hq|Hq].
    + rewrite IH. split.
      * intros (pre & post & -> & Hpre & Hp).
        exists (q :: pre), post. repeat split; auto.
      * intros ([|q' pre] & post & E & Hpre & Hp); simpl in E.
        -- injection E as -> _. rewrite Hp in Hq. now destruct Hq.
        -- injection E as -> ->. inversion Hpre; subst. eauto.
    + split.
      * intros [= ->]. exists [], l. repeat split; auto.
        destruct (params !! p) eqn:E; [|reflexivity].
        exfalso. apply Hq. eauto.
      * intros ([|q' pre] & post & E & Hpre & Hp); simpl in E.
        -- now injection E as ->.
        -- injection E as -> ->. inversion Hpre; subst. contradiction.
Qed.

Lemma tool_call_true_iff tools call :
  fst (validate_tool_call tools call) = true <->
  exists tool_def,
    tools !! name call = Some tool_def /\
    Forall (present (parameters call)) (default [] (td_required tool_def)).
Proof.
  unfold validate_tool_call.
  destruct (tools !! name call) as [tool_def|]; simpl.
  - destruct (first_missing _ _) as [p|] eqn:E; simpl.
    + split; [discriminate|]. intros (d & [= <-] & H).
      apply first_missing_none in H. congruence.
    + split; [|reflexivity]. intros _. exists tool_def.
      split; [reflexivity|]. now apply first_missing_none.
  - split; [discriminate | intros (d & H & _); discriminate].
Qed.

(** X15: a call passes validation exactly when its tool is registered and
    every parameter that the tool lists as required is among the call's
    parameters; the message is absent exactly for the calls that pass. *)
Theorem tool_call_valid_iff tools call :
  (fst (validate_tool_call tools call) = true <->
   exists tool_def,
     tools !! name call = Some tool_def /\
     Forall (present (parameters call))
       (default [] (td_required tool_def))) /\
  (fst (validate_tool_call tools call) = true <->
   snd (validate_tool_call tools call) = None).
Proof.
  split; [apply tool_call_true_iff|].
  unfold validate_tool_call.
  destruct (tools !! name call) as [tool_def|]; simpl;
    [|split; discriminate].
  destruct (first_missing _ _); simpl; split; auto; discriminate.
Qed.

(** X16: the parameter reported as missing is the first one, in the order
    of the tool's required list, that the call does not carry. *)
Theorem missing_parameter_is_first tools call tool_def param :
  tools !! name call = Some tool_def ->
  validate_tool_call tools call
    = (false, Some ("Missing required parameter: " +:+ param)) ->
  exists before after,
    default [] (td_required tool_def) = before ++ param :: after /\
    Forall (present (parameters call)) before /\
    parameters call !! param = None.
Proof.
  intros Ht. unfold validate_tool_call. rewrite Ht.
  destruct (first_missing _ _) as [p|] eqn:E; [|discriminate].
  intros [= H]. apply first_missing_some. now rewrite E, H.
Qed.

Lemma missing_parameter_is_first_witness :
  exists before after,
    ["date"; "time"; "purpose"] = before ++ "time" :: after /\
    Forall (present (dict_of [("date", VStr "2026-01-05")])) before.
Proof.
  destruct (missing_parameter_is_first
              (builtin_tools TestDouble.env)
              (mkToolCall "schedule_appointment"
                 (dict_of [("date", VStr "2026-01-05")]) None)
              (mkToolDef "schedule_appointment"
                 "Schedule an appointment for the user"
                 (Some ["date"; "time"; "purpose"])
                 (_handle_schedule_appointment TestDouble.env) true)
              "time" eq_refl eq_refl)
    as (before & after & E & Hb & _).
  exists before, after. split; [exact E | exact Hb].
Defined.

(** X17: validation looks at the tool name and at which parameters are
    present, never at their values: two calls to the same tool with the
    same parameter names get the same verdict and message. *)
Theorem validation_ignores_values tools call call' :
  name call = name call' ->
  dom (parameters call) = dom (parameters call') ->
  validate_tool_call tools call = validate_tool_call tools call'.
Proof.
  intros Hn Hd. unfold validate_tool_call. rewrite Hn.
  destruct (tools !! name call') as [tool_def|]; [|reflexivity].
  assert (H : forall l, first_missing l (parameters call)
                        = first_missing l (parameters call')).
  { induction l as [|p l IH]; simpl; [reflexivity|]. rewrite IH.
    assert (Hp : is_Some (parameters call !! p)
                 <-> is_Some (parameters call' !! p))
      by (rewrite <- !elem_of_dom, Hd; reflexivity).
    destruct (bool_decide_reflect (is_Some (parameters call !! p)));
      destruct (bool_decide_reflect (is_Some (parameters call' !! p)));
      tauto. }
  now rewrite H.
Qed.

Lemma validation_ignores_values_witness :
  validate_tool_call (builtin_tools TestDouble.env)
    (mkToolCall "get_available_slots"
       (dict_of [("date", VStr "2026-01-05")]) None)
  = validate_tool_call (builtin_tools TestDouble.env)
      (mkToolCall "get_available_slots" (dict_of [("date", VInt 7)]) None).
Proof.
  apply validation_ignores_values; [reflexivity|]. vm_compute. reflexivity.
Defined.

(** Registration is an insertion: the tool registered last under a
    name is the one found, other names are untouched, and registering a
    name again replaces the earlier entry. *)
Theorem register_tool_last_wins tools nm d r h a :
  register_tool tools nm d r h a !! nm = Some (mkToolDef nm d r h a) /\
  (forall other, other <> nm ->
     register_tool tools nm d r h a !! other = tools !! other) /\
  (forall d' r' h' a',
     register_tool (register_tool tools nm d' r' h' a') nm d r h a
     = register_tool tools nm d r h a).
Proof.
  unfold register_tool. split; [apply lookup_insert_eq|]. split.
  - intros other Hne. now apply lookup_insert_ne.
  - intros. apply insert_insert_eq.
Qed.

Lemma builtin_lookup env nm tool_def :
  builtin_tools env !! nm = Some tool_def ->
  (nm = "schedule_appointment" /\
   td_required tool_def = Some ["date"; "time"; "purpose"] /\
   td_handler tool_def = _handle_schedule_appointment env) \/
  (nm = "get_available_slots" /\
   td_required tool_def = Some ["date"] /\
   td_handler tool_def = _handle_get_available_slots) \/
  (nm = "cancel_appointment" /\
   td_required tool_def = Some ["appointment_id"] /\
   td_handler tool_def = _handle_cancel_appointment env).
Proof.
  unfold builtin_tools, register_tool.
  destruct (decide (nm = "cancel_appointment")) as [->|H1].
  { rewrite lookup_insert_eq. intros [= <-]. auto. }
  rewrite lookup_insert_ne by congruence.
  destruct (decide (nm = "get_available_slots")) as [->|H2].
  { rewrite lookup_insert_eq. intros [= <-]. auto. }
  rewrite lookup_insert_ne by congruence.
  destruct (decide (nm = "schedule_appointment")) as [->|H3].
  { rewrite lookup_insert_eq. intros [= <-]. auto. }
  rewrite lookup_insert_ne by congruence. rewrite lookup_empty. discriminate.
Qed.

Lemma present_item params p :
  present params p -> exists v, dict_item params p = Ok v.
Proof. intros [v H]. exists v. unfold dict_item. now rewrite H. Qed.

(** X19: the built-in registry accepts only its three tools, and a call it
    accepts never makes its handler fail: the required lists cover every
    parameter the handlers read without a default. *)
Theorem builtin_tools_are_guarded env call uid context :
  fst (validate_tool_call (builtin_tools env) call) = true ->
  In (name call)
    ["schedule_appointment"; "get_available_slots"; "cancel_appointment"] /\
  exists tool_def v,
    builtin_tools env !! name call = Some tool_def /\
    td_handler tool_def (parameters call) uid context = Ok v.
Proof.
  intros H. apply tool_call_true_iff in H as (d & Hd & Hreq).
  destruct (builtin_lookup _ _ _ Hd) as [(Hn & Hr & Hh)|[(Hn & Hr & Hh)
                                         |(Hn & Hr & Hh)]];
    rewrite Hr in Hreq; cbn [default] in Hreq; rewrite Hn;
    (split; [simpl; tauto|]); rewrite <- Hn; exists d; rewrite Hh.
  - inversion Hreq as [|? ? P1 Hreq1]; subst.
    inversion Hreq1 as [|? ? P2 Hreq2]; subst.
    inversion Hreq2 as [|? ? P3 _]; subst.
    destruct (present_item _ _ P1) as [v1 E1].
    destruct (present_item _ _ P2) as [v2 E2].
    destruct (present_item _ _ P3) as [v3 E3].
    eexists. split; [exact Hd|].
    unfold _handle_schedule_appointment.
    rewrite E1, OTPFacts.bind_ok, E2, OTPFacts.bind_ok, E3, OTPFacts.bind_ok.
    reflexivity.
  - inversion Hreq as [|? ? P1 _]; subst.
    destruct (present_item _ _ P1) as [v1 E1].
    eexists. split; [exact Hd|].
    unfold _handle_get_available_slots. rewrite E1, OTPFacts.bind_ok.
    reflexivity.
  - inversion Hreq as [|? ? P1 _]; subst.
    destruct (present_item _ _ P1) as [v1 E1].
    eexists. split; [exact Hd|].
    unfold _handle_cancel_appointment. rewrite E1, OTPFacts.bind_ok.
    reflexivity.
Qed.

Lemma builtin_tools_are_guarded_witness :
  exists tool_def v,
    builtin_tools TestDouble.env !! "cancel_appointment" = Some tool_def /\
    td_handler tool_def (dict_of [("appointment_id", VStr "apt_1")]) "u1" ∅
    = Ok v.
Proof.
  exact (proj2 (builtin_tools_are_guarded TestDouble.env
                  (mkToolCall "cancel_appointment"
                     (dict_of [("appointment_id", VStr "apt_1")]) None)
                  "u1" ∅ eq_refl)).
Defined.

End RegistryMoreFacts.

(** ** More on the email validator and the email step *)
Module EmailMoreFacts.
Import PyStr PyStrFacts EmailValidator Reference EmailFacts ExtractionFacts
       StateMachine Invariant OTPFacts WorkflowFacts.

(** A valid normalized address has the shape and is its own normal form. *)
Lemma valid_normal_form x :
  _is_valid_format (lower (strip x)) = true ->
  let e := lower (strip x) in
  local_at_domain_tld e /\ lower e = e /\ strip e = e.
Proof.
  intros H e. apply valid_format_iff in H as (_ & _ & m & tail & E & L & Hend).
  assert (Hs : local_at_domain_tld e).
  { apply RegexFacts.at_end_iff in Hend as [->| ->].
    - rewrite app_nil_r in E. subst e. now rewrite E.
    - exfalso. eapply normalized_no_newline. exact E. }
  split; [exact Hs|]. split.
  - apply lower_idem.
  - apply strip_nonspace. now apply shape_nonspace.
Qed.

(** X20: the address a successful validation returns is the input stripped
    and lowercased, and it is a fixed point: stripping and lowercasing it
    change nothing, and validating it again succeeds. *)
Theorem validated_email_is_normal env x last_name :
  success (validate env x last_name) = true ->
  let e := lower (strip x) in
  (vr_data (validate env x last_name) ≫= (.!! "email")) = Some (VStr e) /\
  lower e = e /\ strip e = e /\
  forall env' last_name', success (validate env' e last_name') = true.
Proof.
  intros H e. rewrite validate_success in H.
  destruct (valid_normal_form x H) as (Hs & Hl & Ht). fold e in Hs, Hl, Ht.
  split.
  - unfold validate. rewrite H. reflexivity.
  - repeat split; auto. intros env' ln'.
    rewrite validate_success, Ht, Hl. exact H.
Qed.

Lemma validated_email_is_normal_witness :
  (vr_data (validate TestDouble.env "  John@X.com " VNone)
     ≫= (.!! "email")) = Some (VStr "john@x.com") /\
  success (validate TestDouble.env "john@x.com" (VStr "Smith")) = true.
Proof.
  destruct (validated_email_is_normal TestDouble.env "  John@X.com " VNone
              eq_refl) as (Hd & _ & _ & Hv).
  split; [exact Hd | exact (Hv TestDouble.env (VStr "Smith"))].
Defined.

(** X21: a valid address is reported as a returning user's exactly when a
    last name was given and the store query returns a document; the data
    then carry the fields of the first document returned. *)
Theorem returning_user_iff env x last_name :
  success (validate env x last_name) = true ->
  let e := lower (strip x) in
  let r := validate env x last_name in
  ((vr_data r ≫= (.!! "is_returning_user")) = Some (VBool true) <->
   truthy last_name = true /\
   exists doc_id doc rest,
     query_users env e last_name = Ok ((doc_id, doc) :: rest)) /\
  (forall doc_id doc rest,
     truthy last_name = true ->
     query_users env e last_name = Ok ((doc_id, doc) :: rest) ->
     (vr_data r ≫= (.!! "user_data"))
     = Some (VDict (dict_of
         [("user_id", VStr doc_id);
          ("first_name", dict_get doc "first_name");
          ("last_name", dict_get doc "last_name");
          ("phone", dict_get doc "phone");
          ("country_code", dict_get doc "country_code");
          ("verified", dict_get_or doc "verified" (VBool false))]))).
Proof.
  intros H e r. rewrite validate_success in H. fold e in H.
  subst r. unfold validate. fold e. rewrite H. cbn [negb].
  unfold _check_returning_user.
  destruct (truthy last_name).
  - destruct (query_users env e last_name) as [[|[doc_id doc] rest]|] eqn:Hq.
    + split.
      * split; [intros [=] | intros (_ & ? & ? & ? & [=])].
      * intros ? ? ? _ [=].
    + split.
      * split; [intros _; eauto 6 | intros _; reflexivity].
      * intros ? ? ? _ [= <- <- <-]. reflexivity.
    + split.
      * split; [intros [=] | intros (_ & ? & ? & ? & [=])].
      * intros ? ? ? _ [=].
  - split.
    + split; [intros [=] | intros ([=] & _)].
    + intros ? ? ? [=].
Qed.

Lemma returning_user_iff_witness :
  (vr_data (validate TestDouble.env "john@x.com" (VStr "Smith"))
     ≫= (.!! "is_returning_user")) <> Some (VBool true).
Proof.
  intros H.
  apply (proj1 (returning_user_iff TestDouble.env "john@x.com"
                  (VStr "Smith") eq_refl)) in H.
  destruct H as (_ & doc_id & doc & rest & H). discriminate H.
Defined.


(** An extracted address is in normal form: email-shaped, lowercase,
    free of surrounding whitespace and with exactly one [@]. *)
Theorem extracted_email_is_normal text e :
  extract_email_from_text text = Some e ->
  local_at_domain_tld e /\ lower e = e /\ strip e = e /\ count "@" e = 1.
Proof.
  unfold extract_email_from_text.
  destruct (Regex.search extraction_pattern text) as [m|] eqn:Hs;
    [|discriminate].
  intros [= <-].
  destruct (RegexFacts.search_some _ _ _ Hs) as (pre & (post & _ & L) & _).
  apply lang_email_iff in L. apply shape_lower in L.
  repeat split; auto using lower_idem, shape_one_at.
  apply strip_nonspace. now apply shape_nonspace.
Qed.

Lemma extracted_email_is_normal_witness :
  lower "a.b@c.org" = "a.b@c.org" /\ count "@" "a.b@c.org" = 1.
Proof.
  destruct (extracted_email_is_normal "Write to A.B@C.org, please"
              "a.b@c.org" eq_refl) as (_ & Hl & _ & Hc).
  split; [exact Hl | exact Hc].
Defined.





End EmailMoreFacts.

(** ** The name and phone validators, and the steps that use them *)
Module ValidatorMoreFacts.
Import PyStr StateMachine Invariant OTPFacts WorkflowFacts.

Lemma nonempty_iff s : nonempty s = true <-> s <> "".
Proof. destruct s; simpl; split; congruence. Qed.







(** A phone number is accepted exactly when the input is not blank,
    the library parses it and calls the parsed number valid; what is handed
    back is the library's E.164 form and the country code with a plus
    sign.  A blank input is rejected without the library being asked. *)
Theorem phone_accepted_iff env region input r :
  let v := PhoneValidator.validate env region input r in
  (success v = true <->
   strip input <> "" /\
   exists n,
     phonenumbers_parse env (strip input)
       (PhoneValidator.parse_region region r) = Parsed n /\
     pn_valid n = true /\
     (vr_data v ≫= (.!! "phone")) = Some (VStr (pn_e164 n)) /\
     (vr_data v ≫= (.!! "country_code"))
       = Some (VStr ("+" +:+ pn_country_code n))) /\
  (strip input = "" -> v = failure "Please provide a phone number.").
Proof.
  intros v. subst v. unfold PhoneValidator.validate.
  destruct (nonempty (strip input)) eqn:Hin; cbn [negb].
  - apply nonempty_iff in Hin. split; [|intros; contradiction]. split.
    + destruct (phonenumbers_parse _ _ _) as [n| |] eqn:Hp;
        try discriminate.
      destruct (pn_valid n) eqn:Hv; cbn [negb]; [|discriminate].
      intros _. split; [exact Hin|]. exists n. repeat split; auto.
    + intros (_ & n & -> & -> & _). reflexivity.
  - assert (strip input = "")
      by (destruct (strip input); [auto|discriminate]).
    split; [|reflexivity]. split; [discriminate | tauto].
Qed.

(** X25: in the four collecting steps a message that the step's validator
    rejects leaves the state exactly as it was; only the OTP step writes on
    a rejection. *)
Theorem rejection_changes_nothing env st msg :
  step_validator env st msg = Some false ->
  current_step st <> AWAITING_OTP ->
  exists resp, process_message env st msg = Ok (resp, st).
Proof.
  unfold process_message, step_validator.
  destruct (current_step st) eqn:Hs; try discriminate; try congruence.
  - intros [= H] _. unfold _handle_terms. rewrite H. eauto.
  - intros [= H] _. unfold _handle_name. rewrite H. eauto.
  - intros [= H] _. unfold _handle_email. cbv zeta. rewrite H. eauto.
  - intros [= H] _. unfold _handle_phone. cbv zeta. rewrite H. eauto.
Qed.

Lemma rejection_changes_nothing_witness :
  exists resp,
    process_message TestDouble.env TestDouble.phone_state "   "
    = Ok (resp, TestDouble.phone_state).
Proof.
  apply (rejection_changes_nothing TestDouble.env TestDouble.phone_state
           "   ").
  - vm_compute. reflexivity.
  - discriminate.
Defined.

Lemma phone_data_lookup (d : pydict) (p c : pyval) :
  let d' := <["country_code" := c]> (<["phone" := p]> d) in
  d' !! "email" = d !! "email" /\
  d' !! "first_name" = d !! "first_name" /\
  d' !! "last_name" = d !! "last_name" /\
  d' !! "phone" = Some p /\
  d' !! "country_code" = Some c.
Proof.
  cbv zeta. repeat split.
  - now rewrite !lookup_insert_ne by discriminate.
  - now rewrite !lookup_insert_ne by discriminate.
  - now rewrite !lookup_insert_ne by discriminate.
  - rewrite lookup_insert_ne by discriminate. apply lookup_insert_eq.
  - apply lookup_insert_eq.
Qed.

Lemma handle_phone_sent env st msg email :
  success (PhoneValidator.validate env default_region
             (phone_to_validate env msg) None) = true ->
  data st !! "email" = Some (VStr email) ->
  send_otp_email env email (OTPValidator.generate_otp env)
    (dict_get (data st) "first_name") = true ->
  exists resp p cc,
    _handle_phone env st msg
    = Ok (resp,
          set_current_step AWAITING_OTP
            (set_failed_otp_attempts 0
              (set_otp (Some (OTPValidator.hash_otp env
                                (OTPValidator.generate_otp env)))
                 (Some (now env + 300000000)%Z)
                 (append_completed "phone_collected"
                    (set_item "country_code" (VStr cc)
                       (set_item "phone" (VStr p) st)))))).
Proof.
  intros Hok Hemail Hsend. unfold _handle_phone. rewrite Hok.
  destruct (PhoneFacts.phone_validate_success _ _ _ _ Hok) as [n ->].
  unfold result_item, vr_data.
  replace (dict_item _ "phone") with (Ok (VStr (pn_e164 n)))
    by reflexivity.
  rewrite bind_ok.
  replace (dict_item _ "country_code")
    with (Ok (VStr ("+" +:+ pn_country_code n))) by reflexivity.
  rewrite bind_ok.
  unfold dict_item at 1. unfold_state.
  rewrite !lookup_insert_ne by discriminate. rewrite Hemail, bind_ok.
  unfold OTPValidator.create_otp_data, as_str. rewrite !bind_ok.
  cbn [email_sent_to]. unfold dict_get.
  rewrite !lookup_insert_ne by discriminate. fold (dict_get (data st) "first_name").
  rewrite Hsend. eauto.
Qed.

(** X26: the phone step and the OTP step fit together: when a valid phone
    number is given and the code is mailed, the state moves to
    AWAITING_OTP, and submitting the mailed code within five minutes, to a
    validator with the same hash and salt, moves it to ACTIVE. *)
Theorem mailed_code_opens_active env env' st msg email f l :
  current_step st = AWAITING_PHONE ->
  success (PhoneValidator.validate env default_region
             (phone_to_validate env msg) None) = true ->
  data st !! "email" = Some (VStr email) ->
  data st !! "first_name" = Some (VStr f) ->
  data st !! "last_name" = Some (VStr l) ->
  send_otp_email env email (OTPValidator.generate_otp env) (VStr f) = true ->
  OTPValidator.hash_otp env' (OTPValidator.generate_otp env)
    = OTPValidator.hash_otp env (OTPValidator.generate_otp env) ->
  (now env' <= now env + 300000000)%Z ->
  exists resp st1 resp' st2,
    process_message env st msg = Ok (resp, st1) /\
    current_step st1 = AWAITING_OTP /\
    process_message env' st1 (OTPValidator.generate_otp env)
      = Ok (resp', st2) /\
    current_step st2 = ACTIVE /\
    completed_steps st2
      = completed_steps st ++ ["phone_collected"; "otp_verified"].
Proof.
  intros Hs Hok He Hf Hl Hsend Hhash Hnow.
  destruct (handle_phone_sent env st msg email Hok He) as (resp & p & cc & H1).
  { unfold dict_get. rewrite Hf. exact Hsend. }
  unfold process_message at 1. rewrite Hs, H1.
  do 2 eexists. exists (generate_response env'
    [("step", VStr "otp_verified"); ("first_name", VStr f)]).
  eexists. split; [reflexivity|]. split; [reflexivity|].
  unfold process_message. cbn [current_step set_current_step].
  unfold _handle_otp, reconstruct_otp_data, dict_item, required, as_str.
  unfold_state.
  destruct (phone_data_lookup (data st) (VStr p) (VStr cc))
    as (L1 & L2 & L3 & L4 & L5).
  rewrite L1, He, !bind_ok.
  destruct (generate_otp_digits env) as [Hd Hlen].
  assert (Hv : exists r,
             OTPValidator.validate env' (OTPValidator.generate_otp env)
               (mkOTPData (user_id st)
                  (OTPValidator.hash_otp env (OTPValidator.generate_otp env))
                  (now env + 300000000) 0 3 email (now env')) = Ok r /\
             success r = true).
  { apply OTPMoreFacts.validate_true_iff.
    rewrite (filter_all _ _ Hd). cbn [expires_at attempts max_attempts
                                        od_otp_hash].
    repeat split; auto; lia. }
  destruct Hv as (r & Hv & Hr).
  cbn [user_id failed_otp_attempts set_current_step set_failed_otp_attempts
       set_otp append_completed set_item].
  rewrite Hv, bind_ok, Hr. unfold_state.
  rewrite ?L1, ?L2, ?L3, ?L4, ?L5, ?He, ?Hf, ?Hl, !bind_ok.
  split; [reflexivity|]. split; [reflexivity|].
  unfold_state. now rewrite <- app_assoc.
Qed.

Lemma mailed_code_opens_active_witness :
  exists resp st1 resp' st2,
    process_message TestDouble.env TestDouble.phone_state "+16502530000"
      = Ok (resp, st1) /\
    process_message TestDouble2.env_later st1 "777777" = Ok (resp', st2) /\
    current_step st2 = ACTIVE.
Proof.
  destruct (mailed_code_opens_active TestDouble.env TestDouble2.env_later
              TestDouble.phone_state "+16502530000" "john@x.com" "John"
              "Smith" eq_refl eq_refl eq_refl eq_refl eq_refl eq_refl
              eq_refl)
    as (resp & st1 & resp' & st2 & H1 & _ & H2 & H3 & _).
  { vm_compute. discriminate. }
  exists resp, st1, resp', st2. repeat split; assumption.
Defined.

End ValidatorMoreFacts.

(** ** Masking *)
Module SecurityFacts.
Import PyStr PyStrFacts PySlice SecurityManager Reference.

Lemma length_take n s : String.length (take n s) <= n.
Proof.
  revert s. induction n as [|n IH]; intros [|c s]; simpl; try lia.
  specialize (IH s). lia.
Qed.

Lemma length_drop n s : String.length (drop n s) = String.length s - n.
Proof.
  revert s. induction n as [|n IH]; intros [|c s]; simpl; try lia.
  apply IH.
Qed.

Lemma length_suffix n s : String.length (suffix n s) <= n.
Proof. unfold suffix. rewrite length_drop. lia. Qed.

Lemma drop_app a b : drop (String.length a) (a +:+ b) = b.
Proof. induction a as [|c a IH]; simpl; [now destruct b | exact IH]. Qed.

Lemma suffix_app n a b : String.length b = n -> suffix n (a +:+ b) = b.
Proof.
  intros <-. unfold suffix. rewrite length_app.
  replace (String.length a + String.length b - String.length b)
    with (String.length a) by lia.
  apply drop_app.
Qed.

Lemma length_take_exact n s :
  n <= String.length s -> String.length (take n s) = n.
Proof.
  revert s. induction n as [|n IH]; intros [|c s]; simpl; try lia.
  intros H. rewrite IH; lia.
Qed.

Lemma length_suffix_exact n s :
  n <= String.length s -> String.length (suffix n s) = n.
Proof. intros H. unfold suffix. rewrite length_drop. lia. Qed.

Ltac len_tac :=
  repeat first
    [ rewrite length_app
    | progress cbn [String.length String.append] ].

Lemma stars_inside a b : has_substring "***" (a +:+ "***" +:+ b).
Proof. now exists a, b. Qed.

Lemma app_assoc_rev (a b c : string) : a +:+ (b +:+ c) = (a +:+ b) +:+ c.
Proof. symmetry. apply app_assoc. Qed.

Lemma stars_alone : has_substring "***" "***".
Proof. now exists "", "". Qed.

(** The three ways the country code is cut off. *)
Lemma masked_with_code cc rest :
  String.length cc <= 4 ->
  let r :=
    if 7 <=? String.length rest then
      cc +:+ " " +:+ take 3 rest +:+ "-***-" +:+ suffix 4 rest
    else if 4 <=? String.length rest then cc +:+ " ***-" +:+ suffix 4 rest
    else cc +:+ " ***" in
  has_substring "***" r /\ String.length r <= 17.
Proof.
  intros Hcc r. subst r.
  pose proof (length_take 3 rest). pose proof (length_suffix 4 rest).
  destruct (7 <=? String.length rest); [|destruct (4 <=? String.length rest)].
  - split.
    + exists (cc +:+ " " +:+ take 3 rest +:+ "-"), ("-" +:+ suffix 4 rest).
      rewrite !app_assoc. reflexivity.
    + len_tac. lia.
  - split.
    + exists (cc +:+ " "), ("-" +:+ suffix 4 rest).
      rewrite !app_assoc. reflexivity.
    + len_tac. lia.
  - split.
    + exists (cc +:+ " "), "". rewrite !app_assoc. reflexivity.
    + len_tac. lia.
Qed.

(** X27: whatever the input, the masked phone contains the three stars and
    has at most 17 characters. *)
Theorem masked_phone_is_short phone :
  has_substring "***" (mask_phone phone) /\
  String.length (mask_phone phone) <= 17.
Proof.
  unfold mask_phone.
  destruct (negb (nonempty phone) || (String.length phone <? 4));
    [split; [apply stars_alone | simpl; lia]|].
  destruct (String.prefix "+" phone).
  - destruct (8 <? String.length phone).
    + destruct (isdigit_str (slice 1 4 phone) && negb (digit_at 4 phone));
        [|destruct (isdigit_str (slice 1 3 phone)
                    && negb (digit_at 3 phone))];
        apply masked_with_code;
        match goal with
        | |- String.length (take ?k _) <= _ =>
            pose proof (length_take k phone); lia
        end.
    + split.
      * exists (take 3 phone), "". now rewrite app_nil_r.
      * pose proof (length_take 3 phone). len_tac. lia.
  - destruct (6 <? String.length phone).
    + split; [apply stars_inside|].
      pose proof (length_take 2 phone).
      pose proof (length_suffix 2 phone). len_tac. lia.
    + split; [apply stars_alone | simpl; lia].
Qed.

Lemma prefix_plus s : String.prefix "+" (String "+" s) = true.
Proof.
  cbn [String.prefix]. destruct (ascii_dec "+" "+"); [|congruence].
  now destruct s.
Qed.

(** X28: for a plus sign followed by eight or more digits the country code
    is always cut after one digit: the result shows the plus sign, the
    first digit, the next three digits and the last four. *)
Theorem mask_phone_e164 d c1 c2 c3 rest :
  all isdigit (String d (String c1 (String c2 (String c3 rest)))) = true ->
  4 <= String.length rest ->
  let digits := String c1 (String c2 (String c3 rest)) in
  mask_phone (String "+" (String d digits))
  = String "+" (String d "") +:+ " " +:+ take 3 digits +:+ "-***-"
      +:+ suffix 4 digits.
Proof.
  intros Hall Hlen digits. subst digits.
  cbn [all] in Hall. rewrite !andb_true_iff in Hall.
  destruct Hall as (Hd & H1 & H2 & H3 & _).
  unfold mask_phone. rewrite prefix_plus.
  cbn [nonempty negb orb String.length].
  replace (S (S (S (S (S (String.length rest))))) <? 4) with false
    by (symmetry; apply Nat.ltb_ge; lia).
  replace (8 <? S (S (S (S (S (String.length rest)))))) with true
    by (symmetry; apply Nat.ltb_lt; lia).
  unfold isdigit_str, slice, digit_at.
  cbn [drop take Nat.sub String.get nonempty all andb].
  rewrite Hd, H1, H2, H3. cbn [andb negb].
  replace (7 <=? String.length (String c1 (String c2 (String c3 rest))))
    with true
    by (symmetry; apply Nat.leb_le; cbn [String.length]; lia).
  reflexivity.
Qed.

Lemma mask_phone_e164_witness :
  mask_phone "+442012345678" = "+4 420-***-5678".
Proof.
  exact (mask_phone_e164 "4" "4" "2" "0" "12345678" eq_refl
           ltac:(simpl; lia)).
Defined.

Lemma mask_value_idem key v :
  mask_value key (mask_value key v) = mask_value key v.
Proof.
  unfold mask_value. destruct (is_sensitive key); [|reflexivity].
  destruct v as [| | |s| |]; try reflexivity.
  destruct (Nat.ltb_spec 4 (String.length s)) as [H|H]; [|reflexivity].
  assert (H2 : String.length (take 2 s) = 2)
    by (apply length_take_exact; lia).
  assert (H3 : String.length (suffix 2 s) = 2)
    by (apply length_suffix_exact; lia).
  replace (4 <? String.length (take 2 s +:+ "***" +:+ suffix 2 s)) with true
    by (symmetry; apply Nat.ltb_lt; len_tac; lia).
  f_equal. f_equal.
  - rewrite <- H2 at 1. apply take_app.
  - f_equal. rewrite app_assoc_rev. apply suffix_app. exact H3.
Qed.

Lemma mask_lookup data k :
  mask_for_logging data !! k = mask_value k <$> data !! k.
Proof.
  unfold mask_for_logging. rewrite map_lookup_imap.
  now destruct (data !! k).
Qed.

(** X29: masking for the log keeps every key, changes nothing but string
    values under sensitive keys, shows at most the first two and last two
    characters of those, and masking twice is masking once. *)
Theorem mask_for_logging_is_idempotent data :
  dom (mask_for_logging data) = dom data /\
  mask_for_logging (mask_for_logging data) = mask_for_logging data /\
  (forall k v,
     data !! k = Some v ->
     is_sensitive k = false \/ (forall s, v <> VStr s) ->
     mask_for_logging data !! k = Some v) /\
  (forall k s,
     data !! k = Some (VStr s) -> is_sensitive k = true ->
     exists m,
       mask_for_logging data !! k = Some (VStr m) /\
       String.length m <= 7 /\
       (m = "***" \/ m = take 2 s +:+ "***" +:+ suffix 2 s)).
Proof.
  split; [|split; [|split]].
  - apply set_eq. intros k. rewrite !elem_of_dom, mask_lookup.
    now rewrite fmap_is_Some.
  - apply map_eq. intros k. rewrite !mask_lookup.
    destruct (data !! k); cbn [fmap option_fmap option_map];
      [|reflexivity].
    now rewrite mask_value_idem.
  - intros k v Hk Hcase. rewrite mask_lookup, Hk.
    cbn [fmap option_fmap option_map]. f_equal. unfold mask_value.
    destruct Hcase as [-> | Hv]; [reflexivity|].
    destruct (is_sensitive k); [|reflexivity].
    destruct v; try reflexivity. now destruct (Hv s).
  - intros k s Hk Hs. rewrite mask_lookup, Hk.
    cbn [fmap option_fmap option_map]. unfold mask_value. rewrite Hs.
    destruct (4 <? String.length s); eexists; (split; [reflexivity|]).
    + pose proof (length_take 2 s). pose proof (length_suffix 2 s).
      split; [len_tac; lia | auto].
    + split; [simpl; lia | auto].
Qed.

Lemma mask_for_logging_is_idempotent_witness :
  exists m,
    mask_for_logging TestDouble.collected !! "email" = Some (VStr m) /\
    String.length m <= 7.
Proof.
  destruct (proj2 (proj2 (proj2
              (mask_for_logging_is_idempotent TestDouble.collected)))
              "email" "john@x.com" eq_refl eq_refl)
    as (m & Hm & Hl & _).
  exists m. split; [exact Hm | exact Hl].
Defined.

End SecurityFacts.

(** ** Loading and saving the state *)
Module StateStoreFacts.
Import StateMachine StateStore.

(** A saved state is what the next load of the same user returns,
    with the save's timestamp; the save touches no other user's document
    and keeps every document under its own id. *)
Theorem saved_state_is_loaded env env' db st :
  let st1 := fst (save_state env db st) in
  let db1 := snd (save_state env db st) in
  st1 = set_updated_at (Some (now env)) st /\
  get_or_create_state env' db1 (user_id st) = (st1, db1) /\
  (forall uid, uid <> user_id st -> db1 !! uid = db !! uid) /\
  (keyed db -> keyed db1).
Proof.
  cbv zeta. unfold save_state, get_or_create_state. cbn [fst snd user_id
    set_updated_at].
  split; [reflexivity|]. split; [now rewrite lookup_insert_eq|]. split.
  - intros uid Hne. now rewrite lookup_insert_ne.
  - intros Hk uid s. destruct (decide (uid = user_id st)) as [->|Hne].
    + rewrite lookup_insert_eq. now intros [= <-].
    + rewrite lookup_insert_ne by congruence. apply Hk.
Qed.

(** Loading an unknown user creates a state in AWAITING_TERMS with
    nothing collected and stores it; loading again, at any later time,
    returns the same state and leaves the collection alone; other users'
    documents are never touched and documents stay under their ids. *)
Theorem load_creates_once env env' db uid :
  let st1 := fst (get_or_create_state env db uid) in
  let db1 := snd (get_or_create_state env db uid) in
  (db !! uid = None ->
   st1 = new_state env uid /\ current_step st1 = AWAITING_TERMS /\
   data st1 = ∅ /\ completed_steps st1 = []) /\
  get_or_create_state env' db1 uid = (st1, db1) /\
  (forall other, other <> uid -> db1 !! other = db !! other) /\
  (keyed db -> keyed db1 /\ user_id st1 = uid).
Proof.
  cbv zeta. unfold get_or_create_state.
  destruct (db !! uid) as [st|] eqn:E; cbn [fst snd].
  - split; [discriminate|]. split; [now rewrite E|].
    split; [reflexivity|]. intros Hk. split; [exact Hk | now apply Hk].
  - split; [intros _; repeat split; reflexivity|].
    split; [now rewrite lookup_insert_eq|]. split.
    + intros other Hne. now rewrite lookup_insert_ne.
    + intros Hk. split; [|reflexivity].
      intros k s. destruct (decide (k = uid)) as [->|Hne].
      * rewrite lookup_insert_eq. now intros [= <-].
      * rewrite lookup_insert_ne by congruence. apply Hk.
Qed.

End StateStoreFacts.

(** ** The name format check *)
Module NameFormatFacts.
Import PyStr PyStrFacts PySlice NameFormat EmailFacts.

Lemma alpha_is_kept c :
  isalpha c = true -> negb (Ascii.eqb c " ") = true /\ isdigit c = false.
Proof.
  intros H.
  all_chars c (fun c => implb (isalpha c)
                          (negb (Ascii.eqb c " ") && negb (isdigit c))).
  rewrite H in H0. cbn [implb] in H0. apply andb_true_iff in H0 as [H1 H2].
  split; [exact H1 | now destruct (isdigit c)].
Qed.

Lemma letters_are_not_digits s :
  any isalpha s = true -> all isdigit (remove_spaces s) = false.
Proof.
  unfold remove_spaces.
  induction s as [|c s IH]; cbn [any filter]; [discriminate|].
  destruct (isalpha c) eqn:Hc; cbn [orb].
  - intros _. destruct (alpha_is_kept c Hc) as [-> Hd].
    cbn [all]. now rewrite Hd.
  - intros H. specialize (IH H).
    destruct (negb (Ascii.eqb c " ")); [|exact IH].
    cbn [all]. rewrite IH. apply andb_false_r.
Qed.

(** X30: the format check accepts exactly the names that, stripped, have
    between 2 and 100 characters and contain a letter; the final test
    against all-digit names never rejects anything the letter test
    passed. *)
Theorem name_format_iff name :
  is_valid_name_format name = true <->
  2 <= String.length (strip name) <= 100 /\
  any isalpha (strip name) = true.
Proof.
  unfold is_valid_name_format.
  destruct (nonempty name) eqn:Hn; cbn [negb orb].
  - destruct (nonempty (strip name)) eqn:Hs; cbn [negb].
    + destruct (Nat.ltb_spec (String.length (strip name)) 2);
        [split; [discriminate | lia]|].
      destruct (Nat.ltb_spec 100 (String.length (strip name)));
        [split; [discriminate | lia]|].
      destruct (any isalpha (strip name)) eqn:Ha; cbn [negb];
        [|split; [discriminate | intros [_ [=]]]].
      unfold isdigit_str. rewrite (letters_are_not_digits _ Ha).
      rewrite andb_false_r.
      split; [intros _; split; [lia | reflexivity] | reflexivity].
    + split; [discriminate|]. intros [H _].
      destruct (strip name); [simpl in H; lia | discriminate].
  - split; [discriminate|]. intros [H _].
    destruct name; [simpl in H; lia | discriminate].
Qed.

End NameFormatFacts.
